(** * pyHYDRA [classification.py]: nested cross-validation of a linear SVM

    A shallow embedding of [src/pyHYDRA/classification.py] and the
    properties of its selection, aggregation, validation and variance code.

    Conventions of the embedding.

    - A NumPy / Python double is a real number or one of the IEEE special
      values (infinities, NaN).  Rounding and signed zeros are not
      modelled: finite arithmetic is exact arithmetic on [R].
    - NumPy scalar and array arithmetic never raises: a division by zero
      gives an infinity or NaN (with a warning, which is not an effect of
      the model).  Python [int] and [float] division by zero raises
      [ZeroDivisionError].
    - Exceptions are the [Raise] results of an error monad; attribute
      mutation of [self] and the global NumPy random state are threaded as
      state, so the state reached at the point of a [raise] is observable.
    - scikit-learn and [utils.evaluate_prediction] are collaborators
      outside the file; they are taken as parameters.  The few pandas and
      [os] calls are modelled directly, on tables kept as lists of rows.
    - The code is read as Python 3 ([/] is true division).
    - [print] calls are left out.  Every [apply_async] is followed at once
      by [get], so the work of a thread pool runs in program order; of the
      pools only their creation is modelled (it rejects a worker count
      of 0). *)

From Stdlib Require Import String Ascii DecimalString Reals Lra Lia ZArith Bool List.
Import ListNotations.

Open Scope R_scope.

(* ================================================================== *)
(** * Numeric values *)

Inductive npfloat : Type :=
| Fin (r : R)
| Inf (positive : bool)
| NaN.

Definition Rltb (a b : R) : bool := if Rlt_dec a b then true else false.
Definition Reqb (a b : R) : bool := if Req_dec_T a b then true else false.

Module Np.

Definition neg (x : npfloat) : npfloat :=
  match x with
  | Fin a => Fin (- a)
  | Inf s => Inf (negb s)
  | NaN => NaN
  end.

Definition add (x y : npfloat) : npfloat :=
  match x, y with
  | NaN, _ | _, NaN => NaN
  | Fin a, Fin b => Fin (a + b)
  | Fin _, Inf s | Inf s, Fin _ => Inf s
  | Inf s, Inf t => if Bool.eqb s t then Inf s else NaN
  end.

Definition sub (x y : npfloat) : npfloat := add x (neg y).

Definition mul (x y : npfloat) : npfloat :=
  match x, y with
  | NaN, _ | _, NaN => NaN
  | Fin a, Fin b => Fin (a * b)
  | Fin a, Inf s | Inf s, Fin a =>
      if Reqb a 0 then NaN else Inf (if Rltb 0 a then s else negb s)
  | Inf s, Inf t => Inf (Bool.eqb s t)
  end.

(** [x / y] on NumPy scalars: no exception; a zero divisor is [+0]. *)
Definition div (x y : npfloat) : npfloat :=
  match x, y with
  | NaN, _ | _, NaN => NaN
  | Fin a, Fin b =>
      if Reqb b 0
      then (if Reqb a 0 then NaN else Inf (Rltb 0 a))
      else Fin (a / b)
  | Fin _, Inf _ => Fin 0
  | Inf s, Fin b => Inf (if Rltb b 0 then negb s else s)
  | Inf _, Inf _ => NaN
  end.

(** [x ** 2] *)
Definition square (x : npfloat) : npfloat := mul x x.

(** [x > y]: false as soon as one side is NaN. *)
Definition gt (x y : npfloat) : bool :=
  match x, y with
  | Fin a, Fin b => Rltb b a
  | Inf true, Fin _ | Inf true, Inf false | Fin _, Inf false => true
  | _, _ => false
  end.

Definition log10R (a : R) : R := ln a / ln 10.

(** [np.log10] *)
Definition log10 (x : npfloat) : npfloat :=
  match x with
  | Fin a =>
      if Rltb 0 a then Fin (log10R a)
      else if Reqb a 0 then Inf false else NaN
  | Inf true => Inf true
  | Inf false => NaN
  | NaN => NaN
  end.

(** [np.power(10, x)] *)
Definition power10 (x : npfloat) : npfloat :=
  match x with
  | Fin a => Fin (Rpower 10 a)
  | Inf true => Inf true
  | Inf false => Fin 0
  | NaN => NaN
  end.

(** [np.sum] *)
Definition sum (l : list npfloat) : npfloat := fold_left add l (Fin 0).

(** [np.mean]: the sum divided by the number of elements (NaN when
    there is none). *)
Definition mean (l : list npfloat) : npfloat :=
  div (sum l) (Fin (INR (length l))).

End Np.

(** Real-valued reference operations used to state results. *)
Definition Rsum (l : list R) : R := fold_right Rplus 0 l.
Definition Rmean (l : list R) : R := Rsum l / INR (length l).

(* ================================================================== *)
(** * Exceptions and effects *)

Inductive exn : Type :=
| ZeroDivisionError
| IndexError
| KeyError
| AttributeError
| TypeError
| ValueError (msg : string)
| Exception (msg : string)
| ExternalError (msg : string).

Inductive result (A : Type) : Type :=
| Ok (a : A)
| Raise (e : exn).
Arguments Ok {A} a.
Arguments Raise {A} e.

Definition rbind {A B} (m : result A) (k : A -> result B) : result B :=
  match m with
  | Ok a => k a
  | Raise e => Raise e
  end.

(** Computations that read and write a state [S] and may raise; the state
    at the point of the exception is kept. *)
Definition M (S A : Type) : Type := S -> result A * S.

Definition ret {S A} (a : A) : M S A := fun s => (Ok a, s).
Definition raise {S A} (e : exn) : M S A := fun s => (Raise e, s).
Definition bind {S A B} (m : M S A) (k : A -> M S B) : M S B :=
  fun s => match m s with
           | (Ok a, s') => k a s'
           | (Raise e, s') => (Raise e, s')
           end.
Definition get {S} : M S S := fun s => (Ok s, s).
Definition put {S} (s : S) : M S unit := fun _ => (Ok tt, s).
Definition modify {S} (f : S -> S) : M S unit := fun s => (Ok tt, f s).
Definition lift {S A} (r : result A) : M S A := fun s => (r, s).

Declare Scope monad_scope.
Delimit Scope monad_scope with monad.
Notation "x <- m ;; k" := (bind m (fun x => k))
  (at level 61, m at next level, right associativity) : monad_scope.
Notation "' p <- m ;; k" := (bind m (fun p => k))
  (at level 61, p pattern, m at next level, right associativity) : monad_scope.
Notation "m ;;; k" := (bind m (fun _ => k))
  (at level 61, right associativity) : monad_scope.

(** A [for] loop that collects one value per element. *)
Fixpoint for_each {S A B} (l : list A) (body : A -> M S B) : M S (list B) :=
  match l with
  | [] => ret []
  | a :: l' =>
      (b <- body a ;; bs <- for_each l' body ;; ret (b :: bs))%monad
  end.

(** Python ints and floats: [/] raises on a zero divisor. *)
Definition py_truediv (a b : R) : result R :=
  if Reqb b 0 then Raise ZeroDivisionError else Ok (a / b).

(** [ThreadPool(processes)] *)
Definition ThreadPool (processes : nat) : result unit :=
  match processes with
  | O => Raise (ValueError "Number of processes must be at least 1")
  | S _ => Ok tt
  end.

(* ================================================================== *)
(** * Data *)

Definition labels : Type := list Z.
Definition index : Type := list nat.
(** A 2-D array, as the list of its rows. *)
Definition matrix : Type := list (list R).

(** [a[idx]] with an integer index array [idx] (indices are taken
    non-negative). *)
Fixpoint take {A} (a : list A) (idx : index) : result (list A) :=
  match idx with
  | [] => Ok []
  | i :: idx' =>
      match nth_error a i with
      | None => Raise IndexError
      | Some x => rbind (take a idx') (fun l => Ok (x :: l))
      end
  end.

(** [a[:, idx]]; the index is checked against every row there is. *)
Fixpoint take_cols (a : matrix) (idx : index) : result matrix :=
  match a with
  | [] => Ok []
  | row :: a' =>
      rbind (take row idx) (fun r =>
      rbind (take_cols a' idx) (fun m => Ok (r :: m)))
  end.

(** [a[ridx, :][:, cidx]] *)
Definition take_rows_cols (a : matrix) (ridx cidx : index) : result matrix :=
  rbind (take a ridx) (fun rows => take_cols rows cidx).

(** [a[:, j]] *)
Fixpoint column {A} (a : list (list A)) (j : nat) : result (list A) :=
  match a with
  | [] => Ok []
  | row :: a' =>
      match nth_error row j with
      | None => Raise IndexError
      | Some x => rbind (column a' j) (fun l => Ok (x :: l))
      end
  end.

(** The dict returned by [utils.evaluate_prediction]. *)
Module Evaluation.
Record t : Type := mk {
  balanced_accuracy : npfloat;
  accuracy : npfloat;
  sensitivity : npfloat;
  specificity : npfloat;
  ppv : npfloat;
  npv : npfloat
}.
End Evaluation.

(** [{'c': ..., 'balanced_accuracy': ...}] *)
Module BestParameter.
Record t : Type := mk {
  c : npfloat;
  balanced_accuracy : npfloat
}.
End BestParameter.

(** The [result] dict built by [evaluate]. *)
Module FoldResult.
Record t : Type := mk {
  best_parameter : BestParameter.t;
  evaluation : Evaluation.t;
  evaluation_train : Evaluation.t;
  y_hat : labels;
  y_hat_train : labels;
  y : labels;
  y_train : labels;
  y_index : index;
  x_index : index;
  auc : npfloat
}.
End FoldResult.

(** A dict with float keys, in insertion order: assigning to a key that
    is present keeps its position. *)
Fixpoint dict_set {V} (d : list (R * V)) (k : R) (v : V) : list (R * V) :=
  match d with
  | [] => [(k, v)]
  | (k', v') :: d' =>
      if Reqb k' k then (k', v) :: d' else (k', v') :: dict_set d' k v
  end.

(** [d[i] = f(d[i])] on a dict whose keys are [0 .. len-1], kept as the
    list of its values; a missing key raises [KeyError]. *)
Definition update_at {V} (d : list V) (i : nat) (f : V -> V) : result (list V) :=
  match nth_error d i with
  | None => Raise KeyError
  | Some v => Ok (firstn i d ++ f v :: skipn (S i) d)
  end.

(** A [for] loop threading an accumulator. *)
Fixpoint for_fold {S A B} (l : list A) (acc : B) (body : B -> A -> M S B)
  : M S B :=
  match l with
  | [] => ret acc
  | a :: l' => (acc' <- body acc a ;; for_fold l' acc' body)%monad
  end.

(* ================================================================== *)
(** * Collaborators *)

Inductive kernel_kind : Type := precomputed | linear.

(** The arguments of the [SVC(...)] constructor calls. *)
Module SVC.
Record t : Type := mk {
  C : npfloat;
  kernel : kernel_kind;
  probability : bool;
  tol : R;
  class_weight : option string
}.
End SVC.

(** scikit-learn, over a type [svc] of fitted classifiers and a type
    [rng] of states of the global random generator. *)
Class Sklearn (svc rng : Type) : Type := {
  (** [est.fit(X, y)] *)
  SVC_fit : SVC.t -> matrix -> labels -> M rng svc;
  (** [est.predict(X)] *)
  SVC_predict : svc -> matrix -> result labels;
  (** [est.predict_proba(X)] *)
  SVC_predict_proba : svc -> matrix -> result (list (list npfloat));
  roc_auc_score : labels -> list npfloat -> result npfloat;
  (** [list(StratifiedKFold(n_splits, shuffle).split(np.zeros(n), y))] *)
  StratifiedKFold_split :
    nat -> bool -> nat -> labels -> M rng (list (index * index));
  (** [list(StratifiedShuffleSplit(n_splits, test_size).split(np.zeros(n), y))] *)
  StratifiedShuffleSplit_split :
    nat -> R -> nat -> labels -> M rng (list (index * index))
}.

(** [utils.evaluate_prediction], which lives in another module of the
    package: any function from true and predicted labels to the dict of
    metrics, or to an exception. *)
Class Utils : Type := {
  evaluate_prediction : labels -> labels -> result Evaluation.t
}.

Definition tol_1e_6 : R := 1 / 1000000.

(* ================================================================== *)
(** * [class LinearSVMAlgorithmWithPrecomputedKernel] *)

Module LinearSVMAlgorithmWithPrecomputedKernel.

Record t : Type := mk {
  _kernel : matrix;
  _y : labels;
  _balanced : bool;
  _grid_search_folds : nat;
  _c_range : list R;
  _n_threads : nat
}.

(** One pass of the inner [for c, async_acc in ...items()] loop body. *)
Definition select_step (best : npfloat * npfloat) (item : R * npfloat)
  : npfloat * npfloat :=
  let '(best_c, best_acc) := best in
  let '(c, async_acc) := item in
  let acc := async_acc in
  if Np.gt acc best_acc then (Fin c, acc) else (best_c, best_acc).

(** The inner loop of one fold, from [best_c = -1; best_acc = -1]. *)
Definition fold_winner (items : list (R * npfloat)) : npfloat * npfloat :=
  fold_left select_step items (Fin (-1), Fin (-1)).

(** [async_result] is the dict of the folds [0 .. n-1], each a dict from
    candidate C to balanced accuracy, both in insertion order. *)
Definition _select_best_parameter (async_result : list (list (R * npfloat)))
  : BestParameter.t :=
  let '(c_values, accuracies) :=
    fold_left
      (fun '(c_values, accuracies) fold =>
         let '(best_c, best_acc) := fold_winner fold in
         (c_values ++ [best_c], accuracies ++ [best_acc]))
      async_result ([], []) in
  let best_acc := Np.mean accuracies in
  let best_c := Np.power10 (Np.mean (map Np.log10 c_values)) in
  BestParameter.mk best_c best_acc.

Definition new_svc (balanced : bool) (c : npfloat) : SVC.t :=
  if balanced
  then SVC.mk c precomputed true tol_1e_6 (Some "balanced"%string)
  else SVC.mk c precomputed true tol_1e_6 None.

Section WithCollaborators.
Context {svc rng : Type} `{Sklearn svc rng} `{Utils}.

Definition _launch_svc (self : t) (kernel_train x_test : matrix)
    (y_train y_test : labels) (c : npfloat)
  : M rng (svc * labels * npfloat * labels) :=
  (svc <- SVC_fit (new_svc (_balanced self) c) kernel_train y_train ;;
   y_hat_train <- lift (SVC_predict svc kernel_train) ;;
   y_hat <- lift (SVC_predict svc x_test) ;;
   proba <- lift (SVC_predict_proba svc x_test) ;;
   proba_test <- lift (column proba 1) ;;
   auc <- lift (roc_auc_score y_test proba_test) ;;
   ret (svc, y_hat, auc, y_hat_train))%monad.

Definition _grid_search (self : t) (kernel_train x_test : matrix)
    (y_train y_test : labels) (c : npfloat) : M rng npfloat :=
  ('(_, y_hat, _, _) <- _launch_svc self kernel_train x_test y_train y_test c ;;
   ev <- lift (evaluate_prediction y_test y_hat) ;;
   ret (Evaluation.balanced_accuracy ev))%monad.

(** Lines 181-207 of [evaluate]: the slices of the outer training
    data, the inner folds and the grid search over them. *)
Definition inner_search (self : t) (train_index : index)
  : M rng (matrix * BestParameter.t) :=
  (inner_pool <- lift (ThreadPool (_n_threads self)) ;;
   let async_result := repeat (@nil (R * npfloat)) (_grid_search_folds self) in
   outer_kernel <- lift (take_rows_cols (_kernel self) train_index train_index) ;;
   y_train <- lift (take (_y self) train_index) ;;
   inner_cv <- StratifiedKFold_split (_grid_search_folds self) true
                 (length y_train) y_train ;;
   async_result <-
     for_fold (combine (seq 0 (length inner_cv)) inner_cv) async_result
       (fun async_result '(i, (inner_train_index, inner_test_index)) =>
          inner_kernel <- lift (take_rows_cols outer_kernel inner_train_index inner_train_index) ;;
          x_test_inner <- lift (take_rows_cols outer_kernel inner_test_index inner_train_index) ;;
          y_train_inner <- lift (take y_train inner_train_index) ;;
          y_test_inner <- lift (take y_train inner_test_index) ;;
          for_fold (_c_range self) async_result
            (fun async_result c =>
               ba <- _grid_search self inner_kernel x_test_inner
                       y_train_inner y_test_inner (Fin c) ;;
               lift (update_at async_result i (fun d => dict_set d c ba)))) ;;
   ret (outer_kernel, _select_best_parameter async_result))%monad.

Definition evaluate (self : t) (train_index test_index : index)
  : M rng FoldResult.t :=
  ('(outer_kernel, best_parameter) <- inner_search self train_index ;;
   x_test <- lift (take_rows_cols (_kernel self) test_index train_index) ;;
   y_train <- lift (take (_y self) train_index) ;;
   y_test <- lift (take (_y self) test_index) ;;
   '(_, y_hat, auc, y_hat_train) <-
     _launch_svc self outer_kernel x_test y_train y_test
       (BestParameter.c best_parameter) ;;
   evaluation <- lift (evaluate_prediction y_test y_hat) ;;
   evaluation_train <- lift (evaluate_prediction y_train y_hat_train) ;;
   ret (FoldResult.mk best_parameter evaluation evaluation_train
          y_hat y_hat_train y_test y_train test_index train_index auc))%monad.

Definition apply_best_parameters (self : t) (results_list : list FoldResult.t)
  : M rng (svc * BestParameter.t) :=
  (let '(best_c_list, bal_acc_list) :=
     fold_left
       (fun '(best_c_list, bal_acc_list) result =>
          (best_c_list ++ [BestParameter.c (FoldResult.best_parameter result)],
           bal_acc_list ++ [BestParameter.balanced_accuracy
                              (FoldResult.best_parameter result)]))
       results_list ([], []) in
   let best_c := Np.power10 (Np.mean (map Np.log10 best_c_list)) in
   let mean_bal_acc := Np.mean bal_acc_list in
   svc <- SVC_fit (new_svc (_balanced self) best_c) (_kernel self) (_y self) ;;
   ret (svc, BestParameter.mk best_c mean_bal_acc))%monad.

End WithCollaborators.

End LinearSVMAlgorithmWithPrecomputedKernel.

(* ================================================================== *)
(** * [class LinearSVMAlgorithmWithoutPrecomputedKernel] *)

Module LinearSVMAlgorithmWithoutPrecomputedKernel.

Record t : Type := mk {
  _x : matrix;
  _y : labels;
  _balanced : bool;
  _grid_search_folds : nat;
  _c_range : list R;
  _n_threads : nat
}.

Definition select_step (best : npfloat * npfloat) (item : R * npfloat)
  : npfloat * npfloat :=
  let '(best_c, best_acc) := best in
  let '(c, async_acc) := item in
  let acc := async_acc in
  if Np.gt acc best_acc then (Fin c, acc) else (best_c, best_acc).

Definition fold_winner (items : list (R * npfloat)) : npfloat * npfloat :=
  fold_left select_step items (Fin (-1), Fin (-1)).

Definition _select_best_parameter (async_result : list (list (R * npfloat)))
  : BestParameter.t :=
  let '(c_values, accuracies) :=
    fold_left
      (fun '(c_values, accuracies) fold =>
         let '(best_c, best_acc) := fold_winner fold in
         (c_values ++ [best_c], accuracies ++ [best_acc]))
      async_result ([], []) in
  let best_acc := Np.mean accuracies in
  let best_c := Np.power10 (Np.mean (map Np.log10 c_values)) in
  BestParameter.mk best_c best_acc.

Definition new_svc (balanced : bool) (c : npfloat) : SVC.t :=
  if balanced
  then SVC.mk c linear true tol_1e_6 (Some "balanced"%string)
  else SVC.mk c linear true tol_1e_6 None.

Section WithCollaborators.
Context {svc rng : Type} `{Sklearn svc rng} `{Utils}.

Definition _launch_svc (self : t) (x_train x_test : matrix)
    (y_train y_test : labels) (c : npfloat)
  : M rng (svc * labels * npfloat * labels) :=
  (svc <- SVC_fit (new_svc (_balanced self) c) x_train y_train ;;
   y_hat_train <- lift (SVC_predict svc x_train) ;;
   y_hat <- lift (SVC_predict svc x_test) ;;
   proba <- lift (SVC_predict_proba svc x_test) ;;
   proba_test <- lift (column proba 1) ;;
   auc <- lift (roc_auc_score y_test proba_test) ;;
   ret (svc, y_hat, auc, y_hat_train))%monad.

Definition _grid_search (self : t) (x_train x_test : matrix)
    (y_train y_test : labels) (c : npfloat) : M rng npfloat :=
  ('(_, y_hat, _, _) <- _launch_svc self x_train x_test y_train y_test c ;;
   ev <- lift (evaluate_prediction y_test y_hat) ;;
   ret (Evaluation.balanced_accuracy ev))%monad.

(** Lines 591-617 of [evaluate]. *)
Definition inner_search (self : t) (train_index : index)
  : M rng (matrix * BestParameter.t) :=
  (inner_pool <- lift (ThreadPool (_n_threads self)) ;;
   let async_result := repeat (@nil (R * npfloat)) (_grid_search_folds self) in
   outer_x <- lift (take (_x self) train_index) ;;
   y_train <- lift (take (_y self) train_index) ;;
   inner_cv <- StratifiedKFold_split (_grid_search_folds self) true
                 (length y_train) y_train ;;
   async_result <-
     for_fold (combine (seq 0 (length inner_cv)) inner_cv) async_result
       (fun async_result '(i, (inner_train_index, inner_test_index)) =>
          inner_x <- lift (take outer_x inner_train_index) ;;
          x_test_inner <- lift (take outer_x inner_test_index) ;;
          y_train_inner <- lift (take y_train inner_train_index) ;;
          y_test_inner <- lift (take y_train inner_test_index) ;;
          for_fold (_c_range self) async_result
            (fun async_result c =>
               ba <- _grid_search self inner_x x_test_inner
                       y_train_inner y_test_inner (Fin c) ;;
               lift (update_at async_result i (fun d => dict_set d c ba)))) ;;
   ret (outer_x, _select_best_parameter async_result))%monad.

Definition evaluate (self : t) (train_index test_index : index)
  : M rng FoldResult.t :=
  ('(outer_x, best_parameter) <- inner_search self train_index ;;
   x_test <- lift (take (_x self) test_index) ;;
   y_train <- lift (take (_y self) train_index) ;;
   y_test <- lift (take (_y self) test_index) ;;
   '(_, y_hat, auc, y_hat_train) <-
     _launch_svc self outer_x x_test y_train y_test
       (BestParameter.c best_parameter) ;;
   evaluation <- lift (evaluate_prediction y_test y_hat) ;;
   evaluation_train <- lift (evaluate_prediction y_train y_hat_train) ;;
   ret (FoldResult.mk best_parameter evaluation evaluation_train
          y_hat y_hat_train y_test y_train test_index train_index auc))%monad.

Definition apply_best_parameters (self : t) (results_list : list FoldResult.t)
  : M rng (svc * BestParameter.t) :=
  (let '(best_c_list, bal_acc_list) :=
     fold_left
       (fun '(best_c_list, bal_acc_list) result =>
          (best_c_list ++ [BestParameter.c (FoldResult.best_parameter result)],
           bal_acc_list ++ [BestParameter.balanced_accuracy
                              (FoldResult.best_parameter result)]))
       results_list ([], []) in
   let best_c := Np.power10 (Np.mean (map Np.log10 best_c_list)) in
   let mean_bal_acc := Np.mean bal_acc_list in
   svc <- SVC_fit (new_svc (_balanced self) best_c) (_x self) (_y self) ;;
   ret (svc, BestParameter.mk best_c mean_bal_acc))%monad.

End WithCollaborators.

End LinearSVMAlgorithmWithoutPrecomputedKernel.

(* ================================================================== *)
(** * The algorithm interface used by the validation classes
      ([base.ClassificationAlgorithm]): the two methods they call on
      [self._ml_algorithm] *)

Class ClassificationAlgorithm (alg svc rng : Type) : Type := {
  evaluate : alg -> index -> index -> M rng FoldResult.t;
  apply_best_parameters : alg -> list FoldResult.t -> M rng (svc * BestParameter.t)
}.

#[export] Instance PrecomputedKernel_algorithm {svc rng} `{Sklearn svc rng} `{Utils}
  : ClassificationAlgorithm LinearSVMAlgorithmWithPrecomputedKernel.t svc rng := {
  evaluate := LinearSVMAlgorithmWithPrecomputedKernel.evaluate;
  apply_best_parameters := LinearSVMAlgorithmWithPrecomputedKernel.apply_best_parameters
}.

#[export] Instance WithoutPrecomputedKernel_algorithm {svc rng} `{Sklearn svc rng} `{Utils}
  : ClassificationAlgorithm LinearSVMAlgorithmWithoutPrecomputedKernel.t svc rng := {
  evaluate := LinearSVMAlgorithmWithoutPrecomputedKernel.evaluate;
  apply_best_parameters := LinearSVMAlgorithmWithoutPrecomputedKernel.apply_best_parameters
}.

(* ================================================================== *)
(** * pandas tables and the output directory *)

Inductive cell : Type :=
| CInt (z : Z)
| CFloat (x : npfloat)
| CNone.

Module DataFrame.
Record t : Type := mk {
  columns : list string;
  rows : list (list cell)
}.
End DataFrame.

(** A value of the dict given to [pd.DataFrame]: a scalar or an array. *)
Inductive column_data : Type :=
| Scalar (v : cell)
| Array (l : list cell).

Definition array_lengths (data : list (string * column_data)) : list nat :=
  flat_map (fun kv => match snd kv with
                      | Scalar _ => []
                      | Array l => [length l]
                      end) data.

Definition frame_row (data : list (string * column_data)) (r : nat) : list cell :=
  map (fun kv => match snd kv with
                 | Scalar v => v
                 | Array l => nth r l CNone
                 end) data.

(** [pd.DataFrame(data, index=...)]: the arrays (and the index, when one
    is given) must have one length; scalars are repeated; scalars alone
    need an index. *)
Definition pd_DataFrame (data : list (string * column_data))
    (index_len : option nat) : result DataFrame.t :=
  let lens := array_lengths data ++ match index_len with
                                    | Some n => [n]
                                    | None => []
                                    end in
  match lens with
  | [] => Raise (ValueError "If using all scalar values, you must pass an index")
  | n :: lens' =>
      if forallb (Nat.eqb n) lens'
      then Ok (DataFrame.mk (map fst data) (map (frame_row data) (seq 0 n)))
      else Raise (ValueError "All arrays must be of the same length")
  end.

(** [pd.concat(frames)] of frames that have the same columns. *)
Definition pd_concat (frames : list DataFrame.t) : result DataFrame.t :=
  match frames with
  | [] => Raise (ValueError "No objects to concatenate")
  | f :: _ => Ok (DataFrame.mk (DataFrame.columns f)
                    (flat_map DataFrame.rows frames))
  end.

Definition cell_float (v : cell) : npfloat :=
  match v with
  | CInt z => Fin (IZR z)
  | CFloat x => x
  | CNone => NaN
  end.

Definition is_nan (x : npfloat) : bool :=
  match x with NaN => true | _ => false end.

(** [np.nanmean] *)
Definition nanmean (l : list npfloat) : npfloat :=
  Np.mean (filter (fun x => negb (is_nan x)) l).

(** [pd.DataFrame(df.apply(np.nanmean).to_dict(), columns=df.columns,
    index=[0, ])] *)
Definition mean_frame (df : DataFrame.t) : DataFrame.t :=
  DataFrame.mk (DataFrame.columns df)
    [map (fun j => CFloat (nanmean (map (fun row => cell_float (nth j row CNone))
                                      (DataFrame.rows df))))
         (seq 0 (length (DataFrame.columns df)))].

(** The part of the file system the code touches: the directories it
    tests and creates, and the log of the tables it writes, one entry per
    write in the order of the writes (on disk a later write to the same
    path replaces the earlier file).  Failures of the file system itself
    are not modelled. *)
Module Fs.
Record t : Type := mk {
  dirs : list string;
  files : list (string * DataFrame.t)
}.
End Fs.

Definition ends_with_slash (s : string) : bool :=
  match rev (list_ascii_of_string s) with
  | ch :: _ => Ascii.eqb ch "/"%char
  | [] => false
  end.

(** [os.path.join(a, b)] for a relative [b]. *)
Definition path_join (a b : string) : string :=
  if (String.eqb a "" || ends_with_slash a)%bool
  then (a ++ b)%string
  else (a ++ "/" ++ b)%string.

(** [if not os.path.exists(d): os.makedirs(d)] *)
Definition ensure_dir (d : string) : M Fs.t unit :=
  modify (fun fs =>
    if existsb (String.eqb d) (Fs.dirs fs) then fs
    else Fs.mk (Fs.dirs fs ++ [d]) (Fs.files fs)).

(** [df.to_csv(path, index=False, sep='\t', encoding='utf-8')], recorded
    as one more write *)
Definition to_csv (df : DataFrame.t) (path : string) : M Fs.t unit :=
  modify (fun fs => Fs.mk (Fs.dirs fs) (Fs.files fs ++ [(path, df)])).

(** [str(i)] *)
Definition str (i : nat) : string :=
  DecimalString.NilZero.string_of_uint (Nat.to_uint i).

(** Running a computation on one component of a pair of states. *)
Definition on_fst {S T A} (m : M S A) : M (S * T) A :=
  fun st => let '(r, s') := m (fst st) in (r, (s', snd st)).
Definition on_snd {S T A} (m : M T A) : M (S * T) A :=
  fun st => let '(r, t') := m (snd st) in (r, (fst st, t')).

Definition ints (l : labels) : column_data := Array (map CInt l).
Definition positions (l : index) : column_data :=
  Array (map (fun i => CInt (Z.of_nat i)) l).

Definition metric (x : npfloat) : column_data := Scalar (CFloat x).

(* ================================================================== *)
(** * [class KFoldCV] *)

Module KFoldCV.

Record t (alg svc : Type) : Type := mk {
  _ml_algorithm : alg;
  _fold_results : option (list FoldResult.t);
  _classifier : option svc;
  _best_params : option BestParameter.t;
  _cv : option (list (index * index))
}.
Arguments mk {alg svc}.
Arguments _ml_algorithm {alg svc}.
Arguments _fold_results {alg svc}.
Arguments _classifier {alg svc}.
Arguments _best_params {alg svc}.
Arguments _cv {alg svc}.

Definition __init__ {alg svc} (ml_algorithm : alg) : t alg svc :=
  mk ml_algorithm (Some []) None None None.

Definition set_cv {alg svc} (cv : list (index * index)) (self : t alg svc) :=
  mk (_ml_algorithm self) (_fold_results self) (_classifier self)
     (_best_params self) (Some cv).

Definition set_fold_results {alg svc} (l : list FoldResult.t) (self : t alg svc) :=
  mk (_ml_algorithm self) (Some l) (_classifier self) (_best_params self)
     (_cv self).

Definition set_best {alg svc} (classifier : svc) (best_params : BestParameter.t)
    (self : t alg svc) :=
  mk (_ml_algorithm self) (_fold_results self) (Some classifier)
     (Some best_params) (_cv self).

(** [self._fold_results.append(r)] *)
Definition append_result {alg svc} (r : FoldResult.t) : M (t alg svc) unit :=
  (self <- get ;;
   match _fold_results self with
   | None => raise AttributeError
   | Some l => put (set_fold_results (l ++ [r]) self)
   end)%monad.

(** [len(self._fold_results)] and the list itself *)
Definition fold_results {alg svc} : M (t alg svc) (list FoldResult.t) :=
  (self <- get ;;
   match _fold_results self with
   | None => raise TypeError
   | Some l => ret l
   end)%monad.

Section Validation.
Context {alg svc rng : Type} `{ClassificationAlgorithm alg svc rng}
        `{Sklearn svc rng}.

(** The first loop of [validate]: one [evaluate] per fold, in order. *)
Definition evaluate_folds (n_folds : nat)
  : M (t alg svc * rng) (list FoldResult.t) :=
  for_each (seq 0 n_folds)
    (fun i =>
       self <- on_fst get ;;
       '(train_index, test_index) <-
         lift (match _cv self with
               | None => Raise TypeError
               | Some cv => match nth_error cv i with
                            | Some p => Ok p
                            | None => Raise IndexError
                            end
               end) ;;
       on_snd (evaluate (_ml_algorithm self) train_index test_index))%monad.

Definition validate (y : labels) (n_folds n_threads : nat)
    (splits_indices : option (list (index * index)))
  : M (t alg svc * rng) (svc * BestParameter.t * list FoldResult.t) :=
  (cv <- match splits_indices with
         | None => on_snd (StratifiedKFold_split n_folds true (length y) y)
         | Some splits => ret splits
         end ;;
   on_fst (modify (set_cv cv)) ;;;
   async_pool <- lift (ThreadPool n_threads) ;;
   async_result <- evaluate_folds n_folds ;;
   for_each async_result (fun r => on_fst (append_result r)) ;;;
   self <- on_fst get ;;
   results <- on_fst fold_results ;;
   '(classifier, best_params) <-
     on_snd (apply_best_parameters (_ml_algorithm self) results) ;;
   on_fst (modify (set_best classifier best_params)) ;;;
   ret (classifier, best_params, results))%monad.

End Validation.

Definition subjects_frame (r : FoldResult.t) : result DataFrame.t :=
  pd_DataFrame [("y"%string, ints (FoldResult.y r));
                ("y_hat"%string, ints (FoldResult.y_hat r));
                ("y_index"%string, positions (FoldResult.y_index r))] None.

Definition results_frame (r : FoldResult.t) : result DataFrame.t :=
  let ev := FoldResult.evaluation r in
  pd_DataFrame [("balanced_accuracy"%string, metric (Evaluation.balanced_accuracy ev));
                ("auc"%string, metric (FoldResult.auc r));
                ("accuracy"%string, metric (Evaluation.accuracy ev));
                ("sensitivity"%string, metric (Evaluation.sensitivity ev));
                ("specificity"%string, metric (Evaluation.specificity ev));
                ("ppv"%string, metric (Evaluation.ppv ev));
                ("npv"%string, metric (Evaluation.npv ev))] (Some 1%nat).

Definition save_results {alg svc} (output_dir : string)
  : M (t alg svc * Fs.t) unit :=
  (self <- on_fst get ;;
   match _fold_results self with
   | None =>
       raise (Exception "No results to save. Method validate() must be run before save_results().")
   | Some fold_results =>
       let container_dir := path_join output_dir "folds" in
       on_snd (ensure_dir container_dir) ;;;
       frames <-
         for_each (combine (seq 0 (length fold_results)) fold_results)
           (fun '(i, r) =>
              subjects_df <- lift (subjects_frame r) ;;
              on_snd (to_csv subjects_df
                        (path_join container_dir ("subjects_fold-" ++ str i ++ ".tsv"))) ;;;
              results_df <- lift (results_frame r) ;;
              on_snd (to_csv results_df
                        (path_join container_dir ("results_fold-" ++ str i ++ ".tsv"))) ;;;
              ret (subjects_df, results_df)) ;;
       let subjects_folds := map fst frames in
       let results_folds := map snd frames in
       all_subjects <- lift (pd_concat subjects_folds) ;;
       on_snd (to_csv all_subjects (path_join output_dir "subjects.tsv")) ;;;
       all_results <- lift (pd_concat results_folds) ;;
       on_snd (to_csv all_results (path_join output_dir "results.tsv")) ;;;
       let mean_results := mean_frame all_results in
       on_snd (to_csv mean_results (path_join output_dir "mean_results.tsv"))
   end)%monad.

End KFoldCV.

(* ================================================================== *)
(** * [class RepeatedHoldOut] *)

(** [a != b] on two 1-D arrays, with NumPy's broadcasting of a length-1
    operand. *)
Definition np_ne (a b : labels) : result (list bool) :=
  let ne := fun p : Z * Z => negb (Z.eqb (fst p) (snd p)) in
  if Nat.eqb (length a) (length b) then Ok (map ne (combine a b))
  else match a, b with
       | [x], _ => Ok (map (fun v => ne (x, v)) b)
       | _, [v] => Ok (map (fun x => ne (x, v)) a)
       | _, _ => Raise (ValueError "operands could not be broadcast together")
       end.

(** [np.where(mask)[0]]: the positions of the true entries. *)
Definition np_where (mask : list bool) : list nat :=
  map fst (filter snd (combine (seq 0 (length mask)) mask)).

Module RepeatedHoldOut.

Record t (alg svc : Type) : Type := mk {
  _ml_algorithm : alg;
  _split_results : option (list FoldResult.t);
  _classifier : option svc;
  _best_params : option BestParameter.t;
  _cv : option (list (index * index));
  _n_iterations : nat;
  _test_size : R;
  _error_resampled_t : option npfloat;
  _error_corrected_resampled_t : option npfloat;
  _bal_accuracy_resampled_t : option npfloat;
  _bal_accuracy_corrected_resampled_t : option npfloat
}.
Arguments mk {alg svc}.
Arguments _ml_algorithm {alg svc}.
Arguments _split_results {alg svc}.
Arguments _classifier {alg svc}.
Arguments _best_params {alg svc}.
Arguments _cv {alg svc}.
Arguments _n_iterations {alg svc}.
Arguments _test_size {alg svc}.
Arguments _error_resampled_t {alg svc}.
Arguments _error_corrected_resampled_t {alg svc}.
Arguments _bal_accuracy_resampled_t {alg svc}.
Arguments _bal_accuracy_corrected_resampled_t {alg svc}.

Definition __init__ {alg svc} (ml_algorithm : alg) (n_iterations : nat)
    (test_size : R) : t alg svc :=
  mk ml_algorithm (Some []) None None None n_iterations test_size
     None None None None.

Definition set_cv {alg svc} (cv : list (index * index)) (self : t alg svc) :=
  mk (_ml_algorithm self) (_split_results self) (_classifier self)
     (_best_params self) (Some cv) (_n_iterations self) (_test_size self)
     (_error_resampled_t self) (_error_corrected_resampled_t self)
     (_bal_accuracy_resampled_t self) (_bal_accuracy_corrected_resampled_t self).

Definition set_split_results {alg svc} (l : list FoldResult.t) (self : t alg svc) :=
  mk (_ml_algorithm self) (Some l) (_classifier self)
     (_best_params self) (_cv self) (_n_iterations self) (_test_size self)
     (_error_resampled_t self) (_error_corrected_resampled_t self)
     (_bal_accuracy_resampled_t self) (_bal_accuracy_corrected_resampled_t self).

Definition set_best {alg svc} (classifier : svc) (best_params : BestParameter.t)
    (self : t alg svc) :=
  mk (_ml_algorithm self) (_split_results self) (Some classifier)
     (Some best_params) (_cv self) (_n_iterations self) (_test_size self)
     (_error_resampled_t self) (_error_corrected_resampled_t self)
     (_bal_accuracy_resampled_t self) (_bal_accuracy_corrected_resampled_t self).

Definition set_error_variance {alg svc} (v : npfloat * npfloat) (self : t alg svc) :=
  mk (_ml_algorithm self) (_split_results self) (_classifier self)
     (_best_params self) (_cv self) (_n_iterations self) (_test_size self)
     (Some (fst v)) (Some (snd v))
     (_bal_accuracy_resampled_t self) (_bal_accuracy_corrected_resampled_t self).

Definition set_accuracy_variance {alg svc} (v : npfloat * npfloat)
    (self : t alg svc) :=
  mk (_ml_algorithm self) (_split_results self) (_classifier self)
     (_best_params self) (_cv self) (_n_iterations self) (_test_size self)
     (_error_resampled_t self) (_error_corrected_resampled_t self)
     (Some (fst v)) (Some (snd v)).

(** [self._split_results.append(r)] *)
Definition append_result {alg svc} (r : FoldResult.t) : M (t alg svc) unit :=
  (self <- get ;;
   match _split_results self with
   | None => raise AttributeError
   | Some l => put (set_split_results (l ++ [r]) self)
   end)%monad.

(** [self._split_results], where its length or its items are needed *)
Definition split_results {alg svc} (self : t alg svc)
  : result (list FoldResult.t) :=
  match _split_results self with
  | None => Raise TypeError
  | Some l => Ok l
  end.

Definition _compute_variance {alg svc} (self : t alg svc)
    (test_error_split : list npfloat) : result (npfloat * npfloat) :=
  rbind (split_results self) (fun results =>
  let num_split := Z.of_nat (length results) in
  let average_test_error := Np.mean test_error_split in
  let approx_variance :=
    Np.div (Np.sum (map (fun x => Np.square (Np.sub x average_test_error))
                      test_error_split))
           (Fin (IZR (num_split - 1))) in
  let resampled_t := Np.div approx_variance (Fin (IZR num_split)) in
  rbind (py_truediv 1 (IZR num_split)) (fun inv_num_split =>
  rbind (py_truediv (_test_size self) (1 - _test_size self)) (fun ratio =>
  let corrected_resampled_t :=
    Np.mul (Fin (inv_num_split + ratio)) approx_variance in
  Ok (resampled_t, corrected_resampled_t)))).

Definition _compute_average_test_error (y_list yhat_list : labels)
  : result npfloat :=
  rbind (np_ne y_list yhat_list) (fun mask =>
  rbind (py_truediv (INR (length (np_where mask))) (INR (length y_list)))
        (fun q => Ok (Fin q))).

(** The loop filling [test_error_split], one statistic per stored result. *)
Fixpoint per_split (stat : labels -> labels -> result npfloat)
    (results : list FoldResult.t) : result (list npfloat) :=
  match results with
  | [] => Ok []
  | r :: results' =>
      rbind (stat (FoldResult.y r) (FoldResult.y_hat r)) (fun x =>
      rbind (per_split stat results') (fun xs => Ok (x :: xs)))
  end.

Definition compute_error_variance {alg svc}
  : M (t alg svc) (npfloat * npfloat) :=
  (self <- get ;;
   results <- lift (split_results self) ;;
   test_error_split <- lift (per_split _compute_average_test_error results) ;;
   v <- lift (_compute_variance self test_error_split) ;;
   modify (set_error_variance v) ;;;
   ret v)%monad.

Definition _compute_average_test_accuracy `{Utils} (y_list yhat_list : labels)
  : result npfloat :=
  rbind (evaluate_prediction y_list yhat_list) (fun ev =>
  Ok (Evaluation.balanced_accuracy ev)).

Definition compute_accuracy_variance {alg svc} `{Utils}
  : M (t alg svc) (npfloat * npfloat) :=
  (self <- get ;;
   results <- lift (split_results self) ;;
   test_accuracy_split <- lift (per_split _compute_average_test_accuracy results) ;;
   v <- lift (_compute_variance self test_accuracy_split) ;;
   modify (set_accuracy_variance v) ;;;
   ret v)%monad.

Section Validation.
Context {alg svc rng : Type} `{ClassificationAlgorithm alg svc rng}
        `{Sklearn svc rng}.

(** The first loop of [validate]: one [evaluate] per iteration, in order. *)
Definition evaluate_splits (n_iterations : nat) (inner_cv : bool)
  : M (t alg svc * rng) (list FoldResult.t) :=
  for_each (seq 0 n_iterations)
    (fun i =>
       self <- on_fst get ;;
       '(train_index, test_index) <-
         lift (match _cv self with
               | None => Raise TypeError
               | Some cv => match nth_error cv i with
                            | Some p => Ok p
                            | None => Raise IndexError
                            end
               end) ;;
       if inner_cv
       then on_snd (evaluate (_ml_algorithm self) train_index test_index)
       else raise (Exception "We always do nested CV"))%monad.

Definition validate (y : labels) (n_threads : nat)
    (splits_indices : option (list (index * index))) (inner_cv : bool)
  : M (t alg svc * rng) (svc * BestParameter.t * list FoldResult.t) :=
  (self <- on_fst get ;;
   cv <- match splits_indices with
         | None => on_snd (StratifiedShuffleSplit_split (_n_iterations self)
                             (_test_size self) (length y) y)
         | Some splits => ret splits
         end ;;
   on_fst (modify (set_cv cv)) ;;;
   async_pool <- lift (ThreadPool n_threads) ;;
   async_result <- evaluate_splits (_n_iterations self) inner_cv ;;
   for_each async_result (fun r => on_fst (append_result r)) ;;;
   self <- on_fst get ;;
   results <- lift (split_results self) ;;
   '(classifier, best_params) <-
     on_snd (apply_best_parameters (_ml_algorithm self) results) ;;
   on_fst (modify (set_best classifier best_params)) ;;;
   ret (classifier, best_params, results))%monad.

End Validation.

Definition subjects_frame (iteration : nat) (ys y_hats : labels) (idx : index)
  : result DataFrame.t :=
  pd_DataFrame [("iteration"%string, Scalar (CInt (Z.of_nat iteration)));
                ("y"%string, ints ys);
                ("y_hat"%string, ints y_hats);
                ("subject_index"%string, positions idx)] None.

Definition results_frame (r : FoldResult.t) : result DataFrame.t :=
  let ev := FoldResult.evaluation r in
  let ev_train := FoldResult.evaluation_train r in
  pd_DataFrame [("balanced_accuracy"%string, metric (Evaluation.balanced_accuracy ev));
                ("auc"%string, metric (FoldResult.auc r));
                ("accuracy"%string, metric (Evaluation.accuracy ev));
                ("sensitivity"%string, metric (Evaluation.sensitivity ev));
                ("specificity"%string, metric (Evaluation.specificity ev));
                ("ppv"%string, metric (Evaluation.ppv ev));
                ("npv"%string, metric (Evaluation.npv ev));
                ("train_balanced_accuracy"%string,
                 metric (Evaluation.balanced_accuracy ev_train));
                ("train_accuracy"%string, metric (Evaluation.accuracy ev_train));
                ("train_sensitivity"%string, metric (Evaluation.sensitivity ev_train));
                ("train_specificity"%string, metric (Evaluation.specificity ev_train));
                ("train_ppv"%string, metric (Evaluation.ppv ev_train));
                ("train_npv"%string, metric (Evaluation.npv ev_train))] (Some 1%nat).

Definition optional_metric (x : option npfloat) : column_data :=
  match x with
  | Some v => Scalar (CFloat v)
  | None => Scalar CNone
  end.

Definition variance_frame {alg svc} (self : t alg svc) : result DataFrame.t :=
  pd_DataFrame
    [("bal_accuracy_resampled_t"%string,
      optional_metric (_bal_accuracy_resampled_t self));
     ("bal_accuracy_corrected_resampled_t"%string,
      optional_metric (_bal_accuracy_corrected_resampled_t self));
     ("error_resampled_t"%string, optional_metric (_error_resampled_t self));
     ("error_corrected_resampled_t"%string,
      optional_metric (_error_corrected_resampled_t self))] (Some 1%nat).

Definition save_results {alg svc} `{Utils} (output_dir : string)
  : M (t alg svc * Fs.t) unit :=
  (self <- on_fst get ;;
   match _split_results self with
   | None =>
       raise (Exception "No results to save. Method validate() must be run before save_results().")
   | Some split_results =>
       frames <-
         for_each (combine (seq 0 (length split_results)) split_results)
           (fun '(iteration, r) =>
              let iteration_dir := path_join output_dir ("iteration-" ++ str iteration) in
              on_snd (ensure_dir iteration_dir) ;;;
              iteration_train_subjects_df <-
                lift (subjects_frame iteration (FoldResult.y_train r)
                        (FoldResult.y_hat_train r) (FoldResult.x_index r)) ;;
              on_snd (to_csv iteration_train_subjects_df
                        (path_join iteration_dir "train_subjects.tsv")) ;;;
              iteration_test_subjects_df <-
                lift (subjects_frame iteration (FoldResult.y r)
                        (FoldResult.y_hat r) (FoldResult.y_index r)) ;;
              on_snd (to_csv iteration_test_subjects_df
                        (path_join iteration_dir "test_subjects.tsv")) ;;;
              iteration_results_df <- lift (results_frame r) ;;
              on_snd (to_csv iteration_results_df
                        (path_join iteration_dir "results.tsv")) ;;;
              ret (iteration_results_df, iteration_train_subjects_df,
                   iteration_test_subjects_df)) ;;
       let all_results_list := map (fun f => fst (fst f)) frames in
       let all_train_subjects_list := map (fun f => snd (fst f)) frames in
       let all_test_subjects_list := map snd frames in
       all_train_subjects_df <- lift (pd_concat all_train_subjects_list) ;;
       on_snd (to_csv all_train_subjects_df (path_join output_dir "train_subjects.tsv")) ;;;
       all_test_subjects_df <- lift (pd_concat all_test_subjects_list) ;;
       on_snd (to_csv all_test_subjects_df (path_join output_dir "test_subjects.tsv")) ;;;
       all_results_df <- lift (pd_concat all_results_list) ;;
       on_snd (to_csv all_results_df (path_join output_dir "results.tsv")) ;;;
       let mean_results_df := mean_frame all_results_df in
       on_snd (to_csv mean_results_df (path_join output_dir "mean_results.tsv")) ;;;
       on_fst compute_error_variance ;;;
       on_fst compute_accuracy_variance ;;;
       self <- on_fst get ;;
       variance_df <- lift (variance_frame self) ;;
       on_snd (to_csv variance_df (path_join output_dir "variance.tsv"))
   end)%monad.

End RepeatedHoldOut.

(* ================================================================== *)
(** * The classifier artefacts: [save_classifier], [save_weights],
      [save_parameters]

    The three methods have the same body in both algorithm classes and do
    not read [self]. *)

(** A 2-D NumPy array with its shape, which an array without rows or
    without columns keeps. *)
Module Array2.
Record t : Type := mk {
  nrows : nat;
  ncols : nat;
  rows : matrix
}.

Definition of_rows (m : matrix) : t :=
  mk (length m) (match m with [] => 0%nat | r :: _ => length r end) m.

Definition get (a : t) (i j : nat) : R := nth j (nth i (rows a) []) 0.

(** [a.transpose()] *)
Definition transpose (a : t) : t :=
  mk (ncols a) (nrows a)
     (map (fun j => map (fun i => get a i j) (seq 0 (nrows a))) (seq 0 (ncols a))).

(** [a[idx]] *)
Definition take_rows (a : t) (idx : index) : result t :=
  rbind (take (rows a) idx) (fun r => Ok (mk (length idx) (ncols a) r)).

(** The common length of two axes under broadcasting. *)
Definition broadcast_dim (n m : nat) : result nat :=
  if Nat.eqb n m then Ok n
  else if Nat.eqb n 1 then Ok m
  else if Nat.eqb m 1 then Ok n
  else Raise (ValueError "operands could not be broadcast together").

(** The position read along an axis of length [n] for result position [i]. *)
Definition stretch (n i : nat) : nat := if Nat.eqb n 1 then 0%nat else i.

(** [a * b], elementwise with broadcasting *)
Definition mul (a b : t) : result t :=
  rbind (broadcast_dim (nrows a) (nrows b)) (fun r =>
  rbind (broadcast_dim (ncols a) (ncols b)) (fun c =>
  Ok (mk r c
        (map (fun i =>
                map (fun j =>
                       get a (stretch (nrows a) i) (stretch (ncols a) j)
                       * get b (stretch (nrows b) i) (stretch (ncols b) j))
                    (seq 0 c))
             (seq 0 r))))).

(** [np.sum(a, 0)] *)
Definition sum_axis0 (a : t) : list R :=
  map (fun j => Rsum (map (fun i => get a i j) (seq 0 (nrows a))))
      (seq 0 (ncols a)).
End Array2.

(** The attributes of a fitted classifier that the code reads. *)
Class SVCAttributes (svc : Type) : Type := {
  dual_coef_ : svc -> matrix;
  support_ : svc -> index;
  intercept_ : svc -> list R
}.

(** What [np.savetxt] and [json.dump] write. *)
Inductive artefact : Type :=
| TxtMatrix (a : matrix)
| TxtVector (v : list R)
| TxtIndices (v : index)
| Json (parameters : BestParameter.t).

(** The log of these writes, in order. *)
Definition Disk : Type := list (string * artefact).

(** [np.savetxt(fname, X)] and [json.dump] into a file opened for
    writing *)
Definition write_file (fname : string) (content : artefact) : M Disk unit :=
  modify (fun disk => disk ++ [(fname, content)]).

Definition save_classifier {svc} `{SVCAttributes svc} (classifier : svc)
    (output_dir : string) : M Disk unit :=
  (write_file (path_join output_dir "dual_coefficients.txt")
     (TxtMatrix (dual_coef_ classifier)) ;;;
   write_file (path_join output_dir "support_vectors_indices.txt")
     (TxtIndices (support_ classifier)) ;;;
   write_file (path_join output_dir "intersect.txt")
     (TxtVector (intercept_ classifier)))%monad.

Definition save_weights {svc} `{SVCAttributes svc} (classifier : svc)
    (x : matrix) (output_dir : string) : M Disk (list R) :=
  (let dual_coefficients := Array2.of_rows (dual_coef_ classifier) in
   let sv_indices := support_ classifier in
   x_sv <- lift (Array2.take_rows (Array2.of_rows x) sv_indices) ;;
   weighted_sv <- lift (Array2.mul (Array2.transpose dual_coefficients) x_sv) ;;
   let weights := Array2.sum_axis0 weighted_sv in
   write_file (path_join output_dir "weights.txt") (TxtVector weights) ;;;
   ret weights)%monad.

Definition save_parameters (parameters_dict : BestParameter.t)
    (output_dir : string) : M Disk unit :=
  write_file (path_join output_dir "best_parameters.json") (Json parameters_dict).

(* ================================================================== *)
(** * The workflows: [class RB_RepeatedHoldOut_DualSVM_Classification] and
      [class RB_KFold_DualSVM_Classification] *)

(** The input object of a workflow, by what its three getters return. *)
Module Input.
Record t : Type := mk {
  get_x_raw : result matrix;
  get_y : result labels;
  get_kernel : result matrix
}.
End Input.

(** What [run] works on: the workflow object, the random state, the
    tables and directories of the output directory and the classifier
    files. *)
Module World.
Record t (obj rng : Type) : Type := mk {
  self : obj;
  random : rng;
  tables : Fs.t;
  artefacts : Disk
}.
Arguments mk {obj rng}.
Arguments self {obj rng}.
Arguments random {obj rng}.
Arguments tables {obj rng}.
Arguments artefacts {obj rng}.

Definition set_self {obj rng} (o : obj) (w : t obj rng) : t obj rng :=
  mk o (random w) (tables w) (artefacts w).
Definition set_random {obj rng} (g : rng) (w : t obj rng) : t obj rng :=
  mk (self w) g (tables w) (artefacts w).
Definition set_tables {obj rng} (fs : Fs.t) (w : t obj rng) : t obj rng :=
  mk (self w) (random w) fs (artefacts w).
Definition set_artefacts {obj rng} (d : Disk) (w : t obj rng) : t obj rng :=
  mk (self w) (random w) (tables w) d.
End World.

(** Running a computation on a part of the state. *)
Definition zoom {S T A} (view : S -> T) (update : T -> S -> S) (m : M T A)
  : M S A :=
  fun s => let '(r, t') := m (view s) in (r, update t' s).

(** [y[0]], evaluated for the message printed when [verbose] is set. *)
Definition first_label (y : labels) : result Z :=
  match y with
  | [] => Raise IndexError
  | l :: _ => Ok l
  end.

Module RB_RepeatedHoldOut_DualSVM_Classification.

Record t (svc : Type) : Type := mk {
  _input : Input.t;
  _split_index : option (list (index * index));
  _output_dir : string;
  _n_threads : nat;
  _n_iterations : nat;
  _grid_search_folds : nat;
  _balanced : bool;
  _c_range : list R;
  _verbose : bool;
  _test_size : R;
  _validation : option (RepeatedHoldOut.t LinearSVMAlgorithmWithPrecomputedKernel.t svc);
  _algorithm : option LinearSVMAlgorithmWithPrecomputedKernel.t
}.
Arguments mk {svc}.
Arguments _input {svc}.
Arguments _split_index {svc}.
Arguments _output_dir {svc}.
Arguments _n_threads {svc}.
Arguments _n_iterations {svc}.
Arguments _grid_search_folds {svc}.
Arguments _balanced {svc}.
Arguments _c_range {svc}.
Arguments _verbose {svc}.
Arguments _test_size {svc}.
Arguments _validation {svc}.
Arguments _algorithm {svc}.

Definition __init__ {svc} (input : Input.t)
    (split_index : option (list (index * index))) (output_dir : string)
    (n_threads n_iterations : nat) (test_size : R) (grid_search_folds : nat)
    (balanced : bool) (c_range : list R) (verbose : bool) : t svc :=
  mk input split_index output_dir n_threads n_iterations grid_search_folds
     balanced c_range verbose test_size None None.

Definition set_algorithm {svc} (a : LinearSVMAlgorithmWithPrecomputedKernel.t)
    (self : t svc) : t svc :=
  mk (_input self) (_split_index self) (_output_dir self) (_n_threads self)
     (_n_iterations self) (_grid_search_folds self) (_balanced self)
     (_c_range self) (_verbose self) (_test_size self) (_validation self) (Some a).

Definition set_validation {svc}
    (v : RepeatedHoldOut.t LinearSVMAlgorithmWithPrecomputedKernel.t svc)
    (self : t svc) : t svc :=
  mk (_input self) (_split_index self) (_output_dir self) (_n_threads self)
     (_n_iterations self) (_grid_search_folds self) (_balanced self)
     (_c_range self) (_verbose self) (_test_size self) (Some v) (_algorithm self).

Section Run.
Context {svc rng : Type} `{Sklearn svc rng} `{Utils} `{SVCAttributes svc}.

(** A method of [self._validation], run on that object and another part
    of the world. *)
Definition on_validation {T A}
    (view : World.t (t svc) rng -> T)
    (update : T -> World.t (t svc) rng -> World.t (t svc) rng)
    (m : M (RepeatedHoldOut.t LinearSVMAlgorithmWithPrecomputedKernel.t svc * T) A)
  : M (World.t (t svc) rng) A :=
  fun w =>
    match _validation (World.self w) with
    | None => (Raise AttributeError, w)
    | Some validation =>
        let '(r, vt) := m (validation, view w) in
        (r, World.set_self (set_validation (fst vt) (World.self w))
              (update (snd vt) w))
    end.

Definition run : M (World.t (t svc) rng) unit :=
  (w <- get ;;
   let self := World.self w in
   x <- lift (Input.get_x_raw (_input self)) ;;
   y <- lift (Input.get_y (_input self)) ;;
   kernel <- lift (Input.get_kernel (_input self)) ;;
   (if _verbose self then lift (rbind (first_label y) (fun _ => Ok tt))
    else ret tt) ;;;
   modify (fun w =>
     World.set_self
       (set_algorithm
          (LinearSVMAlgorithmWithPrecomputedKernel.mk kernel y (_balanced self)
             (_grid_search_folds self) (_c_range self) (_n_threads self))
          (World.self w)) w) ;;;
   w <- get ;;
   algorithm <- lift (match _algorithm (World.self w) with
                      | Some a => Ok a
                      | None => Raise AttributeError
                      end) ;;
   modify (fun w =>
     World.set_self
       (set_validation
          (RepeatedHoldOut.__init__ algorithm (_n_iterations self) (_test_size self))
          (World.self w)) w) ;;;
   '(classifier, best_params, results) <-
     on_validation World.random World.set_random
       (RepeatedHoldOut.validate y (_n_threads self) (_split_index self) true) ;;
   let classifier_dir := path_join (_output_dir self) "classifier" in
   zoom World.tables World.set_tables (ensure_dir classifier_dir) ;;;
   zoom World.artefacts World.set_artefacts
     (save_classifier classifier classifier_dir) ;;;
   zoom World.artefacts World.set_artefacts
     (save_parameters best_params classifier_dir) ;;;
   zoom World.artefacts World.set_artefacts
     (save_weights classifier x classifier_dir) ;;;
   on_validation World.tables World.set_tables
     (RepeatedHoldOut.save_results (_output_dir self)))%monad.

End Run.

End RB_RepeatedHoldOut_DualSVM_Classification.

Module RB_KFold_DualSVM_Classification.

Record t (svc : Type) : Type := mk {
  _input : Input.t;
  _split_index : option (list (index * index));
  _output_dir : string;
  _n_threads : nat;
  _grid_search_folds : nat;
  _balanced : bool;
  _c_range : list R;
  _verbose : bool;
  _n_folds : nat;
  _validation : option (KFoldCV.t LinearSVMAlgorithmWithPrecomputedKernel.t svc);
  _algorithm : option LinearSVMAlgorithmWithPrecomputedKernel.t
}.
Arguments mk {svc}.
Arguments _input {svc}.
Arguments _split_index {svc}.
Arguments _output_dir {svc}.
Arguments _n_threads {svc}.
Arguments _grid_search_folds {svc}.
Arguments _balanced {svc}.
Arguments _c_range {svc}.
Arguments _verbose {svc}.
Arguments _n_folds {svc}.
Arguments _validation {svc}.
Arguments _algorithm {svc}.

Definition __init__ {svc} (input : Input.t)
    (split_index : option (list (index * index))) (output_dir : string)
    (n_folds n_threads grid_search_folds : nat)
    (balanced : bool) (c_range : list R) (verbose : bool) : t svc :=
  mk input split_index output_dir n_threads grid_search_folds
     balanced c_range verbose n_folds None None.

Definition set_algorithm {svc} (a : LinearSVMAlgorithmWithPrecomputedKernel.t)
    (self : t svc) : t svc :=
  mk (_input self) (_split_index self) (_output_dir self) (_n_threads self)
     (_grid_search_folds self) (_balanced self) (_c_range self) (_verbose self)
     (_n_folds self) (_validation self) (Some a).

Definition set_validation {svc}
    (v : KFoldCV.t LinearSVMAlgorithmWithPrecomputedKernel.t svc)
    (self : t svc) : t svc :=
  mk (_input self) (_split_index self) (_output_dir self) (_n_threads self)
     (_grid_search_folds self) (_balanced self) (_c_range self) (_verbose self)
     (_n_folds self) (Some v) (_algorithm self).

Section Run.
Context {svc rng : Type} `{Sklearn svc rng} `{Utils} `{SVCAttributes svc}.

(** A method of [self._validation], run on that object and another part
    of the world. *)
Definition on_validation {T A}
    (view : World.t (t svc) rng -> T)
    (update : T -> World.t (t svc) rng -> World.t (t svc) rng)
    (m : M (KFoldCV.t LinearSVMAlgorithmWithPrecomputedKernel.t svc * T) A)
  : M (World.t (t svc) rng) A :=
  fun w =>
    match _validation (World.self w) with
    | None => (Raise AttributeError, w)
    | Some validation =>
        let '(r, vt) := m (validation, view w) in
        (r, World.set_self (set_validation (fst vt) (World.self w))
              (update (snd vt) w))
    end.

Definition run : M (World.t (t svc) rng) unit :=
  (w <- get ;;
   let self := World.self w in
   x <- lift (Input.get_x_raw (_input self)) ;;
   y <- lift (Input.get_y (_input self)) ;;
   kernel <- lift (Input.get_kernel (_input self)) ;;
   (if _verbose self then lift (rbind (first_label y) (fun _ => Ok tt))
    else ret tt) ;;;
   modify (fun w =>
     World.set_self
       (set_algorithm
          (LinearSVMAlgorithmWithPrecomputedKernel.mk kernel y (_balanced self)
             (_grid_search_folds self) (_c_range self) (_n_threads self))
          (World.self w)) w) ;;;
   w <- get ;;
   algorithm <- lift (match _algorithm (World.self w) with
                      | Some a => Ok a
                      | None => Raise AttributeError
                      end) ;;
   modify (fun w =>
     World.set_self (set_validation (KFoldCV.__init__ algorithm) (World.self w)) w) ;;;
   '(classifier, best_params, results) <-
     on_validation World.random World.set_random
       (KFoldCV.validate y (_n_folds self) (_n_threads self) (_split_index self)) ;;
   let classifier_dir := path_join (_output_dir self) "classifier" in
   zoom World.tables World.set_tables (ensure_dir classifier_dir) ;;;
   zoom World.artefacts World.set_artefacts
     (save_classifier classifier classifier_dir) ;;;
   zoom World.artefacts World.set_artefacts
     (save_parameters best_params classifier_dir) ;;;
   zoom World.artefacts World.set_artefacts
     (save_weights classifier x classifier_dir) ;;;
   on_validation World.tables World.set_tables
     (KFoldCV.save_results (_output_dir self)))%monad.

End Run.

End RB_KFold_DualSVM_Classification.

(* ================================================================== *)
(** * Reference notions used in the statements *)

(** A fold's dict with finite accuracies. *)
Definition finite_items (items : list (R * R)) : list (R * npfloat) :=
  map (fun p => (fst p, Fin (snd p))) items.

(** [w] is the first entry of [items] that reaches the highest accuracy:
    every earlier entry is strictly below it, no later entry is above. *)
Definition first_maximum (items : list (R * R)) (w : R * R) : Prop :=
  exists pre post,
    items = pre ++ w :: post /\
    Forall (fun p => snd p < snd w) pre /\
    Forall (fun p => snd p <= snd w) post.

(** Balanced accuracies lie in [[0, 1]]; candidate Cs are positive. *)
Definition valid_fold (items : list (R * R)) : Prop :=
  items <> [] /\ Forall (fun p => 0 < fst p /\ 0 <= snd p) items.

(** The C and the accuracy a fold result carries in its best-parameter
    record. *)
Definition selected_c (r : FoldResult.t) : npfloat :=
  BestParameter.c (FoldResult.best_parameter r).
Definition selected_accuracy (r : FoldResult.t) : npfloat :=
  BestParameter.balanced_accuracy (FoldResult.best_parameter r).

(** [10 ^ mean (log10 cs)] and [mean bs]. *)
Definition geometric_mean (cs : list R) : R :=
  Rpower 10 (Rmean (map Np.log10R cs)).
Definition aggregated_parameters (cs bs : list R) : BestParameter.t :=
  BestParameter.mk (Fin (geometric_mean cs)) (Fin (Rmean bs)).

(** One [fit], whose classifier is returned with [params]. *)
Definition fit_and_return {svc rng} (fit : M rng svc) (params : BestParameter.t)
  : M rng (svc * BestParameter.t) :=
  fun g => match fit g with
           | (Ok classifier, g') => (Ok (classifier, params), g')
           | (Raise e, g') => (Raise e, g')
           end.

(** Entry [(i, j)] of a matrix, when there is one. *)
Definition entry (a : matrix) (i j : nat) : option R :=
  match nth_error a i with
  | Some row => nth_error row j
  | None => None
  end.

(** All the values of a list of optional values, when none is missing. *)
Fixpoint all_some {A} (l : list (option A)) : option (list A) :=
  match l with
  | [] => Some []
  | None :: _ => None
  | Some a :: l' =>
      match all_some l' with
      | Some r => Some (a :: r)
      | None => None
      end
  end.

(** The entries at the rows [ridx] and the columns [cidx]. *)
Definition entries (a : matrix) (ridx cidx : index) : option matrix :=
  all_some (map (fun i => all_some (map (entry a i) cidx)) ridx).

Definition index_result {A} (o : option A) : result A :=
  match o with
  | Some a => Ok a
  | None => Raise IndexError
  end.

(** Two algorithm objects with one search configuration whose data agree
    on the samples of [train_index]: the kernel entries whose row and
    column are both in it (the feature rows in it, for the variant without
    a kernel) and the labels in it. *)
Definition kernel_agree_on (train_index : index)
    (self1 self2 : LinearSVMAlgorithmWithPrecomputedKernel.t) : Prop :=
  LinearSVMAlgorithmWithPrecomputedKernel._balanced self1
  = LinearSVMAlgorithmWithPrecomputedKernel._balanced self2 /\
  LinearSVMAlgorithmWithPrecomputedKernel._grid_search_folds self1
  = LinearSVMAlgorithmWithPrecomputedKernel._grid_search_folds self2 /\
  LinearSVMAlgorithmWithPrecomputedKernel._c_range self1
  = LinearSVMAlgorithmWithPrecomputedKernel._c_range self2 /\
  LinearSVMAlgorithmWithPrecomputedKernel._n_threads self1
  = LinearSVMAlgorithmWithPrecomputedKernel._n_threads self2 /\
  (forall i j, In i train_index -> In j train_index ->
     entry (LinearSVMAlgorithmWithPrecomputedKernel._kernel self1) i j
     = entry (LinearSVMAlgorithmWithPrecomputedKernel._kernel self2) i j) /\
  (forall i, In i train_index ->
     nth_error (LinearSVMAlgorithmWithPrecomputedKernel._y self1) i
     = nth_error (LinearSVMAlgorithmWithPrecomputedKernel._y self2) i).

Definition features_agree_on (train_index : index)
    (self1 self2 : LinearSVMAlgorithmWithoutPrecomputedKernel.t) : Prop :=
  LinearSVMAlgorithmWithoutPrecomputedKernel._balanced self1
  = LinearSVMAlgorithmWithoutPrecomputedKernel._balanced self2 /\
  LinearSVMAlgorithmWithoutPrecomputedKernel._grid_search_folds self1
  = LinearSVMAlgorithmWithoutPrecomputedKernel._grid_search_folds self2 /\
  LinearSVMAlgorithmWithoutPrecomputedKernel._c_range self1
  = LinearSVMAlgorithmWithoutPrecomputedKernel._c_range self2 /\
  LinearSVMAlgorithmWithoutPrecomputedKernel._n_threads self1
  = LinearSVMAlgorithmWithoutPrecomputedKernel._n_threads self2 /\
  (forall i, In i train_index ->
     nth_error (LinearSVMAlgorithmWithoutPrecomputedKernel._x self1) i
     = nth_error (LinearSVMAlgorithmWithoutPrecomputedKernel._x self2) i) /\
  (forall i, In i train_index ->
     nth_error (LinearSVMAlgorithmWithoutPrecomputedKernel._y self1) i
     = nth_error (LinearSVMAlgorithmWithoutPrecomputedKernel._y self2) i).

(** A scikit-learn stand-in for the examples: fitting returns the
    estimator's arguments and advances the generator, every sample is
    predicted as class 0, and each splitter returns one split that tests on
    sample 0 (the k-fold one trains on sample 1, the shuffle one on samples
    1 and 2). *)
Module Toy.
#[global] Instance sklearn : Sklearn SVC.t nat := {
  SVC_fit := fun est _ _ g => (Ok est, S g);
  SVC_predict := fun _ X => Ok (map (fun _ => 0%Z) X);
  SVC_predict_proba := fun _ X => Ok (map (fun _ => [Fin (1 / 2); Fin (1 / 2)]) X);
  roc_auc_score := fun _ _ => Ok (Fin (1 / 2));
  StratifiedKFold_split := fun _ _ _ _ g => (Ok [([1%nat], [0%nat])], S g);
  StratifiedShuffleSplit_split :=
    fun _ _ _ _ g => (Ok [([1%nat; 2%nat], [0%nat])], S g)
}.

Definition evaluation (a : R) : Evaluation.t :=
  Evaluation.mk (Fin a) (Fin a) (Fin a) (Fin a) (Fin a) (Fin a).

(** A fold result with selected C [c], inner accuracy [a], true test
    labels [ys] and predictions [y_hats]. *)
Definition fold_result (c a : R) (ys y_hats : labels) : FoldResult.t :=
  FoldResult.mk (BestParameter.mk (Fin c) (Fin a)) (evaluation a) (evaluation a)
    y_hats [0%Z] ys [0%Z] (seq 0 (length ys)) [length ys] (Fin (1 / 2)).

#[global] Instance utils : Utils := {
  evaluate_prediction := fun _ _ => Ok (evaluation (1 / 2))
}.

(** Three samples, one inner fold, two candidate Cs. *)
Definition kernel_algorithm : LinearSVMAlgorithmWithPrecomputedKernel.t :=
  LinearSVMAlgorithmWithPrecomputedKernel.mk
    [[1; 0; 0]; [0; 1; 0]; [0; 0; 1]] [0%Z; 1%Z; 0%Z] true 1 [1; 10] 1.

Definition feature_algorithm : LinearSVMAlgorithmWithoutPrecomputedKernel.t :=
  LinearSVMAlgorithmWithoutPrecomputedKernel.mk
    [[1; 0]; [0; 1]; [1; 1]] [0%Z; 1%Z; 0%Z] true 1 [1; 10] 1.

(** The same data except for sample 0: its label and every kernel entry
    in its row or column. *)
Definition other_kernel_algorithm : LinearSVMAlgorithmWithPrecomputedKernel.t :=
  LinearSVMAlgorithmWithPrecomputedKernel.mk
    [[5; 7; 7]; [7; 1; 0]; [7; 0; 1]] [1%Z; 1%Z; 0%Z] true 1 [1; 10] 1.

(** The outer split used in the examples: train on samples 1 and 2, test
    on sample 0. *)
Definition outer_split : list (index * index) := [([1; 2], [0])]%nat.

(** A repeated hold-out object that already holds [results]. *)
Definition holdout (results : list FoldResult.t) (test_size : R)
  : RepeatedHoldOut.t unit unit :=
  RepeatedHoldOut.mk tt (Some results) None None None (length results) test_size
    None None None None.

(** One iteration, its single test sample predicted correctly. *)
Definition single_iteration : RepeatedHoldOut.t unit unit :=
  holdout [fold_result 1 1 [0%Z] [0%Z]] (1 / 5).

(** Every fitted classifier has samples 1 and 2 as support vectors, with
    dual coefficients 2 and -1. *)
#[global] Instance attributes : SVCAttributes SVC.t := {
  dual_coef_ := fun _ => [[2; -1]];
  support_ := fun _ => [1; 2]%nat;
  intercept_ := fun _ => [0]
}.

Definition features : matrix := [[1; 0]; [0; 1]; [1; 1]].

Definition input : Input.t :=
  Input.mk (Ok features) (Ok [0%Z; 1%Z; 0%Z])
    (Ok [[1; 0; 0]; [0; 1; 0]; [0; 0; 1]]).

(** The two workflows on that input, with one outer split, one inner
    fold, two candidate Cs and one thread. *)
Definition holdout_workflow : RB_RepeatedHoldOut_DualSVM_Classification.t SVC.t :=
  RB_RepeatedHoldOut_DualSVM_Classification.__init__ input (Some outer_split)
    "out" 1 1 (1 / 5) 1 true [1; 10] false.

Definition kfold_workflow : RB_KFold_DualSVM_Classification.t SVC.t :=
  RB_KFold_DualSVM_Classification.__init__ input (Some outer_split)
    "out" 1 1 1 true [1; 10] false.

Definition world {obj} (self : obj) : World.t obj nat :=
  World.mk self 0%nat (Fs.mk [] []) [].
End Toy.

(** Sample variance and the two estimates of Nadeau and Bengio. *)
Definition sample_variance (xs : list R) : R :=
  Rsum (map (fun x => (x - Rmean xs) ^ 2) xs) / (INR (length xs) - 1).

(** Number of positions at which two label vectors differ. *)
Fixpoint mismatches (ys y_hats : labels) : nat :=
  match ys, y_hats with
  | a :: ys', b :: y_hats' =>
      ((if Z.eqb a b then 0 else 1) + mismatches ys' y_hats')%nat
  | _, _ => 0%nat
  end.

(** A fold result whose predictions and positions match its true labels
    in number, as [evaluate] builds them from one test set. *)
Definition well_formed_result (r : FoldResult.t) : Prop :=
  length (FoldResult.y_hat r) = length (FoldResult.y r) /\
  length (FoldResult.y_index r) = length (FoldResult.y r).

(** The number of test samples over all the results. *)
Definition test_samples (results : list FoldResult.t) : nat :=
  fold_right (fun r n => (length (FoldResult.y r) + n)%nat) 0%nat results.

(** [m] takes every state to one that [R] relates to it, whether it
    returns or raises. *)
Definition keeps {S A} (R : S -> S -> Prop) (m : M S A) : Prop :=
  forall s, R s (snd (m s)).

(** The object is the same, the log of writes is the earlier one followed
    by new writes and the directories seen before are still there. *)
Definition kfold_saved {alg svc} (st st' : KFoldCV.t alg svc * Fs.t) : Prop :=
  fst st' = fst st /\
  (exists written, Fs.files (snd st') = Fs.files (snd st) ++ written) /\
  incl (Fs.dirs (snd st)) (Fs.dirs (snd st')).

(** The same for a repeated hold-out object, up to its four variance
    attributes. *)
Definition holdout_saved {alg svc} (st st' : RepeatedHoldOut.t alg svc * Fs.t)
  : Prop :=
  RepeatedHoldOut._ml_algorithm (fst st') = RepeatedHoldOut._ml_algorithm (fst st) /\
  RepeatedHoldOut._split_results (fst st') = RepeatedHoldOut._split_results (fst st) /\
  RepeatedHoldOut._classifier (fst st') = RepeatedHoldOut._classifier (fst st) /\
  RepeatedHoldOut._best_params (fst st') = RepeatedHoldOut._best_params (fst st) /\
  RepeatedHoldOut._cv (fst st') = RepeatedHoldOut._cv (fst st) /\
  RepeatedHoldOut._n_iterations (fst st') = RepeatedHoldOut._n_iterations (fst st) /\
  RepeatedHoldOut._test_size (fst st') = RepeatedHoldOut._test_size (fst st) /\
  (exists written, Fs.files (snd st') = Fs.files (snd st) ++ written) /\
  incl (Fs.dirs (snd st)) (Fs.dirs (snd st')).

(** The files of the classifier directory that [run] writes before the
    weights. *)
Definition classifier_files {svc} `{SVCAttributes svc} (classifier : svc)
    (best_params : BestParameter.t) (classifier_dir : string) : Disk :=
  [(path_join classifier_dir "dual_coefficients.txt",
    TxtMatrix (dual_coef_ classifier));
   (path_join classifier_dir "support_vectors_indices.txt",
    TxtIndices (support_ classifier));
   (path_join classifier_dir "intersect.txt",
    TxtVector (intercept_ classifier));
   (path_join classifier_dir "best_parameters.json", Json best_params)].

(* ================================================================== *)
(** * Properties *)

(** ** Arithmetic on finite values *)

Lemma Reqb_refl (a : R) : Reqb a a = true.
Proof. unfold Reqb. destruct (Req_dec_T a a); congruence. Qed.

Lemma Reqb_eq (a b : R) : a = b -> Reqb a b = true.
Proof. intros ->. apply Reqb_refl. Qed.

Lemma Reqb_neq (a b : R) : a <> b -> Reqb a b = false.
Proof. intros Hn. unfold Reqb. destruct (Req_dec_T a b); congruence. Qed.

Lemma Rltb_lt (a b : R) : a < b -> Rltb a b = true.
Proof. intros Hlt. unfold Rltb. destruct (Rlt_dec a b); tauto. Qed.

Lemma Rltb_nlt (a b : R) : ~ a < b -> Rltb a b = false.
Proof. intros Hn. unfold Rltb. destruct (Rlt_dec a b); tauto. Qed.

Lemma ln_10_pos : 0 < ln 10.
Proof. rewrite <- ln_1. apply ln_increasing; lra. Qed.

Lemma Rpower_10_log10R (a : R) : 0 < a -> Rpower 10 (Np.log10R a) = a.
Proof.
  intros Ha. unfold Rpower, Np.log10R.
  replace (ln a / ln 10 * ln 10) with (ln a).
  - apply exp_ln; assumption.
  - field. pose proof ln_10_pos. lra.
Qed.

Lemma log10R_pow (n : nat) : Np.log10R (10 ^ n) = INR n.
Proof.
  unfold Np.log10R. rewrite ln_pow by lra.
  field. pose proof ln_10_pos. lra.
Qed.

Lemma sum_Fin_from (l : list R) (a : R) :
  fold_left Np.add (map Fin l) (Fin a) = Fin (a + Rsum l).
Proof.
  revert a. induction l as [|x l IH]; intros a; simpl.
  - f_equal. lra.
  - rewrite IH. f_equal. lra.
Qed.

Lemma sum_Fin (l : list R) : Np.sum (map Fin l) = Fin (Rsum l).
Proof. unfold Np.sum. rewrite sum_Fin_from. f_equal. lra. Qed.

Lemma INR_length_neq_0 {A} (l : list A) : l <> [] -> INR (length l) <> 0.
Proof.
  destruct l as [|a l]; [congruence|]. intros _.
  apply not_0_INR. simpl. lia.
Qed.

Lemma mean_Fin (l : list R) : l <> [] -> Np.mean (map Fin l) = Fin (Rmean l).
Proof.
  intros Hne. unfold Np.mean, Rmean. rewrite sum_Fin, length_map. simpl.
  rewrite Reqb_neq by (apply INR_length_neq_0; assumption). reflexivity.
Qed.

Lemma mean_nil : Np.mean [] = NaN.
Proof.
  unfold Np.mean, Np.sum. cbn [fold_left length INR Np.div].
  rewrite Reqb_refl. reflexivity.
Qed.

Lemma log10_Fin (l : list R) :
  Forall (fun a => 0 < a) l ->
  map Np.log10 (map Fin l) = map Fin (map Np.log10R l).
Proof.
  induction 1 as [|a l Ha _ IH]; simpl; [reflexivity|].
  rewrite Rltb_lt by assumption. rewrite IH. reflexivity.
Qed.

(** The geometric mean as the code computes it, on positive reals. *)
Lemma power10_mean_log10 (l : list R) :
  l <> [] -> Forall (fun a => 0 < a) l ->
  Np.power10 (Np.mean (map Np.log10 (map Fin l)))
  = Fin (Rpower 10 (Rmean (map Np.log10R l))).
Proof.
  intros Hne Hpos. rewrite log10_Fin by assumption.
  rewrite mean_Fin; [reflexivity|].
  destruct l; simpl; congruence.
Qed.

(** The two-list accumulation loops are maps. *)
Lemma append_loop {A B C} (f : A -> B) (g : A -> C) (l : list A)
    (bs : list B) (cs : list C) :
  fold_left (fun '(bs, cs) a => (bs ++ [f a], cs ++ [g a])) l (bs, cs)
  = (bs ++ map f l, cs ++ map g l).
Proof.
  revert bs cs. induction l as [|a l IH]; intros bs cs; simpl.
  - now rewrite !app_nil_r.
  - rewrite IH, <- !app_assoc. reflexivity.
Qed.

(** ** The winner of one inner fold *)

Local Abbreviation select_step := LinearSVMAlgorithmWithPrecomputedKernel.select_step.
Local Abbreviation fold_winner := LinearSVMAlgorithmWithPrecomputedKernel.fold_winner.
Local Abbreviation _select_best_parameter :=
  LinearSVMAlgorithmWithPrecomputedKernel._select_best_parameter.

Lemma select_step_finite (best_c : npfloat) (best_acc c acc : R) :
  select_step (best_c, Fin best_acc) (c, Fin acc)
  = if Rlt_dec best_acc acc then (Fin c, Fin acc) else (best_c, Fin best_acc).
Proof.
  unfold select_step, Np.gt, Rltb.
  destruct (Rlt_dec best_acc acc); reflexivity.
Qed.

(** The loop either keeps its starting point (nothing exceeds it) or ends
    on the first maximum, which exceeds the starting point. *)
Lemma fold_winner_from (items : list (R * R)) (best_c : npfloat) (best_acc : R) :
  (Forall (fun p => snd p <= best_acc) items /\
   fold_left select_step (finite_items items) (best_c, Fin best_acc)
   = (best_c, Fin best_acc))
  \/
  (exists w, first_maximum items w /\ best_acc < snd w /\
             fold_left select_step (finite_items items) (best_c, Fin best_acc)
             = (Fin (fst w), Fin (snd w))).
Proof.
  revert best_c best_acc.
  induction items as [|[c0 a0] items IH]; intros best_c best_acc.
  - left. split; [constructor | reflexivity].
  - cbn [finite_items map fold_left fst snd].
    fold (finite_items items).
    rewrite select_step_finite.
    destruct (Rlt_dec best_acc a0) as [Hlt | Hnlt].
    + right.
      destruct (IH (Fin c0) a0) as [[Hall Heq] | (w & Hw & Hgt & Heq)].
      * exists (c0, a0). split; [|split; [exact Hlt | exact Heq]].
        exists [], items. repeat split; [constructor | exact Hall].
      * exists w. split; [|split; [lra | exact Heq]].
        destruct Hw as (pre & post & -> & Hpre & Hpost).
        exists ((c0, a0) :: pre), post.
        repeat split; [constructor; [exact Hgt | exact Hpre] | exact Hpost].
    + destruct (IH best_c best_acc) as [[Hall Heq] | (w & Hw & Hgt & Heq)].
      * left. split; [constructor; [simpl; lra | exact Hall] | exact Heq].
      * right. exists w. split; [|split; [exact Hgt | exact Heq]].
        destruct Hw as (pre & post & -> & Hpre & Hpost).
        exists ((c0, a0) :: pre), post.
        repeat split; [constructor; [simpl; lra | exact Hpre] | exact Hpost].
Qed.

Lemma fold_winner_first_maximum (items : list (R * R)) :
  items <> [] -> Forall (fun p => 0 <= snd p) items ->
  exists w, first_maximum items w /\
            fold_winner (finite_items items) = (Fin (fst w), Fin (snd w)).
Proof.
  intros Hne Hacc. unfold fold_winner.
  destruct (fold_winner_from items (Fin (-1)) (-1))
    as [[Hall _] | (w & Hw & _ & Heq)].
  - destruct items as [|p items]; [congruence|].
    inversion Hall; inversion Hacc; subst. lra.
  - exists w. split; assumption.
Qed.

(** A list has one first maximum. *)
Lemma first_maximum_unique (items : list (R * R)) (w w' : R * R) :
  first_maximum items w -> first_maximum items w' -> w = w'.
Proof.
  intros (pre & post & -> & Hpre & Hpost) (pre' & post' & Heq & Hpre' & Hpost').
  revert pre' Heq Hpre'.
  induction pre as [|p pre IH]; intros pre' Heq Hpre'.
  - destruct pre' as [|p' pre']; simpl in Heq.
    + congruence.
    + injection Heq as <- Hrest. subst post.
      inversion Hpre' as [|? ? Hlt _]; subst.
      apply Forall_app in Hpost as [_ Hpost].
      inversion Hpost; subst. lra.
  - destruct pre' as [|p' pre']; simpl in Heq.
    + injection Heq as -> Hrest. subst post'.
      inversion Hpre as [|? ? Hlt _]; subst.
      apply Forall_app in Hpost' as [_ Hpost'].
      inversion Hpost'; subst. lra.
    + injection Heq as <- Hrest.
      inversion Hpre; inversion Hpre'; subst.
      eapply IH; eassumption.
Qed.

Lemma fold_left_pointwise {A B} (f g : A -> B -> A) (l : list B) (a : A) :
  (forall a b, f a b = g a b) -> fold_left f l a = fold_left g l a.
Proof.
  intros Hfg. revert a. induction l as [|b l IH]; intros a; simpl.
  - reflexivity.
  - rewrite Hfg. apply IH.
Qed.

Lemma select_best_parameter_unfold (async_result : list (list (R * npfloat))) :
  _select_best_parameter async_result
  = BestParameter.mk
      (Np.power10 (Np.mean (map Np.log10 (map (fun f => fst (fold_winner f)) async_result))))
      (Np.mean (map (fun f => snd (fold_winner f)) async_result)).
Proof.
  unfold _select_best_parameter.
  rewrite (fold_left_pointwise _
             (fun '(c_values, accuracies) fold =>
                (c_values ++ [fst (fold_winner fold)],
                 accuracies ++ [snd (fold_winner fold)]))).
  - rewrite append_loop. reflexivity.
  - intros [cs accs] fold. destruct (fold_winner fold). reflexivity.
Qed.

Lemma first_maximum_In (items : list (R * R)) (w : R * R) :
  first_maximum items w -> In w items.
Proof.
  intros (pre & post & -> & _). apply in_or_app. right. left. reflexivity.
Qed.

Lemma valid_fold_winner (items : list (R * R)) :
  valid_fold items ->
  exists w, first_maximum items w /\ 0 < fst w /\
            fold_winner (finite_items items) = (Fin (fst w), Fin (snd w)).
Proof.
  intros [Hne Hall].
  destruct (fold_winner_first_maximum items Hne) as (w & Hw & Heq).
  - eapply Forall_impl; [|exact Hall]. intros p [_ Hp]. exact Hp.
  - exists w. split; [exact Hw|]. split; [|exact Heq].
    rewrite Forall_forall in Hall.
    apply (Hall w). apply first_maximum_In. exact Hw.
Qed.

Lemma valid_folds_winners (async_result : list (list (R * R))) :
  Forall valid_fold async_result ->
  exists winners,
    Forall2 first_maximum async_result winners /\
    Forall (fun c => 0 < c) (map fst winners) /\
    map (fun f => fst (fold_winner f)) (map finite_items async_result)
    = map Fin (map fst winners) /\
    map (fun f => snd (fold_winner f)) (map finite_items async_result)
    = map Fin (map snd winners).
Proof.
  induction 1 as [|items async_result Hv _ (winners & HF & Hpos & Hc & Ha)].
  - exists []. repeat split; constructor.
  - destruct (valid_fold_winner items Hv) as (w & Hw & Hwpos & Heq).
    exists (w :: winners). simpl. rewrite Heq, Hc, Ha. simpl.
    repeat split; constructor; assumption.
Qed.

Lemma Rmean_single (x : R) : Rmean [x] = x.
Proof. unfold Rmean, Rsum. simpl. field. Qed.

(** C5: within one inner fold a later candidate replaces the current best
    only when its accuracy strictly exceeds it, so the fold winner is the
    one first candidate, in evaluation order, that reaches the highest
    accuracy (on a tie the first evaluated is retained); with a single
    fold [_select_best_parameter] returns exactly that candidate and its
    accuracy. *)
Theorem select_best_parameter_fold_winner :
  forall items : list (R * R),
    valid_fold items ->
    exists w,
      first_maximum items w /\
      (forall w', first_maximum items w' -> w' = w) /\
      fold_winner (finite_items items) = (Fin (fst w), Fin (snd w)) /\
      _select_best_parameter [finite_items items]
      = BestParameter.mk (Fin (fst w)) (Fin (snd w)).
Proof.
  intros items Hv.
  destruct (valid_fold_winner items Hv) as (w & Hw & Hpos & Heq).
  exists w. split; [exact Hw|]. split.
  { intros w' Hw'. eapply first_maximum_unique; eassumption. }
  split; [exact Heq|].
  rewrite select_best_parameter_unfold.
  replace (map (fun f => fst (fold_winner f)) [finite_items items])
    with (map Fin [fst w]) by (simpl; now rewrite Heq).
  replace (map (fun f => snd (fold_winner f)) [finite_items items])
    with (map Fin [snd w]) by (simpl; now rewrite Heq).
  rewrite power10_mean_log10 by (try constructor; auto; discriminate).
  rewrite mean_Fin by discriminate.
  cbn [map]. rewrite !Rmean_single, Rpower_10_log10R by assumption.
  reflexivity.
Qed.

(** Two candidates with the same accuracy: the first evaluated wins. *)
Lemma select_best_parameter_fold_winner_tie :
  fold_winner (finite_items [(1, 1 / 2); (10, 1 / 2)]) = (Fin 1, Fin (1 / 2)).
Proof.
  assert (Hv : valid_fold [(1, 1 / 2); (10, 1 / 2)]).
  { split; [discriminate | repeat constructor; simpl; lra]. }
  destruct (select_best_parameter_fold_winner _ Hv) as (w & _ & Huniq & Heq & _).
  rewrite Heq.
  rewrite <- (Huniq (1, 1 / 2)); [reflexivity|].
  exists [], [(10, 1 / 2)].
  repeat split; repeat constructor; simpl; lra.
Defined.

(** C4: for a non-empty mapping of inner-fold results,
    [_select_best_parameter] returns [c = 10 ^ mean (log10 c_k)] over the
    folds' winning Cs and [balanced_accuracy = mean a_k] over the folds'
    winning accuracies. *)
Theorem select_best_parameter_log_mean :
  forall async_result : list (list (R * R)),
    async_result <> [] ->
    Forall valid_fold async_result ->
    exists winners : list (R * R),
      Forall2 first_maximum async_result winners /\
      _select_best_parameter (map finite_items async_result)
      = BestParameter.mk
          (Fin (Rpower 10 (Rmean (map Np.log10R (map fst winners)))))
          (Fin (Rmean (map snd winners))).
Proof.
  intros async_result Hne Hv.
  destruct (valid_folds_winners async_result Hv) as (winners & HF & Hpos & Hc & Ha).
  exists winners. split; [exact HF|].
  assert (Hw : winners <> []).
  { destruct HF; [congruence | discriminate]. }
  rewrite select_best_parameter_unfold, Hc, Ha.
  rewrite power10_mean_log10, mean_Fin; try assumption; try reflexivity.
  all: destruct winners; simpl; congruence.
Qed.

Lemma select_best_parameter_log_mean_example :
  exists winners : list (R * R),
    Forall2 first_maximum [[(1, 1 / 2); (10, 3 / 4)]; [(1, 1); (10, 1)]] winners /\
    _select_best_parameter
      (map finite_items [[(1, 1 / 2); (10, 3 / 4)]; [(1, 1); (10, 1)]])
    = BestParameter.mk
        (Fin (Rpower 10 (Rmean (map Np.log10R (map fst winners)))))
        (Fin (Rmean (map snd winners))).
Proof.
  apply select_best_parameter_log_mean; [discriminate|].
  repeat constructor; simpl; try lra; discriminate.
Defined.

(** The variant without a kernel selects with the same code. *)
Lemma select_best_parameter_variants_agree :
  LinearSVMAlgorithmWithoutPrecomputedKernel._select_best_parameter
  = LinearSVMAlgorithmWithPrecomputedKernel._select_best_parameter.
Proof. reflexivity. Qed.

(** ** Aggregation over the outer folds *)

Lemma geometric_mean_10_100_1000 :
  Rpower 10 (Rmean (map Np.log10R [10; 100; 1000])) = 100.
Proof.
  replace 10 with (10 ^ 1) at 2 by lra.
  replace 100 with (10 ^ 2) by lra.
  replace 1000 with (10 ^ 3) by lra.
  cbn [map]. rewrite !log10R_pow.
  replace (Rmean [INR 1; INR 2; INR 3]) with (INR 2).
  - apply Rpower_pow. lra.
  - unfold Rmean, Rsum. simpl. field.
Qed.

Section Aggregation.
Context {svc rng : Type} `{Sklearn svc rng}.

Lemma apply_best_parameters_kernel (self : LinearSVMAlgorithmWithPrecomputedKernel.t)
    (results : list FoldResult.t) (g : rng) :
  LinearSVMAlgorithmWithPrecomputedKernel.apply_best_parameters self results g
  = let best_c := Np.power10 (Np.mean (map Np.log10 (map selected_c results))) in
    match SVC_fit (LinearSVMAlgorithmWithPrecomputedKernel.new_svc
                     (LinearSVMAlgorithmWithPrecomputedKernel._balanced self) best_c)
                  (LinearSVMAlgorithmWithPrecomputedKernel._kernel self)
                  (LinearSVMAlgorithmWithPrecomputedKernel._y self) g with
    | (Ok svc, g') =>
        (Ok (svc, BestParameter.mk best_c (Np.mean (map selected_accuracy results))), g')
    | (Raise e, g') => (Raise e, g')
    end.
Proof.
  unfold LinearSVMAlgorithmWithPrecomputedKernel.apply_best_parameters.
  rewrite (append_loop selected_c selected_accuracy). cbn [app].
  unfold bind, ret. reflexivity.
Qed.

Lemma apply_best_parameters_features (self : LinearSVMAlgorithmWithoutPrecomputedKernel.t)
    (results : list FoldResult.t) (g : rng) :
  LinearSVMAlgorithmWithoutPrecomputedKernel.apply_best_parameters self results g
  = let best_c := Np.power10 (Np.mean (map Np.log10 (map selected_c results))) in
    match SVC_fit (LinearSVMAlgorithmWithoutPrecomputedKernel.new_svc
                     (LinearSVMAlgorithmWithoutPrecomputedKernel._balanced self) best_c)
                  (LinearSVMAlgorithmWithoutPrecomputedKernel._x self)
                  (LinearSVMAlgorithmWithoutPrecomputedKernel._y self) g with
    | (Ok svc, g') =>
        (Ok (svc, BestParameter.mk best_c (Np.mean (map selected_accuracy results))), g')
    | (Raise e, g') => (Raise e, g')
    end.
Proof.
  unfold LinearSVMAlgorithmWithoutPrecomputedKernel.apply_best_parameters.
  rewrite (append_loop selected_c selected_accuracy). cbn [app].
  unfold bind, ret. reflexivity.
Qed.

End Aggregation.

(** C1: for a non-empty list of outer fold results,
    [apply_best_parameters] returns [c = 10 ^ mean (log10 c_i)] over the
    folds' selected Cs (100 for 10, 100, 1000) and [balanced_accuracy =
    mean b_i] over the folds' best-parameter accuracies, together with the
    classifier of one [fit] on the whole kernel (or feature) matrix and
    label vector of the algorithm, of the estimator
    [SVC(C=10 ^ mean (log10 c_i), kernel='precomputed', probability=True,
    tol=1e-6)] (resp. [kernel='linear']), with [class_weight='balanced']
    when the algorithm is balanced. *)
Theorem apply_best_parameters_geometric_mean :
  forall {svc rng : Type} `{Sklearn svc rng}
         (results : list FoldResult.t) (cs bs : list R),
    results <> [] ->
    map selected_c results = map Fin cs ->
    map selected_accuracy results = map Fin bs ->
    Forall (fun c => 0 < c) cs ->
    (forall (self : LinearSVMAlgorithmWithPrecomputedKernel.t) (g : rng),
        LinearSVMAlgorithmWithPrecomputedKernel.apply_best_parameters self results g
        = fit_and_return
            (SVC_fit (SVC.mk (Fin (geometric_mean cs)) precomputed true
                        (1 / 1000000)
                        (if LinearSVMAlgorithmWithPrecomputedKernel._balanced self
                         then Some "balanced"%string else None))
                     (LinearSVMAlgorithmWithPrecomputedKernel._kernel self)
                     (LinearSVMAlgorithmWithPrecomputedKernel._y self))
            (aggregated_parameters cs bs) g) /\
    (forall (self : LinearSVMAlgorithmWithoutPrecomputedKernel.t) (g : rng),
        LinearSVMAlgorithmWithoutPrecomputedKernel.apply_best_parameters self results g
        = fit_and_return
            (SVC_fit (SVC.mk (Fin (geometric_mean cs)) linear true
                        (1 / 1000000)
                        (if LinearSVMAlgorithmWithoutPrecomputedKernel._balanced self
                         then Some "balanced"%string else None))
                     (LinearSVMAlgorithmWithoutPrecomputedKernel._x self)
                     (LinearSVMAlgorithmWithoutPrecomputedKernel._y self))
            (aggregated_parameters cs bs) g) /\
    (cs = [10; 100; 1000] ->
     BestParameter.c (aggregated_parameters cs bs) = Fin 100).
Proof.
  intros svc rng Hsk results cs bs Hne Hcs Hbs Hpos.
  assert (Hcne : cs <> []).
  { destruct results; [congruence|]. destruct cs; discriminate. }
  assert (Hbne : bs <> []).
  { destruct results; [congruence|]. destruct bs; discriminate. }
  assert (Hc : Np.power10 (Np.mean (map Np.log10 (map selected_c results)))
               = Fin (geometric_mean cs)).
  { rewrite Hcs. apply power10_mean_log10; assumption. }
  assert (Hb : Np.mean (map selected_accuracy results) = Fin (Rmean bs)).
  { rewrite Hbs. apply mean_Fin; assumption. }
  split; [|split].
  - intros self g. rewrite apply_best_parameters_kernel. cbv zeta.
    rewrite Hc, Hb.
    unfold LinearSVMAlgorithmWithPrecomputedKernel.new_svc, tol_1e_6.
    destruct (LinearSVMAlgorithmWithPrecomputedKernel._balanced self);
      reflexivity.
  - intros self g. rewrite apply_best_parameters_features. cbv zeta.
    rewrite Hc, Hb.
    unfold LinearSVMAlgorithmWithoutPrecomputedKernel.new_svc, tol_1e_6.
    destruct (LinearSVMAlgorithmWithoutPrecomputedKernel._balanced self);
      reflexivity.
  - intros ->. cbn [aggregated_parameters BestParameter.c]. f_equal.
    apply geometric_mean_10_100_1000.
Qed.

Lemma apply_best_parameters_geometric_mean_example :
  let results := [Toy.fold_result 10 (1 / 2) [0%Z] [0%Z];
                  Toy.fold_result 100 (3 / 4) [0%Z] [0%Z];
                  Toy.fold_result 1000 1 [0%Z] [0%Z]] in
  LinearSVMAlgorithmWithPrecomputedKernel.apply_best_parameters
    Toy.kernel_algorithm results 0%nat
  = (Ok (SVC.mk (Fin (geometric_mean [10; 100; 1000])) precomputed true
           (1 / 1000000) (Some "balanced"%string),
         aggregated_parameters [10; 100; 1000] [1 / 2; 3 / 4; 1]), 1%nat)
  /\ BestParameter.c (aggregated_parameters [10; 100; 1000] [1 / 2; 3 / 4; 1])
     = Fin 100.
Proof.
  intros results.
  destruct (apply_best_parameters_geometric_mean (H := Toy.sklearn) results
              [10; 100; 1000] [1 / 2; 3 / 4; 1]) as (Hk & _ & Hc).
  - discriminate.
  - reflexivity.
  - reflexivity.
  - repeat constructor; lra.
  - split; [|apply Hc; reflexivity].
    rewrite Hk. reflexivity.
Defined.

(** ** The per-iteration error statistic *)

Import RepeatedHoldOut.

Lemma np_where_length_from (mask : list bool) (k : nat) :
  length (filter snd (combine (seq k (length mask)) mask))
  = length (filter (fun b => b) mask).
Proof.
  revert k. induction mask as [|b mask IH]; intros k; simpl; [reflexivity|].
  destruct b; simpl; rewrite IH; reflexivity.
Qed.

Lemma np_where_length (mask : list bool) :
  length (np_where mask) = length (filter (fun b => b) mask).
Proof. unfold np_where. rewrite length_map. apply np_where_length_from. Qed.

Lemma mismatches_count (ys y_hats : labels) :
  length (filter (fun b => b)
            (map (fun p : Z * Z => negb (Z.eqb (fst p) (snd p))) (combine ys y_hats)))
  = mismatches ys y_hats.
Proof.
  revert y_hats. induction ys as [|a ys IH]; intros [|b y_hats]; simpl; try reflexivity.
  destruct (Z.eqb a b); simpl; rewrite IH; reflexivity.
Qed.

Lemma compute_average_test_error_finite (ys y_hats : labels) :
  length ys = length y_hats -> ys <> [] ->
  _compute_average_test_error ys y_hats
  = Ok (Fin (INR (mismatches ys y_hats) / INR (length ys))).
Proof.
  intros Hlen Hne. unfold _compute_average_test_error, np_ne.
  rewrite (proj2 (Nat.eqb_eq _ _) Hlen). cbn [rbind].
  rewrite np_where_length, mismatches_count.
  unfold py_truediv. rewrite Reqb_neq by (apply INR_length_neq_0; assumption).
  reflexivity.
Qed.

(** C9: the error statistic of an iteration is the number of positions at
    which the true and the predicted label differ, divided by the length
    of the label vector; [compute_error_variance] collects exactly this
    value for every stored iteration. *)
Theorem compute_average_test_error_mismatch_fraction :
  forall results : list FoldResult.t,
    Forall (fun r => length (FoldResult.y r) = length (FoldResult.y_hat r) /\
                     FoldResult.y r <> []) results ->
    (forall r, In r results ->
       _compute_average_test_error (FoldResult.y r) (FoldResult.y_hat r)
       = Ok (Fin (INR (mismatches (FoldResult.y r) (FoldResult.y_hat r))
                  / INR (length (FoldResult.y r))))) /\
    per_split _compute_average_test_error results
    = Ok (map (fun r => Fin (INR (mismatches (FoldResult.y r) (FoldResult.y_hat r))
                             / INR (length (FoldResult.y r)))) results).
Proof.
  intros results Hall. split.
  - intros r Hin. rewrite Forall_forall in Hall.
    destruct (Hall r Hin) as [Hlen Hne].
    apply compute_average_test_error_finite; assumption.
  - induction Hall as [|r results [Hlen Hne] _ IH]; [reflexivity|].
    cbn [per_split map].
    rewrite compute_average_test_error_finite by assumption.
    cbn [rbind]. rewrite IH. reflexivity.
Qed.

Lemma compute_average_test_error_mismatch_fraction_example :
  _compute_average_test_error [0%Z; 1%Z; 1%Z; 0%Z] [0%Z; 0%Z; 1%Z; 1%Z]
  = Ok (Fin (INR 2 / INR 4)).
Proof.
  pose (r := Toy.fold_result 1 1 [0%Z; 1%Z; 1%Z; 0%Z] [0%Z; 0%Z; 1%Z; 1%Z]).
  assert (Hall : Forall (fun r => length (FoldResult.y r) = length (FoldResult.y_hat r) /\
                                  FoldResult.y r <> []) [r]).
  { repeat constructor. discriminate. }
  destruct (compute_average_test_error_mismatch_fraction [r] Hall) as [Hr _].
  apply (Hr r). left. reflexivity.
Defined.

(** ** The variance estimates *)


Lemma squared_deviations_Fin (xs : list R) (m : R) :
  map (fun x => Np.square (Np.sub x (Fin m))) (map Fin xs)
  = map Fin (map (fun x => (x - m) ^ 2) xs).
Proof.
  rewrite !map_map. apply map_ext. intros x.
  unfold Np.square, Np.sub, Np.neg, Np.add, Np.mul. f_equal. ring.
Qed.


Section Variance.
Context {alg svc : Type}.
Implicit Type self : RepeatedHoldOut.t alg svc.


(** With one stored result the sample variance is [0 / 0]. *)
Lemma compute_variance_single self (r : FoldResult.t) (x : R) :
  _split_results self = Some [r] ->
  _test_size self <> 1 ->
  _compute_variance self [Fin x] = Ok (NaN, NaN).
Proof.
  intros Hres Hp.
  unfold _compute_variance, split_results. rewrite Hres. cbn [rbind].
  change [Fin x] with (map Fin [x]).
  rewrite mean_Fin by discriminate.
  rewrite squared_deviations_Fin, sum_Fin. cbn [length Z.of_nat Pos.of_succ_nat Z.sub Z.add Z.opp Z.pos_sub].
  unfold py_truediv.
  rewrite (Reqb_neq 1) by lra.
  rewrite (Reqb_neq (1 - _test_size self)) by lra.
  cbn [rbind Np.div].
  rewrite (Reqb_eq 0) by reflexivity.
  rewrite Reqb_eq.
  2:{ unfold Rsum. cbn [map fold_right]. rewrite Rmean_single. ring. }
  reflexivity.
Qed.

End Variance.

Section VarianceMethods.
Context {alg svc : Type}.
Implicit Type self : RepeatedHoldOut.t alg svc.

Lemma compute_error_variance_ok self results (xs : list npfloat)
    (v : npfloat * npfloat) :
  _split_results self = Some results ->
  per_split _compute_average_test_error results = Ok xs ->
  _compute_variance self xs = Ok v ->
  compute_error_variance self = (Ok v, set_error_variance v self).
Proof.
  intros Hres Hxs Hv.
  unfold compute_error_variance, bind, get, lift, modify, ret, split_results.
  rewrite Hres, Hxs, Hv. reflexivity.
Qed.

Lemma compute_accuracy_variance_ok `{Utils} self results (xs : list npfloat)
    (v : npfloat * npfloat) :
  _split_results self = Some results ->
  per_split _compute_average_test_accuracy results = Ok xs ->
  _compute_variance self xs = Ok v ->
  compute_accuracy_variance self = (Ok v, set_accuracy_variance v self).
Proof.
  intros Hres Hxs Hv.
  unfold compute_accuracy_variance, bind, get, lift, modify, ret, split_results.
  rewrite Hres, Hxs, Hv. reflexivity.
Qed.

Lemma per_split_single (stat : labels -> labels -> result npfloat)
    (r : FoldResult.t) (x : npfloat) :
  stat (FoldResult.y r) (FoldResult.y_hat r) = Ok x ->
  per_split stat [r] = Ok [x].
Proof. intros Hx. cbn [per_split]. rewrite Hx. reflexivity. Qed.

End VarianceMethods.


Lemma sample_variance_example : sample_variance [1 / 10; 1 / 5; 3 / 10] = 1 / 100.
Proof. unfold sample_variance, Rmean, Rsum. simpl. field. Qed.


(** C6 (as the code has it): with exactly one iteration nothing is raised;
    for a finite statistic and [test_size <> 1] the sample variance is the
    NumPy division [0.0 / 0], which is NaN, and both estimates returned
    (and stored) by the variance methods are NaN. *)
Theorem compute_variance_single_iteration :
  forall {alg svc : Type} (self : RepeatedHoldOut.t alg svc)
         (r : FoldResult.t) (x : R),
    _split_results self = Some [r] ->
    _test_size self <> 1 ->
    _compute_variance self [Fin x] = Ok (NaN, NaN) /\
    (_compute_average_test_error (FoldResult.y r) (FoldResult.y_hat r) = Ok (Fin x) ->
     compute_error_variance self
     = (Ok (NaN, NaN), set_error_variance (NaN, NaN) self)) /\
    (forall U : Utils,
        _compute_average_test_accuracy (FoldResult.y r) (FoldResult.y_hat r)
        = Ok (Fin x) ->
        compute_accuracy_variance self
        = (Ok (NaN, NaN), set_accuracy_variance (NaN, NaN) self)).
Proof.
  intros alg svc self r x Hres Hp.
  pose proof (compute_variance_single self r x Hres Hp) as Hv.
  split; [exact Hv|]. split.
  - intros Hx. eapply compute_error_variance_ok; try eassumption.
    apply per_split_single. exact Hx.
  - intros U Hx. eapply compute_accuracy_variance_ok; try eassumption.
    apply per_split_single. exact Hx.
Qed.

Lemma compute_variance_single_iteration_example :
  _compute_variance Toy.single_iteration [Fin 0] = Ok (NaN, NaN).
Proof.
  apply (compute_variance_single_iteration Toy.single_iteration
           (Toy.fold_result 1 1 [0%Z] [0%Z]) 0).
  - reflexivity.
  - simpl. lra.
Defined.

(** One iteration: [compute_error_variance] returns a pair of NaN and
    raises nothing. *)
Lemma compute_error_variance_single_iteration_returns :
  fst (compute_error_variance Toy.single_iteration) = Ok (NaN, NaN) /\
  ~ (exists e, fst (compute_error_variance Toy.single_iteration) = Raise e).
Proof.
  assert (Heq : compute_error_variance Toy.single_iteration
                = (Ok (NaN, NaN), set_error_variance (NaN, NaN) Toy.single_iteration)).
  { eapply compute_error_variance_ok.
    - reflexivity.
    - apply per_split_single.
      apply (compute_average_test_error_finite [0%Z] [0%Z]); [reflexivity | discriminate].
    - eapply compute_variance_single; [reflexivity | simpl; lra]. }
  rewrite Heq. split; [reflexivity|]. intros [e He]. discriminate He.
Qed.

(** ** Persistence before validation *)

(** C7: on a freshly constructed [KFoldCV] or [RepeatedHoldOut] object
    [save_results] raises an error: no fold has been stored, so no table is
    built and [pd.concat] is called on an empty list. *)
Theorem save_results_before_validate_raises :
  forall {alg svc : Type} (ml_algorithm : alg) (output_dir : string) (fs : Fs.t),
    fst (KFoldCV.save_results output_dir
           (KFoldCV.__init__ (svc := svc) ml_algorithm, fs))
    = Raise (ValueError "No objects to concatenate") /\
    (forall (U : Utils) (n_iterations : nat) (test_size : R),
        fst (RepeatedHoldOut.save_results output_dir
               (RepeatedHoldOut.__init__ (svc := svc) ml_algorithm n_iterations
                  test_size, fs))
        = Raise (ValueError "No objects to concatenate")).
Proof.
  intros alg svc ml_algorithm output_dir fs. split.
  - reflexivity.
  - intros U n_iterations test_size. reflexivity.
Qed.

(** ** Validation *)

Section RepeatedHoldOutValidation.
Context {alg svc rng : Type} `{ClassificationAlgorithm alg svc rng}
        `{Sklearn svc rng}.
Implicit Type self : RepeatedHoldOut.t alg svc.

(** Without the inner search the first iteration already fails: on the
    lookup of its split or on the explicit [raise]. *)
Lemma evaluate_splits_not_nested self (g : rng) (n : nat) :
  exists e,
    evaluate_splits (S n) false (self, g) = (Raise e, (self, g)) /\
    (forall cv p rest, _cv self = Some cv -> cv = p :: rest ->
                       e = Exception "We always do nested CV").
Proof.
  unfold evaluate_splits. cbn [seq for_each].
  unfold bind, on_fst, get, lift, raise. cbn [fst snd].
  destruct (_cv self) as [[|p cv]|] eqn:Hcv; cbn [nth_error].
  - exists IndexError. split; [reflexivity|]. intros ? ? ? [= <-]. discriminate.
  - exists (Exception "We always do nested CV").
    destruct p as [train_index test_index]. split; reflexivity.
  - exists TypeError. split; [reflexivity|]. discriminate.
Qed.

End RepeatedHoldOutValidation.

(** C8 (as the code has it): the check of [inner_cv] sits inside the
    iteration loop.  [RepeatedHoldOut.validate] called with
    [inner_cv = False] on an object with at least one iteration to run
    raises an error and produces no results: the stored results,
    classifier and parameters are left as they were; when split indices
    are supplied and the pool can be created, the error is the explicit
    ["We always do nested CV"] exception.  With [n_iterations = 0] the
    loop body is never run and the call does exactly what it does with
    [inner_cv = True]. *)
Theorem validate_without_inner_cv_raises :
  forall {alg svc rng : Type} `{ClassificationAlgorithm alg svc rng}
         `{Sklearn svc rng}
         (self : RepeatedHoldOut.t alg svc) (g : rng) (y : labels)
         (n_threads : nat) (splits_indices : option (list (index * index))),
    ((1 <= _n_iterations self)%nat ->
     exists e st',
       RepeatedHoldOut.validate y n_threads splits_indices false (self, g)
       = (Raise e, st') /\
       _split_results (fst st') = _split_results self /\
       _classifier (fst st') = _classifier self /\
       _best_params (fst st') = _best_params self /\
       (forall p rest, splits_indices = Some (p :: rest) ->
                       (1 <= n_threads)%nat ->
                       e = Exception "We always do nested CV")) /\
    (_n_iterations self = 0%nat ->
     RepeatedHoldOut.validate y n_threads splits_indices false (self, g)
     = RepeatedHoldOut.validate y n_threads splits_indices true (self, g)).
Proof.
  intros alg svc rng Halg Hsk self g y n_threads splits_indices.
  split; [intros Hn | intros Hzero].
  2:{ unfold RepeatedHoldOut.validate.
      unfold bind at 1. unfold on_fst at 1, get at 1. cbn [fst snd].
      symmetry.
      unfold bind at 1. unfold on_fst at 1, get at 1. cbn [fst snd].
      rewrite Hzero. reflexivity. }
  destruct (_n_iterations self) as [|n] eqn:Hiter; [lia|].
  unfold RepeatedHoldOut.validate.
  unfold bind at 1. unfold on_fst at 1, get at 1. cbn [fst snd].
  rewrite Hiter.
  destruct splits_indices as [cv|].
  - unfold bind at 1, ret at 1.
    unfold bind at 1, on_fst at 1, modify at 1. cbn [fst snd].
    unfold bind at 1, lift at 1.
    destruct n_threads as [|n_threads]; cbn [ThreadPool].
    + eexists _, (set_cv cv self, g). repeat split. intros _ _ _ Ht. lia.
    + destruct (evaluate_splits_not_nested (set_cv cv self) g n) as (e & He & Hform).
      unfold bind at 1. rewrite He.
      exists e, (set_cv cv self, g). repeat split.
      intros p rest [= ->] _. eapply Hform; reflexivity.
  - unfold bind at 1, on_snd at 1. cbn [fst snd].
    destruct (StratifiedShuffleSplit_split (S n) (_test_size self) (length y) y g)
      as [[cv|e] g0].
    + unfold bind at 1, on_fst at 1, modify at 1. cbn [fst snd].
      unfold bind at 1, lift at 1.
      destruct n_threads as [|n_threads]; cbn [ThreadPool].
      * eexists _, (set_cv cv self, g0). repeat split. discriminate.
      * destruct (evaluate_splits_not_nested (set_cv cv self) g0 n) as (e & He & _).
        unfold bind at 1. rewrite He.
        exists e, (set_cv cv self, g0). repeat split. discriminate.
    + exists e, (self, g0). repeat split. discriminate.
Qed.

Lemma bind_Ok_inv {S A B} (m : M S A) (k : A -> M S B) (s s' : S) (b : B) :
  bind m k s = (Ok b, s') ->
  exists a s1, m s = (Ok a, s1) /\ k a s1 = (Ok b, s').
Proof.
  unfold bind. destruct (m s) as [[a|e] s1]; [|discriminate].
  intros Hk. exists a, s1. split; [reflexivity | exact Hk].
Qed.

Lemma for_each_length {S A B} (body : A -> M S B) (l : list A) (s s' : S)
    (bs : list B) :
  for_each l body s = (Ok bs, s') -> length bs = length l.
Proof.
  revert s s' bs. induction l as [|a l IH]; intros s s' bs; cbn [for_each].
  - intros [= <- _]. reflexivity.
  - intros Hb. apply bind_Ok_inv in Hb as (b & s1 & _ & Hb).
    apply bind_Ok_inv in Hb as (bs' & s2 & Hrest & Hb).
    injection Hb as <- _. simpl. f_equal. eapply IH. exact Hrest.
Qed.

(** A loop whose body leaves the first component of the state alone
    leaves it alone. *)
Lemma for_each_fst_preserved {S T A B} (body : A -> M (S * T) B) (l : list A) :
  (forall a st, fst (snd (body a st)) = fst st) ->
  forall st, fst (snd (for_each l body st)) = fst st.
Proof.
  intros Hbody. induction l as [|a l IH]; intros st; cbn [for_each].
  - reflexivity.
  - unfold bind at 1. specialize (Hbody a st).
    destruct (body a st) as [[b|e] st1]; cbn [snd] in *; [|exact Hbody].
    unfold bind at 1. specialize (IH st1).
    destruct (for_each l body st1) as [[bs|e] st2]; unfold ret;
      cbn [snd] in *; congruence.
Qed.

Section KFoldValidation.
Context {alg svc rng : Type} `{ClassificationAlgorithm alg svc rng}
        `{Sklearn svc rng}.
Implicit Type self : KFoldCV.t alg svc.

Lemma kfold_evaluate_folds_self self (g : rng) (n : nat) :
  fst (snd (KFoldCV.evaluate_folds n (self, g))) = self.
Proof.
  unfold KFoldCV.evaluate_folds.
  rewrite for_each_fst_preserved; [reflexivity|].
  intros i [s g0]. unfold bind, on_fst, on_snd, get, lift. cbn [fst snd].
  destruct (KFoldCV._cv s) as [cv|]; [|reflexivity].
  destruct (nth_error cv i) as [[train_index test_index]|]; [|reflexivity].
  destruct (evaluate _ _ _ _) as [[r|e] g1]; reflexivity.
Qed.

Lemma kfold_append_loop (run : list FoldResult.t) self (g : rng)
    (prev : list FoldResult.t) :
  KFoldCV._fold_results self = Some prev ->
  for_each run (fun r => on_fst (KFoldCV.append_result r)) (self, g)
  = (Ok (map (fun _ => tt) run),
     (KFoldCV.set_fold_results (prev ++ run) self, g)).
Proof.
  revert self prev. induction run as [|r run IH]; intros self prev Hprev.
  - cbn [for_each map]. rewrite app_nil_r. destruct self; simpl in Hprev.
    subst. reflexivity.
  - cbn [for_each map]. unfold bind at 1.
    unfold on_fst at 1, KFoldCV.append_result, bind, get, put. cbn [fst snd].
    rewrite Hprev. cbn [fst snd].
    rewrite (IH _ (prev ++ [r])) by reflexivity.
    rewrite <- app_assoc. reflexivity.
Qed.

(** One successful [validate] on an object that stores [prev]. *)
Lemma kfold_validate_appends self (g g' : rng) (y : labels) (n_folds n_threads : nat)
    (splits_indices : option (list (index * index)))
    (prev results : list FoldResult.t) (classifier : svc)
    (best_params : BestParameter.t) (self' : KFoldCV.t alg svc) :
  KFoldCV._fold_results self = Some prev ->
  KFoldCV.validate y n_folds n_threads splits_indices (self, g)
  = (Ok (classifier, best_params, results), (self', g')) ->
  exists cv g0 run g1,
    KFoldCV.evaluate_folds n_folds (KFoldCV.set_cv cv self, g0)
    = (Ok run, (KFoldCV.set_cv cv self, g1)) /\
    length run = n_folds /\
    apply_best_parameters (KFoldCV._ml_algorithm self) (prev ++ run) g1
    = (Ok (classifier, best_params), g') /\
    results = prev ++ run /\
    self' = KFoldCV.set_best classifier best_params
              (KFoldCV.set_fold_results (prev ++ run) (KFoldCV.set_cv cv self)).
Proof.
  intros Hprev Hval. unfold KFoldCV.validate in Hval.
  apply bind_Ok_inv in Hval as (cv & [s0 g0] & Hcv & Hval).
  assert (Hs0 : s0 = self).
  { destruct splits_indices as [splits|].
    - unfold ret in Hcv. congruence.
    - unfold on_snd in Hcv. cbn [fst snd] in Hcv.
      destruct (StratifiedKFold_split _ _ _ _ _) as [r g1]. congruence. }
  subst s0.
  apply bind_Ok_inv in Hval as ([] & st1 & Hset & Hval).
  unfold on_fst, modify in Hset. cbn [fst snd] in Hset. injection Hset as <-.
  apply bind_Ok_inv in Hval as ([] & st1' & Hpool & Hval).
  unfold lift in Hpool. injection Hpool as _ <-.
  apply bind_Ok_inv in Hval as (run & [s2 g1] & Hrun & Hval).
  pose proof (kfold_evaluate_folds_self (KFoldCV.set_cv cv self) g0 n_folds) as Hself.
  rewrite Hrun in Hself. cbn [fst snd] in Hself. subst s2.
  apply bind_Ok_inv in Hval as (units & st3 & Happ & Hval).
  rewrite (kfold_append_loop run _ _ prev) in Happ by exact Hprev.
  injection Happ as _ <-.
  apply bind_Ok_inv in Hval as (s4 & st4 & Hget & Hval).
  unfold on_fst, get in Hget. cbn [fst snd] in Hget. injection Hget as <- <-.
  apply bind_Ok_inv in Hval as (stored & st5 & Hstored & Hval).
  unfold on_fst, KFoldCV.fold_results, bind, get, ret in Hstored.
  cbn [fst snd KFoldCV.set_fold_results KFoldCV._fold_results] in Hstored.
  injection Hstored as <- <-.
  apply bind_Ok_inv in Hval as ([clf bp] & [s6 g6] & Hbest & Hval).
  unfold on_snd in Hbest. cbn [fst snd] in Hbest.
  destruct (apply_best_parameters _ _ _) as [[[clf' bp']|e] g7] eqn:Happly;
    [|discriminate].
  injection Hbest as -> -> <- ->.
  apply bind_Ok_inv in Hval as ([] & st7 & Hmod & Hval).
  unfold on_fst, modify in Hmod. cbn [fst snd] in Hmod. injection Hmod as <-.
  unfold ret in Hval. injection Hval as <- <- <- <- <-.
  exists cv, g0, run, g1. repeat split.
  - exact Hrun.
  - apply for_each_length in Hrun. rewrite length_seq in Hrun. exact Hrun.
  - exact Happly.
Qed.

End KFoldValidation.

Section HoldOutValidation.
Context {alg svc rng : Type} `{ClassificationAlgorithm alg svc rng}
        `{Sklearn svc rng}.
Implicit Type self : RepeatedHoldOut.t alg svc.

Lemma holdout_evaluate_splits_self self (g : rng) (n : nat) (inner_cv : bool) :
  fst (snd (evaluate_splits n inner_cv (self, g))) = self.
Proof.
  unfold evaluate_splits.
  rewrite for_each_fst_preserved; [reflexivity|].
  intros i [s g0]. unfold bind, on_fst, on_snd, get, lift, raise. cbn [fst snd].
  destruct (_cv s) as [cv|]; [|reflexivity].
  destruct (nth_error cv i) as [[train_index test_index]|]; [|reflexivity].
  destruct inner_cv; [|reflexivity].
  destruct (evaluate _ _ _ _) as [[r|e] g1]; reflexivity.
Qed.

Lemma holdout_append_loop (run : list FoldResult.t) self (g : rng)
    (prev : list FoldResult.t) :
  _split_results self = Some prev ->
  for_each run (fun r => on_fst (append_result r)) (self, g)
  = (Ok (map (fun _ => tt) run), (set_split_results (prev ++ run) self, g)).
Proof.
  revert self prev. induction run as [|r run IH]; intros self prev Hprev.
  - cbn [for_each map]. rewrite app_nil_r. destruct self; simpl in Hprev.
    subst. reflexivity.
  - cbn [for_each map]. unfold bind at 1.
    unfold on_fst at 1, append_result, bind, get, put. cbn [fst snd].
    rewrite Hprev. cbn [fst snd].
    rewrite (IH _ (prev ++ [r])) by reflexivity.
    rewrite <- app_assoc. reflexivity.
Qed.

(** One successful [validate] on an object that stores [prev]. *)
Lemma holdout_validate_appends self (g g' : rng) (y : labels) (n_threads : nat)
    (splits_indices : option (list (index * index))) (inner_cv : bool)
    (prev results : list FoldResult.t) (classifier : svc)
    (best_params : BestParameter.t) (self' : RepeatedHoldOut.t alg svc) :
  _split_results self = Some prev ->
  RepeatedHoldOut.validate y n_threads splits_indices inner_cv (self, g)
  = (Ok (classifier, best_params, results), (self', g')) ->
  exists cv g0 run g1,
    evaluate_splits (_n_iterations self) inner_cv (set_cv cv self, g0)
    = (Ok run, (set_cv cv self, g1)) /\
    length run = _n_iterations self /\
    apply_best_parameters (_ml_algorithm self) (prev ++ run) g1
    = (Ok (classifier, best_params), g') /\
    results = prev ++ run /\
    self' = set_best classifier best_params
              (set_split_results (prev ++ run) (set_cv cv self)).
Proof.
  intros Hprev Hval. unfold RepeatedHoldOut.validate in Hval.
  apply bind_Ok_inv in Hval as (s & st & Hget & Hval).
  unfold on_fst, get in Hget. cbn [fst snd] in Hget. injection Hget as <- <-.
  apply bind_Ok_inv in Hval as (cv & [s0 g0] & Hcv & Hval).
  assert (Hs0 : s0 = self).
  { destruct splits_indices as [splits|].
    - unfold ret in Hcv. congruence.
    - unfold on_snd in Hcv. cbn [fst snd] in Hcv.
      destruct (StratifiedShuffleSplit_split _ _ _ _ _) as [r g1]. congruence. }
  subst s0.
  apply bind_Ok_inv in Hval as ([] & st1 & Hset & Hval).
  unfold on_fst, modify in Hset. cbn [fst snd] in Hset. injection Hset as <-.
  apply bind_Ok_inv in Hval as ([] & st1' & Hpool & Hval).
  unfold lift in Hpool. injection Hpool as _ <-.
  apply bind_Ok_inv in Hval as (run & [s2 g1] & Hrun & Hval).
  pose proof (holdout_evaluate_splits_self (set_cv cv self) g0
                (_n_iterations self) inner_cv) as Hself.
  rewrite Hrun in Hself. cbn [fst snd] in Hself. subst s2.
  apply bind_Ok_inv in Hval as (units & st3 & Happ & Hval).
  rewrite (holdout_append_loop run _ _ prev) in Happ by exact Hprev.
  injection Happ as _ <-.
  apply bind_Ok_inv in Hval as (s4 & st4 & Hget & Hval).
  unfold on_fst, get in Hget. cbn [fst snd] in Hget. injection Hget as <- <-.
  apply bind_Ok_inv in Hval as (stored & st5 & Hstored & Hval).
  unfold lift, split_results in Hstored.
  cbn [fst snd set_split_results _split_results] in Hstored.
  injection Hstored as <- <-.
  apply bind_Ok_inv in Hval as ([clf bp] & [s6 g6] & Hbest & Hval).
  unfold on_snd in Hbest. cbn [fst snd] in Hbest.
  destruct (apply_best_parameters _ _ _) as [[[clf' bp']|e] g7] eqn:Happly;
    [|discriminate].
  injection Hbest as -> -> <- ->.
  apply bind_Ok_inv in Hval as ([] & st7 & Hmod & Hval).
  unfold on_fst, modify in Hmod. cbn [fst snd] in Hmod. injection Hmod as <-.
  unfold ret in Hval. injection Hval as <- <- <- <- <-.
  exists cv, g0, run, g1. repeat split.
  - exact Hrun.
  - apply for_each_length in Hrun. rewrite length_seq in Hrun. exact Hrun.
  - exact Happly.
Qed.

End HoldOutValidation.

(** C10: [validate] appends to the stored results.  After two successful
    calls on one object that stored [prev] (nothing, when it is fresh) the
    stored list is [prev] followed by the first run's and then the second
    run's fold results; the second call returns that whole list and
    aggregates its final parameters over it, and the variance methods of
    [RepeatedHoldOut] then work on all the stored results. *)
Theorem validate_accumulates_results :
  forall {alg svc rng : Type} `{ClassificationAlgorithm alg svc rng}
         `{Sklearn svc rng} (prev : list FoldResult.t),
    (forall (self : KFoldCV.t alg svc) (g : rng) (y1 y2 : labels)
            (n_folds1 n_folds2 n_threads1 n_threads2 : nat)
            (splits1 splits2 : option (list (index * index)))
            res1 res2 st1 st2,
        KFoldCV._fold_results self = Some prev ->
        KFoldCV.validate y1 n_folds1 n_threads1 splits1 (self, g) = (Ok res1, st1) ->
        KFoldCV.validate y2 n_folds2 n_threads2 splits2 st1 = (Ok res2, st2) ->
        exists run1 run2,
          length run1 = n_folds1 /\ length run2 = n_folds2 /\
          (exists cv g0,
              fst (KFoldCV.evaluate_folds n_folds2
                     (KFoldCV.set_cv cv (fst st1), g0)) = Ok run2) /\
          KFoldCV._fold_results (fst st1) = Some (prev ++ run1) /\
          KFoldCV._fold_results (fst st2) = Some (prev ++ run1 ++ run2) /\
          snd res2 = prev ++ run1 ++ run2 /\
          (exists g1,
              apply_best_parameters (KFoldCV._ml_algorithm self)
                (prev ++ run1 ++ run2) g1 = (Ok (fst res2), snd st2))) /\
    (forall (self : RepeatedHoldOut.t alg svc) (g : rng) (y1 y2 : labels)
            (n_threads1 n_threads2 : nat)
            (splits1 splits2 : option (list (index * index)))
            (inner_cv1 inner_cv2 : bool) res1 res2 st1 st2,
        _split_results self = Some prev ->
        RepeatedHoldOut.validate y1 n_threads1 splits1 inner_cv1 (self, g)
        = (Ok res1, st1) ->
        RepeatedHoldOut.validate y2 n_threads2 splits2 inner_cv2 st1
        = (Ok res2, st2) ->
        exists run1 run2,
          length run1 = _n_iterations self /\ length run2 = _n_iterations self /\
          (exists cv g0,
              fst (evaluate_splits (_n_iterations self) inner_cv2
                     (set_cv cv (fst st1), g0)) = Ok run2) /\
          _split_results (fst st1) = Some (prev ++ run1) /\
          _split_results (fst st2) = Some (prev ++ run1 ++ run2) /\
          snd res2 = prev ++ run1 ++ run2 /\
          (exists g1,
              apply_best_parameters (_ml_algorithm self)
                (prev ++ run1 ++ run2) g1 = (Ok (fst res2), snd st2)) /\
          (forall xs v,
              per_split _compute_average_test_error (prev ++ run1 ++ run2) = Ok xs ->
              _compute_variance (fst st2) xs = Ok v ->
              compute_error_variance (fst st2)
              = (Ok v, set_error_variance v (fst st2)))).
Proof.
  intros alg svc rng Halg Hsk prev. split.
  - intros self g y1 y2 n1 n2 t1 t2 sp1 sp2 [[clf1 bp1] results1]
           [[clf2 bp2] results2] [self1 g1] [self2 g2] Hprev Hv1 Hv2.
    destruct (kfold_validate_appends _ _ _ _ _ _ _ _ _ _ _ _ Hprev Hv1)
      as (cv1 & ga1 & run1 & gb1 & _ & Hlen1 & _ & -> & ->).
    assert (Hstored : KFoldCV._fold_results
                        (KFoldCV.set_best clf1 bp1
                           (KFoldCV.set_fold_results (prev ++ run1)
                              (KFoldCV.set_cv cv1 self))) = Some (prev ++ run1))
      by reflexivity.
    destruct (kfold_validate_appends _ _ _ _ _ _ _ _ _ _ _ _ Hstored Hv2)
      as (cv2 & ga2 & run2 & gb2 & Hrun2 & Hlen2 & Happly & -> & ->).
    exists run1, run2. cbn [fst snd]. rewrite <- app_assoc in *.
    repeat split; try assumption.
    + exists cv2, ga2. exact (f_equal fst Hrun2).
    + exists gb2. exact Happly.
  - intros self g y1 y2 t1 t2 sp1 sp2 ic1 ic2 [[clf1 bp1] results1]
           [[clf2 bp2] results2] [self1 g1] [self2 g2] Hprev Hv1 Hv2.
    destruct (holdout_validate_appends _ _ _ _ _ _ _ _ _ _ _ _ Hprev Hv1)
      as (cv1 & ga1 & run1 & gb1 & _ & Hlen1 & _ & -> & ->).
    assert (Hstored : _split_results
                        (set_best clf1 bp1
                           (set_split_results (prev ++ run1) (set_cv cv1 self)))
                      = Some (prev ++ run1))
      by reflexivity.
    destruct (holdout_validate_appends _ _ _ _ _ _ _ _ _ _ _ _ Hstored Hv2)
      as (cv2 & ga2 & run2 & gb2 & Hrun2 & Hlen2 & Happly & -> & ->).
    exists run1, run2. cbn [fst snd]. rewrite <- app_assoc in *.
    repeat split; try assumption.
    + exists cv2, ga2. exact (f_equal fst Hrun2).
    + exists gb2. exact Happly.
    + intros xs v Hxs Hv.
      eapply compute_error_variance_ok; [reflexivity | exact Hxs | exact Hv].
Qed.

Lemma validate_without_inner_cv_raises_example :
  exists e st',
    RepeatedHoldOut.validate [0%Z; 1%Z; 0%Z] 1 (Some Toy.outer_split) false
      (RepeatedHoldOut.__init__ Toy.kernel_algorithm 1 (1 / 5), 0%nat)
    = (Raise e, st') /\
    _split_results (fst st') = Some [] /\
    _classifier (fst st') = None /\
    _best_params (fst st') = None /\
    (forall p rest, Some Toy.outer_split = Some (p :: rest) ->
                    (1 <= 1)%nat ->
                    e = Exception "We always do nested CV").
Proof.
  apply (proj1 (validate_without_inner_cv_raises
                  (RepeatedHoldOut.__init__ Toy.kernel_algorithm 1 (1 / 5))
                  0%nat [0%Z; 1%Z; 0%Z] 1 (Some Toy.outer_split))).
  simpl. lia.
Defined.

(** Evaluation of a run on the stand-in collaborators, leaving the real
    arithmetic untouched. *)
Ltac run_toy :=
  cbv -[Rplus Rmult Rdiv Rinv Rminus Ropp IZR INR Rpower ln Rlt_dec Req_dec_T
        Reqb Rltb Np.div Np.mul Np.add Np.log10 Np.power10 Np.mean Np.sum
        Np.gt dict_set];
  reflexivity.

(** No iteration to run: [validate] with [inner_cv = False] raises
    nothing, returns the classifier fitted with [C = NaN] and stores it. *)
Lemma validate_without_inner_cv_no_iteration_returns :
  let self := RepeatedHoldOut.__init__ Toy.kernel_algorithm 0 (1 / 5) in
  let classifier :=
    SVC.mk NaN precomputed true (1 / 1000000) (Some "balanced"%string) in
  let call :=
    RepeatedHoldOut.validate [0%Z; 1%Z; 0%Z] 1 (Some Toy.outer_split) false
      (self, 0%nat) in
  fst call = Ok (classifier, BestParameter.mk NaN NaN, []) /\
  _classifier (fst (snd call)) = Some classifier /\
  _split_results (fst (snd call)) = Some [] /\
  ~ (exists e, fst call = Raise e).
Proof.
  intros self classifier call.
  assert (Hcall : call
                  = (Ok (classifier, BestParameter.mk NaN NaN, []),
                     (set_best classifier (BestParameter.mk NaN NaN)
                        (set_split_results []
                           (set_cv Toy.outer_split self)), 1%nat))).
  { subst call self classifier.
    unfold RepeatedHoldOut.validate.
    unfold bind at 1, on_fst at 1, get at 1. cbn [fst snd].
    unfold bind at 1, ret at 1.
    unfold bind at 1, on_fst at 1, modify at 1. cbn [fst snd].
    unfold bind at 1, lift at 1. cbn [ThreadPool].
    unfold bind at 1.
    cbn [RepeatedHoldOut.__init__ _n_iterations evaluate_splits seq for_each ret].
    unfold bind at 1. cbn [for_each ret].
    unfold bind at 1, on_fst at 1, get at 1. cbn [fst snd].
    unfold bind at 1, lift at 1.
    cbn [split_results _split_results set_cv RepeatedHoldOut.__init__].
    unfold bind at 1, on_snd at 1. cbn [fst snd].
    cbn [_ml_algorithm set_cv RepeatedHoldOut.__init__].
    change (apply_best_parameters Toy.kernel_algorithm [] 0%nat)
      with (LinearSVMAlgorithmWithPrecomputedKernel.apply_best_parameters
              Toy.kernel_algorithm [] 0%nat).
    rewrite apply_best_parameters_kernel. cbn [map]. cbv zeta.
    rewrite mean_nil.
    reflexivity. }
  rewrite Hcall. cbn [fst snd].
  repeat split. intros [e He]. discriminate He.
Qed.

Lemma validate_accumulates_results_example :
  exists res1 st1 res2 st2,
    KFoldCV.validate [0%Z; 1%Z; 0%Z] 1 1 (Some Toy.outer_split)
      (KFoldCV.__init__ Toy.kernel_algorithm, 0%nat) = (Ok res1, st1) /\
    KFoldCV.validate [0%Z; 1%Z; 0%Z] 1 1 (Some Toy.outer_split) st1
    = (Ok res2, st2) /\
    exists run1 run2,
      length run1 = 1%nat /\ length run2 = 1%nat /\
      KFoldCV._fold_results (fst st2) = Some (run1 ++ run2) /\
      snd res2 = run1 ++ run2.
Proof.
  eexists _, _, _, _.
  match goal with
  | |- ?A /\ ?B /\ _ =>
      assert (H1 : A) by run_toy; assert (H2 : B) by run_toy
  end.
  split; [exact H1|]. split; [exact H2|].
  destruct (validate_accumulates_results (H := PrecomputedKernel_algorithm)
              (H0 := Toy.sklearn) []) as [Hk _].
  destruct (Hk (KFoldCV.__init__ Toy.kernel_algorithm) _ _ _ _ _ _ _ _ _ _ _ _ _
              eq_refl H1 H2)
    as (run1 & run2 & Hl1 & Hl2 & _ & _ & Hst & Hres & _).
  exists run1, run2. repeat split; assumption.
Defined.

(** ** Hyperparameter selection and the outer test data *)

Lemma take_all_some {A} (a : list A) (idx : index) :
  take a idx = index_result (all_some (map (nth_error a) idx)).
Proof.
  induction idx as [|i idx IH]; cbn [take map all_some]; [reflexivity|].
  destruct (nth_error a i) as [x|]; [|reflexivity].
  rewrite IH. destruct (all_some _); reflexivity.
Qed.

Lemma take_pointwise {A} (a b : list A) (idx : index) :
  (forall i, In i idx -> nth_error a i = nth_error b i) ->
  take a idx = take b idx.
Proof.
  intros Hab. rewrite !take_all_some. do 2 f_equal.
  apply map_ext_in. exact Hab.
Qed.

Lemma take_cols_all_some (rows : matrix) (cidx : index) :
  take_cols rows cidx
  = index_result
      (all_some (map (fun row => all_some (map (nth_error row) cidx)) rows)).
Proof.
  induction rows as [|row rows IH]; cbn [take_cols map all_some]; [reflexivity|].
  rewrite take_all_some, IH.
  destruct (all_some (map (nth_error row) cidx)); [|reflexivity].
  cbn [index_result rbind]. destruct (all_some _); reflexivity.
Qed.

Lemma entries_of_rows (a : matrix) (ridx cidx : index) (rows : matrix) :
  all_some (map (nth_error a) ridx) = Some rows ->
  map (fun i => all_some (map (entry a i) cidx)) ridx
  = map (fun row => all_some (map (nth_error row) cidx)) rows.
Proof.
  revert rows. induction ridx as [|i ridx IH]; intros rows; cbn [map all_some].
  - intros [= <-]. reflexivity.
  - unfold entry at 1. destruct (nth_error a i) as [row|]; [|discriminate].
    destruct (all_some (map (nth_error a) ridx)) as [rows'|]; [|discriminate].
    intros [= <-]. cbn [map]. f_equal. apply IH. reflexivity.
Qed.

Lemma entries_missing_row (a : matrix) (ridx cidx : index) :
  cidx <> [] ->
  all_some (map (nth_error a) ridx) = None ->
  entries a ridx cidx = None.
Proof.
  intros Hc. unfold entries.
  induction ridx as [|i ridx IH]; cbn [map all_some]; [discriminate|].
  unfold entry at 1. destruct (nth_error a i) as [row|].
  - destruct (all_some (map (nth_error a) ridx)); [discriminate|].
    intros _. rewrite IH by reflexivity.
    destruct (all_some (map (nth_error row) cidx)); reflexivity.
  - intros _. destruct cidx as [|j cidx]; [congruence|]. reflexivity.
Qed.

(** Slicing rows and columns by one index reads the entries at that index
    and nothing else. *)
Lemma take_rows_cols_entries (a : matrix) (idx : index) :
  take_rows_cols a idx idx = index_result (entries a idx idx).
Proof.
  unfold take_rows_cols. rewrite take_all_some.
  destruct (all_some (map (nth_error a) idx)) as [rows|] eqn:Hrows.
  - cbn [index_result rbind]. rewrite take_cols_all_some.
    unfold entries. rewrite (entries_of_rows a idx idx rows Hrows). reflexivity.
  - cbn [index_result rbind].
    destruct idx as [|i idx]; [discriminate|].
    rewrite entries_missing_row; [reflexivity | discriminate | exact Hrows].
Qed.

Lemma take_rows_cols_pointwise (a b : matrix) (idx : index) :
  (forall i j, In i idx -> In j idx -> entry a i j = entry b i j) ->
  take_rows_cols a idx idx = take_rows_cols b idx idx.
Proof.
  intros Hab. rewrite !take_rows_cols_entries. unfold entries. do 2 f_equal.
  apply map_ext_in. intros i Hi. f_equal.
  apply map_ext_in. intros j Hj. apply Hab; assumption.
Qed.

Section Selection.
Context {svc rng : Type} `{Sklearn svc rng} `{Utils}.

Lemma kernel_inner_search_pointwise
    (self1 self2 : LinearSVMAlgorithmWithPrecomputedKernel.t)
    (train_index : index) :
  LinearSVMAlgorithmWithPrecomputedKernel._balanced self1
  = LinearSVMAlgorithmWithPrecomputedKernel._balanced self2 ->
  LinearSVMAlgorithmWithPrecomputedKernel._grid_search_folds self1
  = LinearSVMAlgorithmWithPrecomputedKernel._grid_search_folds self2 ->
  LinearSVMAlgorithmWithPrecomputedKernel._c_range self1
  = LinearSVMAlgorithmWithPrecomputedKernel._c_range self2 ->
  LinearSVMAlgorithmWithPrecomputedKernel._n_threads self1
  = LinearSVMAlgorithmWithPrecomputedKernel._n_threads self2 ->
  (forall i j, In i train_index -> In j train_index ->
     entry (LinearSVMAlgorithmWithPrecomputedKernel._kernel self1) i j
     = entry (LinearSVMAlgorithmWithPrecomputedKernel._kernel self2) i j) ->
  (forall i, In i train_index ->
     nth_error (LinearSVMAlgorithmWithPrecomputedKernel._y self1) i
     = nth_error (LinearSVMAlgorithmWithPrecomputedKernel._y self2) i) ->
  LinearSVMAlgorithmWithPrecomputedKernel.inner_search self1 train_index
  = LinearSVMAlgorithmWithPrecomputedKernel.inner_search self2 train_index.
Proof.
  destruct self1 as [K1 y1 b1 n1 cs1 t1], self2 as [K2 y2 b2 n2 cs2 t2].
  cbn. intros -> -> -> -> HK Hy.
  unfold LinearSVMAlgorithmWithPrecomputedKernel.inner_search.
  cbn [LinearSVMAlgorithmWithPrecomputedKernel._kernel
       LinearSVMAlgorithmWithPrecomputedKernel._y
       LinearSVMAlgorithmWithPrecomputedKernel._grid_search_folds
       LinearSVMAlgorithmWithPrecomputedKernel._c_range
       LinearSVMAlgorithmWithPrecomputedKernel._n_threads].
  rewrite (take_rows_cols_pointwise K1 K2 train_index HK).
  rewrite (take_pointwise y1 y2 train_index Hy).
  reflexivity.
Qed.

Lemma kernel_evaluate_best_parameter
    (self : LinearSVMAlgorithmWithPrecomputedKernel.t)
    (train_index test_index : index) (g g' : rng) (r : FoldResult.t) :
  LinearSVMAlgorithmWithPrecomputedKernel.evaluate self train_index test_index g
  = (Ok r, g') ->
  exists outer g0,
    LinearSVMAlgorithmWithPrecomputedKernel.inner_search self train_index g
    = (Ok (outer, FoldResult.best_parameter r), g0).
Proof.
  intros He. unfold LinearSVMAlgorithmWithPrecomputedKernel.evaluate in He.
  apply bind_Ok_inv in He as ([outer bp] & g0 & Hsearch & He).
  exists outer, g0. rewrite Hsearch. do 2 f_equal. f_equal.
  apply bind_Ok_inv in He as (x_test & g1 & _ & He).
  apply bind_Ok_inv in He as (y_train & g2 & _ & He).
  apply bind_Ok_inv in He as (y_test & g3 & _ & He).
  apply bind_Ok_inv in He as ([[[fitted y_hat] auc] y_hat_train] & g4 & _ & He).
  apply bind_Ok_inv in He as (ev & g5 & _ & He).
  apply bind_Ok_inv in He as (ev_train & g6 & _ & He).
  unfold ret in He. injection He as <- _. reflexivity.
Qed.

Lemma features_inner_search_pointwise
    (self1 self2 : LinearSVMAlgorithmWithoutPrecomputedKernel.t)
    (train_index : index) :
  LinearSVMAlgorithmWithoutPrecomputedKernel._balanced self1
  = LinearSVMAlgorithmWithoutPrecomputedKernel._balanced self2 ->
  LinearSVMAlgorithmWithoutPrecomputedKernel._grid_search_folds self1
  = LinearSVMAlgorithmWithoutPrecomputedKernel._grid_search_folds self2 ->
  LinearSVMAlgorithmWithoutPrecomputedKernel._c_range self1
  = LinearSVMAlgorithmWithoutPrecomputedKernel._c_range self2 ->
  LinearSVMAlgorithmWithoutPrecomputedKernel._n_threads self1
  = LinearSVMAlgorithmWithoutPrecomputedKernel._n_threads self2 ->
  (forall i, In i train_index ->
     nth_error (LinearSVMAlgorithmWithoutPrecomputedKernel._x self1) i
     = nth_error (LinearSVMAlgorithmWithoutPrecomputedKernel._x self2) i) ->
  (forall i, In i train_index ->
     nth_error (LinearSVMAlgorithmWithoutPrecomputedKernel._y self1) i
     = nth_error (LinearSVMAlgorithmWithoutPrecomputedKernel._y self2) i) ->
  LinearSVMAlgorithmWithoutPrecomputedKernel.inner_search self1 train_index
  = LinearSVMAlgorithmWithoutPrecomputedKernel.inner_search self2 train_index.
Proof.
  destruct self1 as [x1 y1 b1 n1 cs1 t1], self2 as [x2 y2 b2 n2 cs2 t2].
  cbn. intros -> -> -> -> Hx Hy.
  unfold LinearSVMAlgorithmWithoutPrecomputedKernel.inner_search.
  cbn [LinearSVMAlgorithmWithoutPrecomputedKernel._x
       LinearSVMAlgorithmWithoutPrecomputedKernel._y
       LinearSVMAlgorithmWithoutPrecomputedKernel._grid_search_folds
       LinearSVMAlgorithmWithoutPrecomputedKernel._c_range
       LinearSVMAlgorithmWithoutPrecomputedKernel._n_threads].
  rewrite (take_pointwise x1 x2 train_index Hx).
  rewrite (take_pointwise y1 y2 train_index Hy).
  reflexivity.
Qed.

Lemma features_evaluate_best_parameter
    (self : LinearSVMAlgorithmWithoutPrecomputedKernel.t)
    (train_index test_index : index) (g g' : rng) (r : FoldResult.t) :
  LinearSVMAlgorithmWithoutPrecomputedKernel.evaluate self train_index test_index g
  = (Ok r, g') ->
  exists outer g0,
    LinearSVMAlgorithmWithoutPrecomputedKernel.inner_search self train_index g
    = (Ok (outer, FoldResult.best_parameter r), g0).
Proof.
  intros He. unfold LinearSVMAlgorithmWithoutPrecomputedKernel.evaluate in He.
  apply bind_Ok_inv in He as ([outer bp] & g0 & Hsearch & He).
  exists outer, g0. rewrite Hsearch. do 2 f_equal. f_equal.
  apply bind_Ok_inv in He as (x_test & g1 & _ & He).
  apply bind_Ok_inv in He as (y_train & g2 & _ & He).
  apply bind_Ok_inv in He as (y_test & g3 & _ & He).
  apply bind_Ok_inv in He as ([[[fitted y_hat] auc] y_hat_train] & g4 & _ & He).
  apply bind_Ok_inv in He as (ev & g5 & _ & He).
  apply bind_Ok_inv in He as (ev_train & g6 & _ & He).
  unfold ret in He. injection He as <- _. reflexivity.
Qed.

End Selection.

(** C3: the hyperparameter selection inside [evaluate] depends only on the
    data at the outer-training indices.  Two algorithm objects whose
    kernel (or feature) entries and labels agree at [train_index] run the
    same inner search from the same random state, whatever their values at
    other positions and whatever the test indices; the [best_parameter]
    records of their [evaluate] results are equal. *)
Theorem evaluate_selection_ignores_test_data :
  forall {svc rng : Type} `{Sklearn svc rng} `{Utils}
         (train_index : index) (g : rng),
    (forall self1 self2 : LinearSVMAlgorithmWithPrecomputedKernel.t,
        kernel_agree_on train_index self1 self2 ->
        LinearSVMAlgorithmWithPrecomputedKernel.inner_search self1 train_index g
        = LinearSVMAlgorithmWithPrecomputedKernel.inner_search self2 train_index g /\
        forall (test_index1 test_index2 : index) (r1 r2 : FoldResult.t) (g1 g2 : rng),
          LinearSVMAlgorithmWithPrecomputedKernel.evaluate
            self1 train_index test_index1 g = (Ok r1, g1) ->
          LinearSVMAlgorithmWithPrecomputedKernel.evaluate
            self2 train_index test_index2 g = (Ok r2, g2) ->
          FoldResult.best_parameter r1 = FoldResult.best_parameter r2) /\
    (forall self1 self2 : LinearSVMAlgorithmWithoutPrecomputedKernel.t,
        features_agree_on train_index self1 self2 ->
        LinearSVMAlgorithmWithoutPrecomputedKernel.inner_search self1 train_index g
        = LinearSVMAlgorithmWithoutPrecomputedKernel.inner_search self2 train_index g /\
        forall (test_index1 test_index2 : index) (r1 r2 : FoldResult.t) (g1 g2 : rng),
          LinearSVMAlgorithmWithoutPrecomputedKernel.evaluate
            self1 train_index test_index1 g = (Ok r1, g1) ->
          LinearSVMAlgorithmWithoutPrecomputedKernel.evaluate
            self2 train_index test_index2 g = (Ok r2, g2) ->
          FoldResult.best_parameter r1 = FoldResult.best_parameter r2).
Proof.
  intros svc rng Hsk Hut train_index g. split.
  - intros self1 self2 (Hb & Hn & Hc & Ht & HK & Hy).
    assert (Hsearch :
              LinearSVMAlgorithmWithPrecomputedKernel.inner_search self1 train_index
              = LinearSVMAlgorithmWithPrecomputedKernel.inner_search self2 train_index)
      by (apply kernel_inner_search_pointwise; assumption).
    split; [now rewrite Hsearch|].
    intros test1 test2 r1 r2 g1 g2 H1 H2.
    apply kernel_evaluate_best_parameter in H1 as (o1 & ga & H1).
    apply kernel_evaluate_best_parameter in H2 as (o2 & gb & H2).
    rewrite Hsearch in H1. congruence.
  - intros self1 self2 (Hb & Hn & Hc & Ht & Hx & Hy).
    assert (Hsearch :
              LinearSVMAlgorithmWithoutPrecomputedKernel.inner_search self1 train_index
              = LinearSVMAlgorithmWithoutPrecomputedKernel.inner_search self2 train_index)
      by (apply features_inner_search_pointwise; assumption).
    split; [now rewrite Hsearch|].
    intros test1 test2 r1 r2 g1 g2 H1 H2.
    apply features_evaluate_best_parameter in H1 as (o1 & ga & H1).
    apply features_evaluate_best_parameter in H2 as (o2 & gb & H2).
    rewrite Hsearch in H1. congruence.
Qed.

Lemma evaluate_selection_ignores_test_data_example :
  LinearSVMAlgorithmWithPrecomputedKernel.inner_search
    Toy.kernel_algorithm [1; 2]%nat 0%nat
  = LinearSVMAlgorithmWithPrecomputedKernel.inner_search
      Toy.other_kernel_algorithm [1; 2]%nat 0%nat.
Proof.
  destruct (evaluate_selection_ignores_test_data
              (H := Toy.sklearn) (H0 := Toy.utils) [1; 2]%nat 0%nat) as [Hk _].
  apply (Hk Toy.kernel_algorithm Toy.other_kernel_algorithm).
  repeat split.
  - intros i j [<-|[<-|[]]] [<-|[<-|[]]]; reflexivity.
  - intros i [<-|[<-|[]]]; reflexivity.
Defined.

(* ================================================================== *)
(** * Further properties of the code *)

(** ** Selection and aggregation on degenerate input *)

Lemma add_NaN_r (x : npfloat) : Np.add x NaN = NaN.
Proof. destruct x; reflexivity. Qed.

Lemma fold_add_NaN (l : list npfloat) : fold_left Np.add l NaN = NaN.
Proof. induction l as [|x l IH]; simpl; [reflexivity | exact IH]. Qed.

Lemma fold_add_In_NaN (l : list npfloat) (a : npfloat) :
  In NaN l -> fold_left Np.add l a = NaN.
Proof.
  revert a. induction l as [|x l IH]; intros a Hin; [destruct Hin|].
  destruct Hin as [Hx | Hin]; simpl.
  - subst x. rewrite add_NaN_r. apply fold_add_NaN.
  - apply IH. exact Hin.
Qed.

(** A NaN among the values makes their mean NaN. *)
Lemma mean_In_NaN (l : list npfloat) : In NaN l -> Np.mean l = NaN.
Proof.
  intros Hin. unfold Np.mean, Np.sum. rewrite fold_add_In_NaN by exact Hin.
  reflexivity.
Qed.

Lemma log10_minus_one : Np.log10 (Fin (-1)) = NaN.
Proof.
  unfold Np.log10. rewrite Rltb_nlt by lra. rewrite Reqb_neq by lra. reflexivity.
Qed.

(** X1: [_select_best_parameter] raises nothing on a mapping without
    candidates.  With no fold at all both fields are NaN; as soon as one
    fold has no candidate its winner stays at the initial [-1], whose
    [log10] is NaN, and the selected C is NaN. *)
Theorem select_best_parameter_without_candidates :
  _select_best_parameter [] = BestParameter.mk NaN NaN /\
  (forall async_result : list (list (R * npfloat)),
      In [] async_result ->
      BestParameter.c (_select_best_parameter async_result) = NaN).
Proof.
  split.
  - rewrite select_best_parameter_unfold. cbn [map]. rewrite mean_nil. reflexivity.
  - intros async_result Hin. rewrite select_best_parameter_unfold.
    cbn [BestParameter.c]. rewrite mean_In_NaN; [reflexivity|].
    rewrite <- log10_minus_one.
    apply in_map. change (Fin (-1)) with (fst (fold_winner [])).
    apply (in_map (fun f => fst (fold_winner f))). exact Hin.
Qed.

Lemma select_best_parameter_without_candidates_example :
  BestParameter.c (_select_best_parameter [[(1, Fin (1 / 2))]; []]) = NaN.
Proof.
  apply select_best_parameter_without_candidates. right. left. reflexivity.
Defined.

(** X2: [apply_best_parameters] on an empty list of fold results raises
    nothing of its own: the mean of no value is NaN, the estimator
    [SVC(C=nan, kernel='precomputed', probability=True, tol=1e-6)] (resp.
    [kernel='linear']; with [class_weight='balanced'] when balanced) is
    fitted once on the whole kernel (feature) matrix and labels, and the
    parameters returned with its classifier are NaN. *)
Theorem apply_best_parameters_no_results :
  forall {svc rng : Type} `{Sklearn svc rng} (g : rng),
    (forall self : LinearSVMAlgorithmWithPrecomputedKernel.t,
        LinearSVMAlgorithmWithPrecomputedKernel.apply_best_parameters self [] g
        = fit_and_return
            (SVC_fit (SVC.mk NaN precomputed true (1 / 1000000)
                        (if LinearSVMAlgorithmWithPrecomputedKernel._balanced self
                         then Some "balanced"%string else None))
                     (LinearSVMAlgorithmWithPrecomputedKernel._kernel self)
                     (LinearSVMAlgorithmWithPrecomputedKernel._y self))
            (BestParameter.mk NaN NaN) g) /\
    (forall self : LinearSVMAlgorithmWithoutPrecomputedKernel.t,
        LinearSVMAlgorithmWithoutPrecomputedKernel.apply_best_parameters self [] g
        = fit_and_return
            (SVC_fit (SVC.mk NaN linear true (1 / 1000000)
                        (if LinearSVMAlgorithmWithoutPrecomputedKernel._balanced self
                         then Some "balanced"%string else None))
                     (LinearSVMAlgorithmWithoutPrecomputedKernel._x self)
                     (LinearSVMAlgorithmWithoutPrecomputedKernel._y self))
            (BestParameter.mk NaN NaN) g).
Proof.
  intros svc rng Hsk g. split; intros self.
  - rewrite apply_best_parameters_kernel. cbn [map]. cbv zeta.
    rewrite mean_nil.
    unfold LinearSVMAlgorithmWithPrecomputedKernel.new_svc, tol_1e_6.
    destruct (LinearSVMAlgorithmWithPrecomputedKernel._balanced self);
      reflexivity.
  - rewrite apply_best_parameters_features. cbn [map]. cbv zeta.
    rewrite mean_nil.
    unfold LinearSVMAlgorithmWithoutPrecomputedKernel.new_svc, tol_1e_6.
    destruct (LinearSVMAlgorithmWithoutPrecomputedKernel._balanced self);
      reflexivity.
Qed.

(** ** What [evaluate] records, and its index errors *)

Lemma bind_lift_Ok {S A B} (a : A) (k : A -> M S B) (s : S) :
  bind (lift (Ok a)) k s = k a s.
Proof. reflexivity. Qed.

Lemma bind_lift_Raise {S A B} (e : exn) (k : A -> M S B) (s : S) :
  bind (lift (Raise e)) k s = (Raise e, s).
Proof. reflexivity. Qed.

Lemma lift_Ok_inv {S A} (r : result A) (s s' : S) (a : A) :
  lift r s = (Ok a, s') -> r = Ok a /\ s' = s.
Proof. unfold lift. intros [= -> ->]. split; reflexivity. Qed.

Lemma take_length {A} (a : list A) (idx : index) (l : list A) :
  take a idx = Ok l -> length l = length idx.
Proof.
  revert l. induction idx as [|i idx IH]; intros l; cbn [take].
  - intros [= <-]. reflexivity.
  - destruct (nth_error a i) as [x|]; [|discriminate].
    destruct (take a idx) as [l'|e]; [|discriminate]. cbn [rbind].
    intros [= <-]. simpl. f_equal. apply IH. reflexivity.
Qed.

Lemma take_in_range {A} (a : list A) (idx : index) (l : list A) :
  take a idx = Ok l -> Forall (fun i => (i < length a)%nat) idx.
Proof.
  revert l. induction idx as [|i idx IH]; intros l; cbn [take].
  - constructor.
  - destruct (nth_error a i) as [x|] eqn:Hi; [|discriminate].
    destruct (take a idx) as [l'|e]; [|discriminate]. intros _.
    constructor; [|eapply IH; reflexivity].
    apply nth_error_Some. congruence.
Qed.

Lemma take_out_of_range {A} (a : list A) (idx : index) (i : nat) :
  In i idx -> (length a <= i)%nat -> take a idx = Raise IndexError.
Proof.
  intros Hin Hi. rewrite take_all_some.
  destruct (all_some (map (nth_error a) idx)) as [l|] eqn:Hl; [|reflexivity].
  exfalso. revert l Hl.
  induction idx as [|j idx IH]; intros l; [destruct Hin|].
  cbn [map all_some]. destruct Hin as [-> | Hin].
  - rewrite (proj2 (nth_error_None a i) Hi). discriminate.
  - destruct (nth_error a j); [|discriminate].
    destruct (all_some (map (nth_error a) idx)) as [l'|]; [|discriminate].
    intros _. eapply IH; [exact Hin | reflexivity].
Qed.

Lemma take_rows_cols_out_of_range (a : matrix) (idx : index) (i : nat) :
  In i idx -> (length a <= i)%nat -> take_rows_cols a idx idx = Raise IndexError.
Proof.
  intros Hin Hi. unfold take_rows_cols.
  rewrite (take_out_of_range a idx i Hin Hi). reflexivity.
Qed.

Section Evaluate.
Context {svc rng : Type} `{Sklearn svc rng} `{Utils}.

(** X5: a fold result produced by [evaluate] records the split it was
    given and the true labels at its positions: [x_index] and [y_index]
    are the training and test indices, [y_train] and [y] are the labels
    at these indices, one per index. *)
Theorem evaluate_records_split :
  (forall (self : LinearSVMAlgorithmWithPrecomputedKernel.t)
          (train_index test_index : index) (g g' : rng) (r : FoldResult.t),
      LinearSVMAlgorithmWithPrecomputedKernel.evaluate self train_index test_index g
      = (Ok r, g') ->
      FoldResult.x_index r = train_index /\
      FoldResult.y_index r = test_index /\
      take (LinearSVMAlgorithmWithPrecomputedKernel._y self) train_index
      = Ok (FoldResult.y_train r) /\
      take (LinearSVMAlgorithmWithPrecomputedKernel._y self) test_index
      = Ok (FoldResult.y r) /\
      length (FoldResult.y_train r) = length train_index /\
      length (FoldResult.y r) = length test_index) /\
  (forall (self : LinearSVMAlgorithmWithoutPrecomputedKernel.t)
          (train_index test_index : index) (g g' : rng) (r : FoldResult.t),
      LinearSVMAlgorithmWithoutPrecomputedKernel.evaluate self train_index test_index g
      = (Ok r, g') ->
      FoldResult.x_index r = train_index /\
      FoldResult.y_index r = test_index /\
      take (LinearSVMAlgorithmWithoutPrecomputedKernel._y self) train_index
      = Ok (FoldResult.y_train r) /\
      take (LinearSVMAlgorithmWithoutPrecomputedKernel._y self) test_index
      = Ok (FoldResult.y r) /\
      length (FoldResult.y_train r) = length train_index /\
      length (FoldResult.y r) = length test_index).
Proof.
  split; intros self train_index test_index g g' r He.
  - unfold LinearSVMAlgorithmWithPrecomputedKernel.evaluate in He.
    apply bind_Ok_inv in He as ([outer bp] & g0 & _ & He).
    apply bind_Ok_inv in He as (x_test & g1 & _ & He).
    apply bind_Ok_inv in He as (y_train & g2 & Hytr & He).
    apply lift_Ok_inv in Hytr as [Hytr _].
    apply bind_Ok_inv in He as (y_test & g3 & Hyte & He).
    apply lift_Ok_inv in Hyte as [Hyte _].
    apply bind_Ok_inv in He as ([[[fitted y_hat] auc] y_hat_train] & g4 & _ & He).
    apply bind_Ok_inv in He as (ev & g5 & _ & He).
    apply bind_Ok_inv in He as (ev_train & g6 & _ & He).
    unfold ret in He. injection He as <- _. cbn.
    repeat split; try assumption; eapply take_length; eassumption.
  - unfold LinearSVMAlgorithmWithoutPrecomputedKernel.evaluate in He.
    apply bind_Ok_inv in He as ([outer bp] & g0 & _ & He).
    apply bind_Ok_inv in He as (x_test & g1 & _ & He).
    apply bind_Ok_inv in He as (y_train & g2 & Hytr & He).
    apply lift_Ok_inv in Hytr as [Hytr _].
    apply bind_Ok_inv in He as (y_test & g3 & Hyte & He).
    apply lift_Ok_inv in Hyte as [Hyte _].
    apply bind_Ok_inv in He as ([[[fitted y_hat] auc] y_hat_train] & g4 & _ & He).
    apply bind_Ok_inv in He as (ev & g5 & _ & He).
    apply bind_Ok_inv in He as (ev_train & g6 & _ & He).
    unfold ret in He. injection He as <- _. cbn.
    repeat split; try assumption; eapply take_length; eassumption.
Qed.

(** X6: a training index beyond the kernel (feature) matrix or the label
    vector makes [evaluate] raise [IndexError] while it slices the outer
    training data: no inner fold is drawn and no classifier is fitted, the
    random state is untouched. *)
Theorem evaluate_training_index_out_of_range :
  forall (train_index test_index : index) (g : rng) (i : nat),
    In i train_index ->
    (forall self : LinearSVMAlgorithmWithPrecomputedKernel.t,
        (1 <= LinearSVMAlgorithmWithPrecomputedKernel._n_threads self)%nat ->
        (length (LinearSVMAlgorithmWithPrecomputedKernel._kernel self) <= i
         \/ length (LinearSVMAlgorithmWithPrecomputedKernel._y self) <= i)%nat ->
        LinearSVMAlgorithmWithPrecomputedKernel.evaluate self train_index test_index g
        = (Raise IndexError, g)) /\
    (forall self : LinearSVMAlgorithmWithoutPrecomputedKernel.t,
        (1 <= LinearSVMAlgorithmWithoutPrecomputedKernel._n_threads self)%nat ->
        (length (LinearSVMAlgorithmWithoutPrecomputedKernel._x self) <= i
         \/ length (LinearSVMAlgorithmWithoutPrecomputedKernel._y self) <= i)%nat ->
        LinearSVMAlgorithmWithoutPrecomputedKernel.evaluate self train_index test_index g
        = (Raise IndexError, g)).
Proof.
  intros train_index test_index g i Hin. split; intros self Ht Hrange.
  - unfold LinearSVMAlgorithmWithPrecomputedKernel.evaluate,
      LinearSVMAlgorithmWithPrecomputedKernel.inner_search.
    destruct (LinearSVMAlgorithmWithPrecomputedKernel._n_threads self) as [|n];
      [lia|].
    cbn [ThreadPool]. unfold bind, lift.
    destruct (take_rows_cols (LinearSVMAlgorithmWithPrecomputedKernel._kernel self)
                train_index train_index) as [outer|e] eqn:Hout.
    + destruct Hrange as [HK | Hy].
      * rewrite (take_rows_cols_out_of_range _ train_index i Hin HK) in Hout.
        discriminate.
      * rewrite (take_out_of_range _ train_index i Hin Hy). reflexivity.
    + rewrite take_rows_cols_entries in Hout.
      destruct (entries _ _ _); [discriminate|]. injection Hout as <-. reflexivity.
  - unfold LinearSVMAlgorithmWithoutPrecomputedKernel.evaluate,
      LinearSVMAlgorithmWithoutPrecomputedKernel.inner_search.
    destruct (LinearSVMAlgorithmWithoutPrecomputedKernel._n_threads self) as [|n];
      [lia|].
    cbn [ThreadPool]. unfold bind, lift.
    destruct (take (LinearSVMAlgorithmWithoutPrecomputedKernel._x self) train_index)
      as [outer|e] eqn:Hout.
    + destruct Hrange as [Hx | Hy].
      * rewrite (take_out_of_range _ train_index i Hin Hx) in Hout. discriminate.
      * rewrite (take_out_of_range _ train_index i Hin Hy). reflexivity.
    + rewrite take_all_some in Hout.
      destruct (all_some _); [discriminate|]. injection Hout as <-. reflexivity.
Qed.

End Evaluate.

Lemma evaluate_records_split_example :
  exists r g',
    LinearSVMAlgorithmWithPrecomputedKernel.evaluate Toy.kernel_algorithm
      [1; 2]%nat [0%nat] 0%nat = (Ok r, g') /\
    FoldResult.x_index r = [1; 2]%nat /\
    FoldResult.y_index r = [0%nat] /\
    FoldResult.y_train r = [1%Z; 0%Z] /\
    FoldResult.y r = [0%Z].
Proof.
  eexists _, _.
  match goal with
  | |- ?A /\ _ => assert (Hrun : A) by run_toy
  end.
  split; [exact Hrun|].
  destruct (evaluate_records_split (H := Toy.sklearn) (H0 := Toy.utils)) as [Hk _].
  destruct (Hk _ _ _ _ _ _ Hrun) as (Hx & Hy & Htr & Hte & _ & _).
  split; [exact Hx|]. split; [exact Hy|].
  split; [exact (f_equal (fun o => match o with Ok l => l | Raise _ => [] end)
                   (eq_sym Htr))
         | exact (f_equal (fun o => match o with Ok l => l | Raise _ => [] end)
                    (eq_sym Hte))].
Defined.

Lemma evaluate_training_index_out_of_range_example :
  LinearSVMAlgorithmWithPrecomputedKernel.evaluate Toy.kernel_algorithm
    [1; 5]%nat [0%nat] 0%nat = (Raise IndexError, 0%nat).
Proof.
  destruct (evaluate_training_index_out_of_range
              (H := Toy.sklearn) (H0 := Toy.utils)
              [1; 5]%nat [0%nat] 0%nat 5%nat) as [Hk _].
  - right. left. reflexivity.
  - apply Hk; simpl; lia.
Defined.

(** ** Failing validation runs *)

Lemma bind_Raise_inv {S A B} (m : M S A) (k : A -> M S B) (s s' : S) (e : exn) :
  bind m k s = (Raise e, s') ->
  m s = (Raise e, s') \/
  exists a s1, m s = (Ok a, s1) /\ k a s1 = (Raise e, s').
Proof.
  unfold bind. destruct (m s) as [[a|e0] s1].
  - intros Hk. right. exists a, s1. split; [reflexivity | exact Hk].
  - intros [= -> ->]. left. reflexivity.
Qed.

Section FailingRuns.
Context {alg svc rng : Type} `{ClassificationAlgorithm alg svc rng}
        `{Sklearn svc rng}.

(** With fewer splits than folds the evaluation loop fails: on an
    [evaluate] call or, at the latest, on the lookup of the missing split. *)
Lemma kfold_evaluate_folds_short (self : KFoldCV.t alg svc)
    (cv : list (index * index)) (m k : nat) (g : rng) :
  KFoldCV._cv self = Some cv ->
  (k <= length cv < k + m)%nat ->
  exists e g',
    for_each (seq k m)
      (fun i =>
         self <- on_fst get ;;
         '(train_index, test_index) <-
           lift (match KFoldCV._cv self with
                 | None => Raise TypeError
                 | Some cv => match nth_error cv i with
                              | Some p => Ok p
                              | None => Raise IndexError
                              end
                 end) ;;
         on_snd (evaluate (KFoldCV._ml_algorithm self) train_index test_index))%monad
      (self, g)
    = (Raise e, (self, g')).
Proof.
  intros Hcv. revert k g. induction m as [|m IH]; intros k g Hk; [lia|].
  cbn [seq for_each]. unfold bind at 1. unfold bind at 1, on_fst at 1, get at 1.
  cbn [fst snd]. rewrite Hcv. unfold bind at 1, lift at 1.
  destruct (nth_error cv k) as [[train_index test_index]|] eqn:Hnth.
  - unfold on_snd at 1. cbn [fst snd].
    destruct (evaluate _ _ _ _) as [[r|e] g1].
    + assert (Hlt : (k < length cv)%nat) by (apply nth_error_Some; congruence).
      destruct (IH (S k) g1) as (e & g' & He); [lia|].
      unfold bind at 1. rewrite He. exists e, g'. reflexivity.
    + exists e, g1. reflexivity.
  - exists IndexError, g. reflexivity.
Qed.

Lemma holdout_evaluate_splits_short (self : RepeatedHoldOut.t alg svc)
    (cv : list (index * index)) (inner_cv : bool) (m k : nat) (g : rng) :
  _cv self = Some cv ->
  (k <= length cv < k + m)%nat ->
  exists e g',
    for_each (seq k m)
      (fun i =>
         self <- on_fst get ;;
         '(train_index, test_index) <-
           lift (match _cv self with
                 | None => Raise TypeError
                 | Some cv => match nth_error cv i with
                              | Some p => Ok p
                              | None => Raise IndexError
                              end
                 end) ;;
         if inner_cv
         then on_snd (evaluate (_ml_algorithm self) train_index test_index)
         else raise (Exception "We always do nested CV"))%monad
      (self, g)
    = (Raise e, (self, g')).
Proof.
  intros Hcv. revert k g. induction m as [|m IH]; intros k g Hk; [lia|].
  cbn [seq for_each]. unfold bind at 1. unfold bind at 1, on_fst at 1, get at 1.
  cbn [fst snd]. rewrite Hcv. unfold bind at 1, lift at 1.
  destruct (nth_error cv k) as [[train_index test_index]|] eqn:Hnth.
  - destruct inner_cv; [|eexists _, g; reflexivity].
    unfold on_snd at 1. cbn [fst snd].
    destruct (evaluate _ _ _ _) as [[r|e] g1].
    + assert (Hlt : (k < length cv)%nat) by (apply nth_error_Some; congruence).
      destruct (IH (S k) g1) as (e & g' & He); [lia|].
      unfold bind at 1. rewrite He. exists e, g'. reflexivity.
    + exists e, g1. reflexivity.
  - exists IndexError, g. reflexivity.
Qed.

End FailingRuns.

(** X7: [validate] cannot complete with fewer supplied splits than folds
    (iterations) to run: it raises, at the latest [IndexError] on the
    missing split, and the results evaluated so far are dropped; the
    stored results, classifier and parameters are left as they were. *)
Theorem validate_too_few_splits :
  forall {alg svc rng : Type} `{ClassificationAlgorithm alg svc rng}
         `{Sklearn svc rng} (splits : list (index * index))
         (g : rng) (y : labels) (n_threads : nat),
    (forall (self : KFoldCV.t alg svc) (n_folds : nat),
        (length splits < n_folds)%nat ->
        exists e st',
          KFoldCV.validate y n_folds n_threads (Some splits) (self, g)
          = (Raise e, st') /\
          KFoldCV._fold_results (fst st') = KFoldCV._fold_results self /\
          KFoldCV._classifier (fst st') = KFoldCV._classifier self /\
          KFoldCV._best_params (fst st') = KFoldCV._best_params self) /\
    (forall (self : RepeatedHoldOut.t alg svc) (inner_cv : bool),
        (length splits < _n_iterations self)%nat ->
        exists e st',
          RepeatedHoldOut.validate y n_threads (Some splits) inner_cv (self, g)
          = (Raise e, st') /\
          _split_results (fst st') = _split_results self /\
          _classifier (fst st') = _classifier self /\
          _best_params (fst st') = _best_params self).
Proof.
  intros alg svc rng Halg Hsk splits g y n_threads. split.
  - intros self n_folds Hlen. unfold KFoldCV.validate.
    unfold bind at 1, ret at 1.
    unfold bind at 1, on_fst at 1, modify at 1. cbn [fst snd].
    unfold bind at 1, lift at 1.
    destruct n_threads as [|n_threads]; cbn [ThreadPool].
    + eexists _, _. split; [reflexivity|]. repeat split.
    + unfold KFoldCV.evaluate_folds.
      destruct (kfold_evaluate_folds_short (KFoldCV.set_cv splits self) splits
                  n_folds 0 g eq_refl) as (e & g' & He); [lia|].
      unfold bind at 1. rewrite He.
      eexists _, _. split; [reflexivity|]. repeat split.
  - intros self inner_cv Hlen. unfold RepeatedHoldOut.validate.
    unfold bind at 1, on_fst at 1, get at 1. cbn [fst snd].
    unfold bind at 1, ret at 1.
    unfold bind at 1, on_fst at 1, modify at 1. cbn [fst snd].
    unfold bind at 1, lift at 1.
    destruct n_threads as [|n_threads]; cbn [ThreadPool].
    + eexists _, _. split; [reflexivity|]. repeat split.
    + unfold evaluate_splits.
      destruct (holdout_evaluate_splits_short (set_cv splits self) splits inner_cv
                  (_n_iterations self) 0 g eq_refl) as (e & g' & He); [lia|].
      unfold bind at 1. rewrite He.
      eexists _, _. split; [reflexivity|]. repeat split.
Qed.

Lemma validate_too_few_splits_example :
  exists e st',
    KFoldCV.validate [0%Z; 1%Z; 0%Z] 2 1 (Some Toy.outer_split)
      (KFoldCV.__init__ Toy.kernel_algorithm, 0%nat) = (Raise e, st') /\
    KFoldCV._fold_results (fst st') = Some [] /\
    KFoldCV._classifier (fst st') = None /\
    KFoldCV._best_params (fst st') = None.
Proof.
  destruct (validate_too_few_splits (H := PrecomputedKernel_algorithm)
              (H0 := Toy.sklearn) Toy.outer_split 0%nat [0%Z; 1%Z; 0%Z] 1)
    as [Hk _].
  apply (Hk (KFoldCV.__init__ Toy.kernel_algorithm) 2%nat). simpl. lia.
Defined.

Section AtomicRuns.
Context {alg svc rng : Type} `{ClassificationAlgorithm alg svc rng}
        `{Sklearn svc rng}.

Lemma kfold_validate_failure (self self' : KFoldCV.t alg svc) (g g' : rng)
    (y : labels) (n_folds n_threads : nat)
    (splits_indices : option (list (index * index)))
    (prev : list FoldResult.t) (e : exn) :
  KFoldCV._fold_results self = Some prev ->
  KFoldCV.validate y n_folds n_threads splits_indices (self, g)
  = (Raise e, (self', g')) ->
  KFoldCV._classifier self' = KFoldCV._classifier self /\
  KFoldCV._best_params self' = KFoldCV._best_params self /\
  KFoldCV._ml_algorithm self' = KFoldCV._ml_algorithm self /\
  (KFoldCV._fold_results self' = Some prev \/
   exists run, length run = n_folds /\
               KFoldCV._fold_results self' = Some (prev ++ run)).
Proof.
  intros Hprev Hval. unfold KFoldCV.validate in Hval.
  apply bind_Raise_inv in Hval as [Hcv | (cv & [s0 g0] & Hcv & Hval)].
  { destruct splits_indices as [splits|]; [discriminate|].
    unfold on_snd in Hcv. cbn [fst snd] in Hcv.
    destruct (StratifiedKFold_split _ _ _ _ _) as [r g1].
    injection Hcv as _ <- _. repeat split. left. exact Hprev. }
  assert (Hs0 : s0 = self).
  { destruct splits_indices as [splits|].
    - unfold ret in Hcv. congruence.
    - unfold on_snd in Hcv. cbn [fst snd] in Hcv.
      destruct (StratifiedKFold_split _ _ _ _ _) as [r g1]. congruence. }
  subst s0.
  apply bind_Raise_inv in Hval as [Hset | ([] & st1 & Hset & Hval)];
    [discriminate|].
  unfold on_fst, modify in Hset. cbn [fst snd] in Hset. injection Hset as <-.
  apply bind_Raise_inv in Hval as [Hpool | ([] & st1' & Hpool & Hval)].
  { unfold lift in Hpool. injection Hpool as _ <- _. repeat split. left. exact Hprev. }
  unfold lift in Hpool. injection Hpool as _ <-.
  apply bind_Raise_inv in Hval as [Hrun | (run & [s2 g1] & Hrun & Hval)].
  { pose proof (kfold_evaluate_folds_self (KFoldCV.set_cv cv self) g0 n_folds) as Hself.
    rewrite Hrun in Hself. cbn [fst snd] in Hself. subst self'.
    repeat split. left. exact Hprev. }
  pose proof (kfold_evaluate_folds_self (KFoldCV.set_cv cv self) g0 n_folds) as Hself.
  rewrite Hrun in Hself. cbn [fst snd] in Hself. subst s2.
  assert (Hlen : length run = n_folds).
  { apply for_each_length in Hrun. rewrite length_seq in Hrun. exact Hrun. }
  apply bind_Raise_inv in Hval as [Happ | (units & st3 & Happ & Hval)];
    rewrite (kfold_append_loop run _ _ prev) in Happ by exact Hprev;
    [discriminate|].
  injection Happ as _ <-.
  apply bind_Raise_inv in Hval as [Hget | (s4 & st4 & Hget & Hval)];
    [discriminate|].
  unfold on_fst, get in Hget. cbn [fst snd] in Hget. injection Hget as <- <-.
  apply bind_Raise_inv in Hval as [Hstored | (stored & st5 & Hstored & Hval)];
    [discriminate|].
  unfold on_fst, KFoldCV.fold_results, bind, get, ret in Hstored.
  cbn [fst snd KFoldCV.set_fold_results KFoldCV._fold_results] in Hstored.
  injection Hstored as <- <-.
  apply bind_Raise_inv in Hval as [Hbest | ([clf bp] & st6 & Hbest & Hval)].
  { unfold on_snd in Hbest. cbn [fst snd] in Hbest.
    destruct (apply_best_parameters _ _ _) as [r g7].
    injection Hbest as _ <- _. repeat split. right. exists run. split;
      [exact Hlen | reflexivity]. }
  apply bind_Raise_inv in Hval as [Hmod | ([] & st7 & Hmod & Hval)];
    discriminate.
Qed.

Lemma holdout_validate_failure (self self' : RepeatedHoldOut.t alg svc) (g g' : rng)
    (y : labels) (n_threads : nat)
    (splits_indices : option (list (index * index))) (inner_cv : bool)
    (prev : list FoldResult.t) (e : exn) :
  _split_results self = Some prev ->
  RepeatedHoldOut.validate y n_threads splits_indices inner_cv (self, g)
  = (Raise e, (self', g')) ->
  _classifier self' = _classifier self /\
  _best_params self' = _best_params self /\
  _ml_algorithm self' = _ml_algorithm self /\
  (_split_results self' = Some prev \/
   exists run, length run = _n_iterations self /\
               _split_results self' = Some (prev ++ run)).
Proof.
  intros Hprev Hval. unfold RepeatedHoldOut.validate in Hval.
  apply bind_Raise_inv in Hval as [Hget | (s & st & Hget & Hval)];
    [discriminate|].
  unfold on_fst, get in Hget. cbn [fst snd] in Hget. injection Hget as <- <-.
  apply bind_Raise_inv in Hval as [Hcv | (cv & [s0 g0] & Hcv & Hval)].
  { destruct splits_indices as [splits|]; [discriminate|].
    unfold on_snd in Hcv. cbn [fst snd] in Hcv.
    destruct (StratifiedShuffleSplit_split _ _ _ _ _) as [r g1].
    injection Hcv as _ <- _. repeat split. left. exact Hprev. }
  assert (Hs0 : s0 = self).
  { destruct splits_indices as [splits|].
    - unfold ret in Hcv. congruence.
    - unfold on_snd in Hcv. cbn [fst snd] in Hcv.
      destruct (StratifiedShuffleSplit_split _ _ _ _ _) as [r g1]. congruence. }
  subst s0.
  apply bind_Raise_inv in Hval as [Hset | ([] & st1 & Hset & Hval)];
    [discriminate|].
  unfold on_fst, modify in Hset. cbn [fst snd] in Hset. injection Hset as <-.
  apply bind_Raise_inv in Hval as [Hpool | ([] & st1' & Hpool & Hval)].
  { unfold lift in Hpool. injection Hpool as _ <- _. repeat split. left. exact Hprev. }
  unfold lift in Hpool. injection Hpool as _ <-.
  apply bind_Raise_inv in Hval as [Hrun | (run & [s2 g1] & Hrun & Hval)].
  { pose proof (holdout_evaluate_splits_self (set_cv cv self) g0
                  (_n_iterations self) inner_cv) as Hself.
    rewrite Hrun in Hself. cbn [fst snd] in Hself. subst self'.
    repeat split. left. exact Hprev. }
  pose proof (holdout_evaluate_splits_self (set_cv cv self) g0
                (_n_iterations self) inner_cv) as Hself.
  rewrite Hrun in Hself. cbn [fst snd] in Hself. subst s2.
  assert (Hlen : length run = _n_iterations self).
  { apply for_each_length in Hrun. rewrite length_seq in Hrun. exact Hrun. }
  apply bind_Raise_inv in Hval as [Happ | (units & st3 & Happ & Hval)];
    rewrite (holdout_append_loop run _ _ prev) in Happ by exact Hprev;
    [discriminate|].
  injection Happ as _ <-.
  apply bind_Raise_inv in Hval as [Hget | (s4 & st4 & Hget & Hval)];
    [discriminate|].
  unfold on_fst, get in Hget. cbn [fst snd] in Hget. injection Hget as <- <-.
  apply bind_Raise_inv in Hval as [Hstored | (stored & st5 & Hstored & Hval)];
    [discriminate|].
  unfold lift, split_results in Hstored.
  cbn [fst snd set_split_results _split_results] in Hstored.
  injection Hstored as <- <-.
  apply bind_Raise_inv in Hval as [Hbest | ([clf bp] & st6 & Hbest & Hval)].
  { unfold on_snd in Hbest. cbn [fst snd] in Hbest.
    destruct (apply_best_parameters _ _ _) as [r g7].
    injection Hbest as _ <- _. repeat split. right. exists run. split;
      [exact Hlen | reflexivity]. }
  apply bind_Raise_inv in Hval as [Hmod | ([] & st7 & Hmod & Hval)];
    discriminate.
Qed.

End AtomicRuns.

(** X8: a [validate] call that raises never updates the stored classifier
    or parameters, and never stores part of a run: the stored results are
    either untouched or (when the final [apply_best_parameters] is what
    failed) extended by the whole run of [n_folds] (resp. [n_iterations])
    results, which then stay on the object. *)
Theorem validate_failure_is_all_or_nothing :
  forall {alg svc rng : Type} `{ClassificationAlgorithm alg svc rng}
         `{Sklearn svc rng} (prev : list FoldResult.t) (g : rng) (y : labels)
         (n_threads : nat) (splits_indices : option (list (index * index)))
         (e : exn),
    (forall (self : KFoldCV.t alg svc) (n_folds : nat) st',
        KFoldCV._fold_results self = Some prev ->
        KFoldCV.validate y n_folds n_threads splits_indices (self, g)
        = (Raise e, st') ->
        KFoldCV._classifier (fst st') = KFoldCV._classifier self /\
        KFoldCV._best_params (fst st') = KFoldCV._best_params self /\
        (KFoldCV._fold_results (fst st') = Some prev \/
         exists run, length run = n_folds /\
                     KFoldCV._fold_results (fst st') = Some (prev ++ run))) /\
    (forall (self : RepeatedHoldOut.t alg svc) (inner_cv : bool) st',
        _split_results self = Some prev ->
        RepeatedHoldOut.validate y n_threads splits_indices inner_cv (self, g)
        = (Raise e, st') ->
        _classifier (fst st') = _classifier self /\
        _best_params (fst st') = _best_params self /\
        (_split_results (fst st') = Some prev \/
         exists run, length run = _n_iterations self /\
                     _split_results (fst st') = Some (prev ++ run))).
Proof.
  intros alg svc rng Halg Hsk prev g y n_threads splits_indices e. split.
  - intros self n_folds [self' g'] Hprev Hval.
    destruct (kfold_validate_failure _ _ _ _ _ _ _ _ _ _ Hprev Hval)
      as (Hc & Hb & _ & Hr).
    cbn [fst]. repeat split; assumption.
  - intros self inner_cv [self' g'] Hprev Hval.
    destruct (holdout_validate_failure _ _ _ _ _ _ _ _ _ _ Hprev Hval)
      as (Hc & Hb & _ & Hr).
    cbn [fst]. repeat split; assumption.
Qed.

Lemma validate_failure_is_all_or_nothing_example :
  exists e st',
    KFoldCV.validate [0%Z; 1%Z; 0%Z] 2 1 (Some Toy.outer_split)
      (KFoldCV.__init__ Toy.kernel_algorithm, 0%nat) = (Raise e, st') /\
    KFoldCV._classifier (fst st') = None /\
    KFoldCV._best_params (fst st') = None /\
    (KFoldCV._fold_results (fst st') = Some [] \/
     exists run, length run = 2%nat /\
                 KFoldCV._fold_results (fst st') = Some ([] ++ run)).
Proof.
  eexists _, _.
  match goal with
  | |- ?A /\ _ => assert (Hrun : A) by run_toy
  end.
  split; [exact Hrun|].
  destruct (validate_failure_is_all_or_nothing (H := PrecomputedKernel_algorithm)
              (H0 := Toy.sklearn) [] 0%nat [0%Z; 1%Z; 0%Z] 1
              (Some Toy.outer_split) IndexError) as [Hk _].
  apply (Hk (KFoldCV.__init__ Toy.kernel_algorithm) 2%nat _ eq_refl Hrun).
Defined.

(** ** Error and range behaviour of the variance code *)

Lemma IZR_of_nat_length_neq_0 {A} (l : list A) :
  l <> [] -> IZR (Z.of_nat (length l)) <> 0.
Proof.
  intros Hne. rewrite <- INR_IZR_INZ. apply INR_length_neq_0. exact Hne.
Qed.

(** X9: given the stored results, [_compute_variance] raises exactly when
    there is no stored result ([1 / num_split]) or [test_size] is 1
    ([test_size / (1 - test_size)]), and then it is [ZeroDivisionError];
    in every other case it returns a pair, whatever the statistics are.  On
    an object without results [compute_error_variance] therefore raises
    [ZeroDivisionError] and leaves the object as it is. *)
Theorem compute_variance_raises_iff :
  forall {alg svc : Type} (self : RepeatedHoldOut.t alg svc)
         (results : list FoldResult.t) (xs : list npfloat),
    _split_results self = Some results ->
    (results = [] \/ _test_size self = 1 ->
     _compute_variance self xs = Raise ZeroDivisionError) /\
    (results <> [] -> _test_size self <> 1 ->
     exists v, _compute_variance self xs = Ok v) /\
    (results = [] ->
     compute_error_variance self = (Raise ZeroDivisionError, self)).
Proof.
  intros alg svc self results xs Hres.
  assert (Hraise : forall xs', results = [] \/ _test_size self = 1 ->
                               _compute_variance self xs' = Raise ZeroDivisionError).
  { intros xs' Hcase. unfold _compute_variance, split_results.
    rewrite Hres. cbn [rbind]. unfold py_truediv.
    destruct results as [|r results].
    - cbn [length Z.of_nat]. rewrite Reqb_refl. reflexivity.
    - destruct Hcase as [Hnil | Hp]; [discriminate|].
      rewrite (Reqb_neq (IZR _)) by (apply IZR_of_nat_length_neq_0; discriminate).
      cbn [rbind]. rewrite Reqb_eq by lra. reflexivity. }
  split; [apply Hraise|]. split.
  - intros Hne Hp. unfold _compute_variance, split_results.
    rewrite Hres. cbn [rbind]. unfold py_truediv.
    rewrite (Reqb_neq (IZR _)) by (apply IZR_of_nat_length_neq_0; exact Hne).
    cbn [rbind]. rewrite Reqb_neq by lra. cbn [rbind].
    eexists. reflexivity.
  - intros ->.
    unfold compute_error_variance, bind, get, lift, split_results.
    rewrite Hres. cbn [per_split].
    rewrite (Hraise [] (or_introl eq_refl)). reflexivity.
Qed.

Lemma compute_variance_raises_iff_example :
  compute_error_variance (Toy.holdout [] (1 / 5))
  = (Raise ZeroDivisionError, Toy.holdout [] (1 / 5)).
Proof.
  apply (compute_variance_raises_iff (Toy.holdout [] (1 / 5)) [] []);
    reflexivity.
Defined.

Lemma mismatches_le_length (ys y_hats : labels) :
  (mismatches ys y_hats <= length ys)%nat.
Proof.
  revert y_hats. induction ys as [|a ys IH]; intros [|b y_hats]; simpl; try lia.
  specialize (IH y_hats). destruct (Z.eqb a b); lia.
Qed.

Lemma mismatches_zero_iff (ys y_hats : labels) :
  length ys = length y_hats ->
  (mismatches ys y_hats = 0%nat <-> ys = y_hats).
Proof.
  revert y_hats. induction ys as [|a ys IH]; intros [|b y_hats] Hlen;
    simpl in *; try discriminate.
  - split; reflexivity.
  - injection Hlen as Hlen. specialize (IH y_hats Hlen).
    destruct (Z.eqb a b) eqn:Hab.
    + apply Z.eqb_eq in Hab. subst b. simpl. split.
      * intros Hm. f_equal. apply IH. exact Hm.
      * intros [= Heq]. apply IH. exact Heq.
    + apply Z.eqb_neq in Hab. split; [discriminate|]. intros [= Heq _]. contradiction.
Qed.

(** X11: on label vectors of one non-zero length the per-iteration error
    is a fraction in [[0, 1]], and it is 0 exactly when every prediction is
    right; on empty label vectors the division raises
    [ZeroDivisionError]. *)
Theorem compute_average_test_error_range :
  _compute_average_test_error [] [] = Raise ZeroDivisionError /\
  (forall ys y_hats : labels,
      length ys = length y_hats -> ys <> [] ->
      exists q,
        _compute_average_test_error ys y_hats = Ok (Fin q) /\
        0 <= q <= 1 /\
        (q = 0 <-> ys = y_hats)).
Proof.
  split.
  - unfold _compute_average_test_error, np_ne, py_truediv.
    cbn. rewrite Reqb_refl. reflexivity.
  - intros ys y_hats Hlen Hne.
    exists (INR (mismatches ys y_hats) / INR (length ys)).
    split; [apply compute_average_test_error_finite; assumption|].
    assert (Hn : 0 < INR (length ys)).
    { destruct ys; [congruence|]. apply lt_0_INR. simpl. lia. }
    assert (Hm : 0 <= INR (mismatches ys y_hats)) by apply pos_INR.
    assert (Hle : INR (mismatches ys y_hats) <= INR (length ys))
      by (apply le_INR, mismatches_le_length).
    split; [split|].
    + apply Rmult_le_pos; [exact Hm|]. left. apply Rinv_0_lt_compat. exact Hn.
    + apply Rmult_le_reg_r with (INR (length ys)); [exact Hn|].
      unfold Rdiv. rewrite Rmult_assoc, Rinv_l by lra. lra.
    + rewrite <- (mismatches_zero_iff ys y_hats Hlen). split.
      * intros Hq. apply INR_eq. simpl.
        apply Rmult_eq_compat_r with (r := INR (length ys)) in Hq.
        unfold Rdiv in Hq. rewrite Rmult_assoc, Rinv_l in Hq by lra. lra.
      * intros ->. simpl. unfold Rdiv. lra.
Qed.

Lemma compute_average_test_error_range_example :
  exists q,
    _compute_average_test_error [0%Z; 1%Z] [0%Z; 0%Z] = Ok (Fin q) /\
    0 <= q <= 1 /\
    (q = 0 <-> [0%Z; 1%Z] = [0%Z; 0%Z]).
Proof.
  apply compute_average_test_error_range; [reflexivity | discriminate].
Defined.

(** ** What [save_results] leaves alone *)

Section Keeps.
Context {S : Type} (R : S -> S -> Prop).
Hypothesis R_refl : forall s, R s s.
Hypothesis R_trans : forall s1 s2 s3, R s1 s2 -> R s2 s3 -> R s1 s3.

Lemma keeps_ret {A} (a : A) : keeps R (ret a).
Proof. intros s. apply R_refl. Qed.

Lemma keeps_raise {A} (e : exn) : keeps R (@raise S A e).
Proof. intros s. apply R_refl. Qed.

Lemma keeps_lift {A} (r : result A) : keeps R (lift r).
Proof. intros s. apply R_refl. Qed.

Lemma keeps_bind {A B} (m : M S A) (k : A -> M S B) :
  keeps R m -> (forall a, keeps R (k a)) -> keeps R (bind m k).
Proof.
  intros Hm Hk s. unfold bind. specialize (Hm s).
  destruct (m s) as [[a|e] s1]; cbn [snd] in *; [|exact Hm].
  eapply R_trans; [exact Hm | apply Hk].
Qed.

Lemma keeps_for_each {A B} (body : A -> M S B) (l : list A) :
  (forall a, keeps R (body a)) -> keeps R (for_each l body).
Proof.
  intros Hbody. induction l as [|a l IH]; cbn [for_each].
  - apply keeps_ret.
  - apply keeps_bind; [apply Hbody|]. intros b.
    apply keeps_bind; [exact IH|]. intros bs. apply keeps_ret.
Qed.

End Keeps.

Section KFoldSaved.
Context {alg svc : Type}.

Lemma kfold_saved_refl (st : KFoldCV.t alg svc * Fs.t) : kfold_saved st st.
Proof.
  split; [reflexivity|]. split; [|apply incl_refl].
  exists []. now rewrite app_nil_r.
Qed.

Lemma kfold_saved_trans (st1 st2 st3 : KFoldCV.t alg svc * Fs.t) :
  kfold_saved st1 st2 -> kfold_saved st2 st3 -> kfold_saved st1 st3.
Proof.
  intros (Hs1 & (w1 & Hw1) & Hd1) (Hs2 & (w2 & Hw2) & Hd2).
  split; [congruence|]. split.
  - exists (w1 ++ w2). rewrite Hw2, Hw1, app_assoc. reflexivity.
  - eapply incl_tran; eassumption.
Qed.

Lemma kfold_saved_get : keeps kfold_saved (@on_fst (KFoldCV.t alg svc) Fs.t _ get).
Proof. intros [self fs]. apply kfold_saved_refl. Qed.

Lemma kfold_saved_ensure_dir (d : string) :
  keeps kfold_saved (@on_snd (KFoldCV.t alg svc) Fs.t _ (ensure_dir d)).
Proof.
  intros [self fs]. unfold on_snd, ensure_dir, modify. cbn [fst snd].
  split; [reflexivity|].
  destruct (existsb (String.eqb d) (Fs.dirs fs)); cbn [Fs.files Fs.dirs].
  - split; [exists []; now rewrite app_nil_r | apply incl_refl].
  - split; [exists []; now rewrite app_nil_r | apply incl_appl, incl_refl].
Qed.

Lemma kfold_saved_to_csv (df : DataFrame.t) (path : string) :
  keeps kfold_saved (@on_snd (KFoldCV.t alg svc) Fs.t _ (to_csv df path)).
Proof.
  intros [self fs]. unfold on_snd, to_csv, modify. cbn [fst snd Fs.files Fs.dirs].
  split; [reflexivity|]. split; [eexists; reflexivity | apply incl_refl].
Qed.

Lemma kfold_save_results_keeps (output_dir : string) :
  keeps kfold_saved (@KFoldCV.save_results alg svc output_dir).
Proof.
  pose proof kfold_saved_refl as Hr. pose proof kfold_saved_trans as Ht.
  unfold KFoldCV.save_results.
  apply keeps_bind; [exact Ht | apply kfold_saved_get |]. intros self.
  destruct (KFoldCV._fold_results self) as [fold_results|];
    [|apply keeps_raise; exact Hr].
  apply keeps_bind; [exact Ht | apply kfold_saved_ensure_dir |]. intros _.
  apply keeps_bind; [exact Ht | |].
  { apply keeps_for_each; [exact Hr | exact Ht |]. intros [i r].
    apply keeps_bind; [exact Ht | apply keeps_lift; exact Hr |]. intros subjects_df.
    apply keeps_bind; [exact Ht | apply kfold_saved_to_csv |]. intros _.
    apply keeps_bind; [exact Ht | apply keeps_lift; exact Hr |]. intros results_df.
    apply keeps_bind; [exact Ht | apply kfold_saved_to_csv |]. intros _.
    apply keeps_ret; exact Hr. }
  intros frames.
  apply keeps_bind; [exact Ht | apply keeps_lift; exact Hr |]. intros all_subjects.
  apply keeps_bind; [exact Ht | apply kfold_saved_to_csv |]. intros _.
  apply keeps_bind; [exact Ht | apply keeps_lift; exact Hr |]. intros all_results.
  apply keeps_bind; [exact Ht | apply kfold_saved_to_csv |]. intros _.
  apply kfold_saved_to_csv.
Qed.

End KFoldSaved.

Section HoldOutSaved.
Context {alg svc : Type} `{Utils}.

Lemma holdout_saved_refl (st : RepeatedHoldOut.t alg svc * Fs.t) :
  holdout_saved st st.
Proof.
  repeat (split; [reflexivity|]). split; [|apply incl_refl].
  exists []. now rewrite app_nil_r.
Qed.

Lemma holdout_saved_trans (st1 st2 st3 : RepeatedHoldOut.t alg svc * Fs.t) :
  holdout_saved st1 st2 -> holdout_saved st2 st3 -> holdout_saved st1 st3.
Proof.
  intros (Ha1 & Hb1 & Hc1 & Hd1 & He1 & Hf1 & Hg1 & (w1 & Hw1) & Hi1)
         (Ha2 & Hb2 & Hc2 & Hd2 & He2 & Hf2 & Hg2 & (w2 & Hw2) & Hi2).
  repeat (split; [congruence|]). split.
  - exists (w1 ++ w2). rewrite Hw2, Hw1, app_assoc. reflexivity.
  - eapply incl_tran; eassumption.
Qed.

Lemma holdout_saved_get :
  keeps holdout_saved (@on_fst (RepeatedHoldOut.t alg svc) Fs.t _ get).
Proof. intros [self fs]. apply holdout_saved_refl. Qed.

Lemma holdout_saved_ensure_dir (d : string) :
  keeps holdout_saved (@on_snd (RepeatedHoldOut.t alg svc) Fs.t _ (ensure_dir d)).
Proof.
  intros [self fs]. unfold on_snd, ensure_dir, modify. cbn [fst snd].
  repeat (split; [reflexivity|]).
  destruct (existsb (String.eqb d) (Fs.dirs fs)); cbn [Fs.files Fs.dirs].
  - split; [exists []; now rewrite app_nil_r | apply incl_refl].
  - split; [exists []; now rewrite app_nil_r | apply incl_appl, incl_refl].
Qed.

Lemma holdout_saved_to_csv (df : DataFrame.t) (path : string) :
  keeps holdout_saved (@on_snd (RepeatedHoldOut.t alg svc) Fs.t _ (to_csv df path)).
Proof.
  intros [self fs]. unfold on_snd, to_csv, modify. cbn [fst snd Fs.files Fs.dirs].
  repeat (split; [reflexivity|]).
  split; [eexists; reflexivity | apply incl_refl].
Qed.

Lemma holdout_saved_error_variance :
  keeps holdout_saved
    (@on_fst (RepeatedHoldOut.t alg svc) Fs.t _ compute_error_variance).
Proof.
  intros [self fs].
  unfold on_fst, compute_error_variance, bind, get, lift, modify, ret.
  cbn [fst snd].
  destruct (split_results self) as [results|e]; [|apply holdout_saved_refl].
  destruct (per_split _ results) as [xs|e]; [|apply holdout_saved_refl].
  destruct (_compute_variance self xs) as [v|e]; [|apply holdout_saved_refl].
  cbn [fst snd]. repeat (split; [reflexivity|]).
  split; [exists []; now rewrite app_nil_r | apply incl_refl].
Qed.

Lemma holdout_saved_accuracy_variance :
  keeps holdout_saved
    (@on_fst (RepeatedHoldOut.t alg svc) Fs.t _ compute_accuracy_variance).
Proof.
  intros [self fs].
  unfold on_fst, compute_accuracy_variance, bind, get, lift, modify, ret.
  cbn [fst snd].
  destruct (split_results self) as [results|e]; [|apply holdout_saved_refl].
  destruct (per_split _ results) as [xs|e]; [|apply holdout_saved_refl].
  destruct (_compute_variance self xs) as [v|e]; [|apply holdout_saved_refl].
  cbn [fst snd]. repeat (split; [reflexivity|]).
  split; [exists []; now rewrite app_nil_r | apply incl_refl].
Qed.

Lemma holdout_save_results_keeps (output_dir : string) :
  keeps holdout_saved (@RepeatedHoldOut.save_results alg svc _ output_dir).
Proof.
  pose proof holdout_saved_refl as Hr. pose proof holdout_saved_trans as Ht.
  unfold RepeatedHoldOut.save_results.
  apply keeps_bind; [exact Ht | apply holdout_saved_get |]. intros self.
  destruct (_split_results self) as [results|];
    [|apply keeps_raise; exact Hr].
  apply keeps_bind; [exact Ht | |].
  { apply keeps_for_each; [exact Hr | exact Ht |]. intros [iteration r].
    apply keeps_bind; [exact Ht | apply holdout_saved_ensure_dir |]. intros _.
    apply keeps_bind; [exact Ht | apply keeps_lift; exact Hr |]. intros train_df.
    apply keeps_bind; [exact Ht | apply holdout_saved_to_csv |]. intros _.
    apply keeps_bind; [exact Ht | apply keeps_lift; exact Hr |]. intros test_df.
    apply keeps_bind; [exact Ht | apply holdout_saved_to_csv |]. intros _.
    apply keeps_bind; [exact Ht | apply keeps_lift; exact Hr |]. intros results_df.
    apply keeps_bind; [exact Ht | apply holdout_saved_to_csv |]. intros _.
    apply keeps_ret; exact Hr. }
  intros frames.
  apply keeps_bind; [exact Ht | apply keeps_lift; exact Hr |]. intros all_train.
  apply keeps_bind; [exact Ht | apply holdout_saved_to_csv |]. intros _.
  apply keeps_bind; [exact Ht | apply keeps_lift; exact Hr |]. intros all_test.
  apply keeps_bind; [exact Ht | apply holdout_saved_to_csv |]. intros _.
  apply keeps_bind; [exact Ht | apply keeps_lift; exact Hr |]. intros all_results.
  apply keeps_bind; [exact Ht | apply holdout_saved_to_csv |]. intros _.
  apply keeps_bind; [exact Ht | apply holdout_saved_to_csv |]. intros _.
  apply keeps_bind; [exact Ht | apply holdout_saved_error_variance |]. intros _.
  apply keeps_bind; [exact Ht | apply holdout_saved_accuracy_variance |]. intros _.
  apply keeps_bind; [exact Ht | apply holdout_saved_get |]. intros self'.
  apply keeps_bind; [exact Ht | apply keeps_lift; exact Hr |]. intros variance_df.
  apply holdout_saved_to_csv.
Qed.

End HoldOutSaved.

(** X12: [save_results] does not touch what the object holds: whether it
    returns or raises, a [KFoldCV] object is exactly as before, and a
    [RepeatedHoldOut] object is as before except for its four variance
    attributes (stored results, classifier, parameters, splits, number
    of iterations and test size are untouched). *)
Theorem save_results_keeps_object :
  forall {alg svc : Type} (output_dir : string),
    (forall st : KFoldCV.t alg svc * Fs.t,
        fst (snd (KFoldCV.save_results output_dir st)) = fst st) /\
    (forall (U : Utils) (st : RepeatedHoldOut.t alg svc * Fs.t),
        let self := fst st in
        let self' := fst (snd (RepeatedHoldOut.save_results output_dir st)) in
        _ml_algorithm self' = _ml_algorithm self /\
        _split_results self' = _split_results self /\
        _classifier self' = _classifier self /\
        _best_params self' = _best_params self /\
        _cv self' = _cv self /\
        _n_iterations self' = _n_iterations self /\
        _test_size self' = _test_size self).
Proof.
  intros alg svc output_dir. split.
  - intros st. apply (kfold_save_results_keeps output_dir st).
  - intros U st self self'.
    destruct (holdout_save_results_keeps output_dir st)
      as (Ha & Hr & Hc & Hb & Hcv & Hn & Ht & _).
    repeat split; assumption.
Qed.

(** ** The tables written by [KFoldCV.save_results] *)

Lemma kfold_subjects_frame_ok (r : FoldResult.t) :
  well_formed_result r ->
  exists df, KFoldCV.subjects_frame r = Ok df /\
             length (DataFrame.rows df) = length (FoldResult.y r).
Proof.
  intros [Hhat Hidx]. unfold KFoldCV.subjects_frame, pd_DataFrame, ints, positions.
  cbn [array_lengths flat_map snd app forallb].
  rewrite !length_map, Hhat, Hidx, !Nat.eqb_refl. cbn [andb].
  eexists. split; [reflexivity|].
  cbn [DataFrame.rows]. rewrite length_map, length_seq. reflexivity.
Qed.

Lemma kfold_results_frame_ok (r : FoldResult.t) :
  exists df, KFoldCV.results_frame r = Ok df /\
             length (DataFrame.rows df) = 1%nat.
Proof. eexists. split; reflexivity. Qed.

Section KFoldTables.
Context {alg svc : Type}.

Lemma kfold_save_loop (container_dir : string) (results : list FoldResult.t) :
  Forall well_formed_result results ->
  forall (k : nat) (self : KFoldCV.t alg svc) (fs : Fs.t),
  exists frames fs',
    for_each (combine (seq k (length results)) results)
      (fun '(i, r) =>
         subjects_df <- lift (KFoldCV.subjects_frame r) ;;
         on_snd (to_csv subjects_df
                   (path_join container_dir ("subjects_fold-" ++ str i ++ ".tsv"))) ;;;
         results_df <- lift (KFoldCV.results_frame r) ;;
         on_snd (to_csv results_df
                   (path_join container_dir ("results_fold-" ++ str i ++ ".tsv"))) ;;;
         ret (subjects_df, results_df))%monad
      (self, fs)
    = (Ok frames, (self, fs')) /\
    length frames = length results /\
    Fs.dirs fs' = Fs.dirs fs /\
    (exists written, Fs.files fs' = Fs.files fs ++ written /\
                     length written = (2 * length results)%nat) /\
    length (flat_map DataFrame.rows (map fst frames)) = test_samples results /\
    length (flat_map DataFrame.rows (map snd frames)) = length results.
Proof.
  induction 1 as [|r results Hr _ IH]; intros k self fs.
  - exists [], fs. cbn. repeat split. exists []. now rewrite app_nil_r.
  - destruct (kfold_subjects_frame_ok r Hr) as (sdf & Hs & Hsrows).
    destruct (kfold_results_frame_ok r) as (rdf & Hrf & Hrrows).
    cbn [length seq combine for_each].
    unfold bind at 1. unfold bind at 1. rewrite Hs. unfold lift at 1.
    unfold bind at 1, on_snd at 1, to_csv at 1, modify at 1. cbn [fst snd].
    unfold bind at 1. rewrite Hrf. unfold lift at 1.
    unfold bind at 1, on_snd at 1, to_csv at 1, modify at 1. cbn [fst snd].
    unfold ret at 1. cbn [Fs.dirs Fs.files].
    match goal with
    | |- context [bind _ _ (self, ?fs1)] =>
        destruct (IH (S k) self fs1)
          as (frames & fs' & Hloop & Hlen & Hdirs & (w & Hw & Hwlen) & Hsub & Hres)
    end.
    unfold bind at 1. rewrite Hloop. unfold ret.
    exists ((sdf, rdf) :: frames), fs'. split; [reflexivity|].
    cbn [Fs.files Fs.dirs] in *.
    split; [simpl; lia|]. split; [exact Hdirs|]. split; [|split].
    + eexists. split.
      * rewrite Hw, <- !app_assoc. reflexivity.
      * rewrite length_app. simpl. lia.
    + cbn [map fst flat_map test_samples fold_right].
      rewrite length_app. fold (test_samples results). lia.
    + cbn [map snd flat_map]. rewrite length_app. simpl. lia.
Qed.

End KFoldTables.

Lemma pd_concat_ok (frames : list DataFrame.t) :
  frames <> [] ->
  exists df, pd_concat frames = Ok df /\
             DataFrame.rows df = flat_map DataFrame.rows frames.
Proof.
  destruct frames as [|f frames]; [congruence|]. intros _.
  eexists. split; reflexivity.
Qed.

(** X13: with at least one stored fold result, each with as many
    predictions and positions as true labels, [KFoldCV.save_results]
    returns normally, leaves the object as it is and writes, after two
    tables per fold, [subjects.tsv] with one row per test sample of every
    fold, [results.tsv] with one row per fold and [mean_results.tsv] with
    one row. *)
Theorem kfold_save_results_tables :
  forall {alg svc : Type} (self : KFoldCV.t alg svc)
         (results : list FoldResult.t) (output_dir : string) (fs : Fs.t),
    KFoldCV._fold_results self = Some results ->
    results <> [] ->
    Forall well_formed_result results ->
    exists per_fold all_subjects all_results mean_results dirs,
      KFoldCV.save_results output_dir (self, fs)
      = (Ok tt,
         (self,
          Fs.mk dirs
            (Fs.files fs ++ per_fold
             ++ [(path_join output_dir "subjects.tsv", all_subjects);
                 (path_join output_dir "results.tsv", all_results);
                 (path_join output_dir "mean_results.tsv", mean_results)]))) /\
      length per_fold = (2 * length results)%nat /\
      length (DataFrame.rows all_subjects) = test_samples results /\
      length (DataFrame.rows all_results) = length results /\
      length (DataFrame.rows mean_results) = 1%nat.
Proof.
  intros alg svc self results output_dir fs Hres Hne Hwf.
  unfold KFoldCV.save_results.
  unfold bind at 1, on_fst at 1, get at 1. cbn [fst snd]. rewrite Hres.
  unfold bind at 1, on_snd at 1. cbn [fst snd].
  destruct (ensure_dir (path_join output_dir "folds") fs) as [r0 fs0] eqn:Hdir.
  assert (Hr0 : r0 = Ok tt /\ Fs.files fs0 = Fs.files fs).
  { unfold ensure_dir, modify in Hdir. injection Hdir as <- <-.
    split; [reflexivity|]. destruct (existsb _ _); reflexivity. }
  destruct Hr0 as [-> Hfiles0].
  destruct (kfold_save_loop (path_join output_dir "folds") results Hwf 0 self fs0)
    as (frames & fs1 & Hloop & Hlen & Hdirs & (w & Hw & Hwlen) & Hsub & Hrows).
  unfold bind at 1. rewrite Hloop.
  assert (Hf : frames <> []).
  { destruct frames; [|discriminate]. destruct results; [congruence|discriminate]. }
  destruct (pd_concat_ok (map fst frames)) as (all_subjects & Hcs & Hsrows).
  { destruct frames; [congruence | discriminate]. }
  destruct (pd_concat_ok (map snd frames)) as (all_results & Hcr & Hrrows).
  { destruct frames; [congruence | discriminate]. }
  cbv zeta.
  unfold bind at 1. rewrite Hcs. unfold lift at 1.
  unfold bind at 1, on_snd at 1, to_csv at 1, modify at 1. cbn [fst snd].
  unfold bind at 1. rewrite Hcr. unfold lift at 1.
  unfold bind at 1, on_snd at 1, to_csv at 1, modify at 1. cbn [fst snd].
  unfold on_snd, to_csv, modify. cbn [fst snd Fs.files Fs.dirs].
  exists w, all_subjects, all_results, (mean_frame all_results), (Fs.dirs fs1).
  split; [|split; [|split; [|split]]].
  - rewrite Hw, Hfiles0, <- !app_assoc. reflexivity.
  - exact Hwlen.
  - rewrite Hsrows. exact Hsub.
  - rewrite Hrrows. exact Hrows.
  - reflexivity.
Qed.

Lemma kfold_save_results_tables_example :
  exists per_fold all_subjects all_results mean_results dirs,
    KFoldCV.save_results "out"
      (KFoldCV.mk tt (Some [Toy.fold_result 1 1 [0%Z; 1%Z] [0%Z; 0%Z]])
         (@None unit) None None,
       Fs.mk [] [])
    = (Ok tt,
       (KFoldCV.mk tt (Some [Toy.fold_result 1 1 [0%Z; 1%Z] [0%Z; 0%Z]])
          None None None,
        Fs.mk dirs
          ([] ++ per_fold
           ++ [("out/subjects.tsv"%string, all_subjects);
               ("out/results.tsv"%string, all_results);
               ("out/mean_results.tsv"%string, mean_results)]))) /\
    length per_fold = 2%nat /\
    length (DataFrame.rows all_subjects) = 2%nat /\
    length (DataFrame.rows all_results) = 1%nat /\
    length (DataFrame.rows mean_results) = 1%nat.
Proof.
  apply (kfold_save_results_tables
           (KFoldCV.mk tt (Some [Toy.fold_result 1 1 [0%Z; 1%Z] [0%Z; 0%Z]])
              (@None unit) None None)
           [Toy.fold_result 1 1 [0%Z; 1%Z] [0%Z; 0%Z]] "out" (Fs.mk [] [])).
  - reflexivity.
  - discriminate.
  - repeat constructor.
Defined.

(** ** The variance table written by [RepeatedHoldOut.save_results] *)

Lemma on_snd_Ok_inv {S T A} (m : M T A) (s s' : S) (t t' : T) (a : A) :
  on_snd m (s, t) = (Ok a, (s', t')) -> s' = s /\ m t = (Ok a, t').
Proof.
  unfold on_snd. cbn [fst snd]. destruct (m t) as [r t0].
  intros [= -> -> ->]. split; reflexivity.
Qed.

Lemma on_fst_Ok_inv {S T A} (m : M S A) (s s' : S) (t t' : T) (a : A) :
  on_fst m (s, t) = (Ok a, (s', t')) -> t' = t /\ m s = (Ok a, s').
Proof.
  unfold on_fst. cbn [fst snd]. destruct (m s) as [r s0].
  intros [= -> -> ->]. split; reflexivity.
Qed.

Lemma to_csv_Ok_inv {S} (df : DataFrame.t) (path : string) (s s' : S)
    (fs fs' : Fs.t) (u : unit) :
  on_snd (to_csv df path) (s, fs) = (Ok u, (s', fs')) ->
  s' = s /\ Fs.files fs' = Fs.files fs ++ [(path, df)].
Proof.
  intros Hw. apply on_snd_Ok_inv in Hw as [-> Hw].
  unfold to_csv, modify in Hw. injection Hw as _ <-. split; reflexivity.
Qed.

Section VarianceTable.
Context {alg svc : Type} `{Utils}.
Implicit Type self : RepeatedHoldOut.t alg svc.

Lemma compute_error_variance_Ok_inv self self' (v : npfloat * npfloat) :
  compute_error_variance self = (Ok v, self') ->
  self' = set_error_variance v self.
Proof.
  unfold compute_error_variance, bind, get, lift, modify, ret.
  destruct (split_results self) as [results|e]; [|discriminate].
  destruct (per_split _ results) as [xs|e]; [|discriminate].
  destruct (_compute_variance self xs) as [v0|e]; [|discriminate].
  intros [= <- <-]. reflexivity.
Qed.

Lemma compute_accuracy_variance_Ok_inv self self' (v : npfloat * npfloat) :
  compute_accuracy_variance self = (Ok v, self') ->
  self' = set_accuracy_variance v self.
Proof.
  unfold compute_accuracy_variance, bind, get, lift, modify, ret.
  destruct (split_results self) as [results|e]; [|discriminate].
  destruct (per_split _ results) as [xs|e]; [|discriminate].
  destruct (_compute_variance self xs) as [v0|e]; [|discriminate].
  intros [= <- <-]. reflexivity.
Qed.

(** The accuracy estimates do not depend on the error attributes. *)
Lemma compute_accuracy_variance_after_error self (v : npfloat * npfloat) :
  fst (compute_accuracy_variance (set_error_variance v self))
  = fst (compute_accuracy_variance self).
Proof.
  unfold compute_accuracy_variance, bind, get, lift, modify, ret, split_results.
  cbn [set_error_variance _split_results].
  destruct (_split_results self) as [results|]; [|reflexivity].
  destruct (per_split _ results) as [xs|e]; [|reflexivity].
  unfold _compute_variance, split_results.
  cbn [set_error_variance _split_results _test_size].
  destruct (_split_results self) as [results'|]; [|reflexivity].
  cbn [rbind].
  destruct (py_truediv 1 _) as [a|e]; [|reflexivity]. cbn [rbind].
  destruct (py_truediv (_test_size self) _) as [b|e]; reflexivity.
Qed.

Lemma holdout_save_loop_self (output_dir : string)
    (results : list FoldResult.t) (k : nat) self (fs : Fs.t) :
  fst (snd (for_each (combine (seq k (length results)) results)
       (fun '(iteration, r) =>
          let iteration_dir := path_join output_dir ("iteration-" ++ str iteration) in
          on_snd (ensure_dir iteration_dir) ;;;
          iteration_train_subjects_df <-
            lift (subjects_frame iteration (FoldResult.y_train r)
                    (FoldResult.y_hat_train r) (FoldResult.x_index r)) ;;
          on_snd (to_csv iteration_train_subjects_df
                    (path_join iteration_dir "train_subjects.tsv")) ;;;
          iteration_test_subjects_df <-
            lift (subjects_frame iteration (FoldResult.y r)
                    (FoldResult.y_hat r) (FoldResult.y_index r)) ;;
          on_snd (to_csv iteration_test_subjects_df
                    (path_join iteration_dir "test_subjects.tsv")) ;;;
          iteration_results_df <- lift (results_frame r) ;;
          on_snd (to_csv iteration_results_df
                    (path_join iteration_dir "results.tsv")) ;;;
          ret (iteration_results_df, iteration_train_subjects_df,
               iteration_test_subjects_df))%monad
       (self, fs))) = self.
Proof.
  rewrite for_each_fst_preserved; [reflexivity|].
  intros [iteration r] [s fs0]. cbv zeta.
  unfold bind, on_snd, ensure_dir, to_csv, modify, lift, ret. cbn [fst snd].
  destruct (subjects_frame iteration (FoldResult.y_train r) _ _); [|reflexivity].
  destruct (subjects_frame iteration (FoldResult.y r) _ _); [|reflexivity].
  destruct (results_frame r); reflexivity.
Qed.

End VarianceTable.

(** X14: when [RepeatedHoldOut.save_results] returns normally, the object
    it leaves is the one it was given with the four variance attributes
    set to what [compute_error_variance] and [compute_accuracy_variance]
    return on it, and the last table written is [variance.tsv], one row
    holding these four values. *)
Theorem holdout_save_results_variance :
  forall {alg svc : Type} (U : Utils) (self self' : RepeatedHoldOut.t alg svc)
         (output_dir : string) (fs fs' : Fs.t),
    RepeatedHoldOut.save_results output_dir (self, fs) = (Ok tt, (self', fs')) ->
    exists ev av earlier,
      fst (compute_error_variance self) = Ok ev /\
      fst (compute_accuracy_variance self) = Ok av /\
      self' = set_accuracy_variance av (set_error_variance ev self) /\
      Fs.files fs'
      = earlier
        ++ [(path_join output_dir "variance.tsv",
             DataFrame.mk
               ["bal_accuracy_resampled_t"; "bal_accuracy_corrected_resampled_t";
                "error_resampled_t"; "error_corrected_resampled_t"]%string
               [[CFloat (fst av); CFloat (snd av);
                 CFloat (fst ev); CFloat (snd ev)]])].
Proof.
  intros alg svc U self self' output_dir fs fs' Hsave.
  unfold RepeatedHoldOut.save_results in Hsave.
  apply bind_Ok_inv in Hsave as (s0 & [s0' fs0] & Hget & Hsave).
  unfold on_fst, get in Hget. cbn [fst snd] in Hget.
  injection Hget as Ha Hb Hc. subst s0 s0' fs0.
  destruct (_split_results self) as [results|] eqn:Hres; [|discriminate].
  apply bind_Ok_inv in Hsave as (frames & [s1 fs1] & Hloop & Hsave).
  assert (Hself : s1 = self).
  { change s1 with (fst (snd (Ok frames, (s1, fs1)))). rewrite <- Hloop.
    apply (holdout_save_loop_self output_dir results 0 self fs). }
  subst s1. clear Hloop.
  cbv zeta in Hsave.
  apply bind_Ok_inv in Hsave as (df1 & [s2 fs2] & Hc1 & Hsave).
  apply lift_Ok_inv in Hc1 as [_ Hc1]. injection Hc1 as Ha Hb. subst s2 fs2.
  apply bind_Ok_inv in Hsave as (u1 & [s3 fs3] & Hw1 & Hsave).
  apply to_csv_Ok_inv in Hw1 as [Ha _]. subst s3.
  apply bind_Ok_inv in Hsave as (df2 & [s4 fs4] & Hc2 & Hsave).
  apply lift_Ok_inv in Hc2 as [_ Hc2]. injection Hc2 as Ha Hb. subst s4 fs4.
  apply bind_Ok_inv in Hsave as (u2 & [s5 fs5] & Hw2 & Hsave).
  apply to_csv_Ok_inv in Hw2 as [Ha _]. subst s5.
  apply bind_Ok_inv in Hsave as (df3 & [s6 fs6] & Hc3 & Hsave).
  apply lift_Ok_inv in Hc3 as [_ Hc3]. injection Hc3 as Ha Hb. subst s6 fs6.
  apply bind_Ok_inv in Hsave as (u3 & [s7 fs7] & Hw3 & Hsave).
  apply to_csv_Ok_inv in Hw3 as [Ha _]. subst s7.
  apply bind_Ok_inv in Hsave as (u4 & [s8 fs8] & Hw4 & Hsave).
  apply to_csv_Ok_inv in Hw4 as [Ha _]. subst s8.
  apply bind_Ok_inv in Hsave as (ev & [s9 fs9] & Hev & Hsave).
  apply on_fst_Ok_inv in Hev as [Ha Hev]. subst fs9.
  pose proof (compute_error_variance_Ok_inv _ _ _ Hev) as Ha. subst s9.
  apply bind_Ok_inv in Hsave as (av & [s10 fs10] & Hav & Hsave).
  apply on_fst_Ok_inv in Hav as [Ha Hav]. subst fs10.
  pose proof (compute_accuracy_variance_Ok_inv _ _ _ Hav) as Ha. subst s10.
  apply bind_Ok_inv in Hsave as (s11 & [s11' fs11] & Hget & Hsave).
  unfold on_fst, get in Hget. cbn [fst snd] in Hget.
  injection Hget as Ha Hb Hc. subst s11 s11' fs11.
  apply bind_Ok_inv in Hsave as (vdf & [s12 fs12] & Hvdf & Hsave).
  apply lift_Ok_inv in Hvdf as [Hvdf Ha]. injection Ha as Ha Hb. subst s12 fs12.
  apply to_csv_Ok_inv in Hsave as [Ha Hfiles]. subst self'.
  exists ev, av, (Fs.files fs8).
  split; [now rewrite Hev|]. split.
  { rewrite <- (compute_accuracy_variance_after_error self ev). now rewrite Hav. }
  split; [reflexivity|].
  rewrite Hfiles. do 3 f_equal.
  cbn in Hvdf. injection Hvdf as <-. reflexivity.
Qed.

Lemma holdout_save_results_variance_example :
  exists self' fs' earlier,
    RepeatedHoldOut.save_results "out" (Toy.single_iteration, Fs.mk [] [])
    = (Ok tt, (self', fs')) /\
    self' = set_accuracy_variance (NaN, NaN)
              (set_error_variance (NaN, NaN) Toy.single_iteration) /\
    Fs.files fs'
    = earlier
      ++ [("out/variance.tsv"%string,
           DataFrame.mk
             ["bal_accuracy_resampled_t"; "bal_accuracy_corrected_resampled_t";
              "error_resampled_t"; "error_corrected_resampled_t"]%string
             [[CFloat NaN; CFloat NaN; CFloat NaN; CFloat NaN]])].
Proof.
  assert (Hev : compute_error_variance Toy.single_iteration
                = (Ok (NaN, NaN),
                   set_error_variance (NaN, NaN) Toy.single_iteration)).
  { eapply compute_error_variance_ok.
    - reflexivity.
    - apply per_split_single.
      apply (compute_average_test_error_finite [0%Z] [0%Z]);
        [reflexivity | discriminate].
    - eapply compute_variance_single; [reflexivity | simpl; lra]. }
  assert (Hav : compute_accuracy_variance
                  (set_error_variance (NaN, NaN) Toy.single_iteration)
                = (Ok (NaN, NaN),
                   set_accuracy_variance (NaN, NaN)
                     (set_error_variance (NaN, NaN) Toy.single_iteration))).
  { eapply compute_accuracy_variance_ok.
    - reflexivity.
    - apply per_split_single. reflexivity.
    - eapply compute_variance_single; [reflexivity | simpl; lra]. }
  assert (Hrun : exists fs',
             RepeatedHoldOut.save_results "out" (Toy.single_iteration, Fs.mk [] [])
             = (Ok tt,
                (set_accuracy_variance (NaN, NaN)
                   (set_error_variance (NaN, NaN) Toy.single_iteration), fs'))).
  { unfold RepeatedHoldOut.save_results.
    unfold bind at 1, on_fst at 1, get at 1. cbn [fst snd].
    change (_split_results Toy.single_iteration)
      with (Some [Toy.fold_result 1 1 [0%Z] [0%Z]]).
    cbv beta iota.
    unfold bind at 1.
    match goal with
    | |- context [for_each ?l ?b ?st] =>
        let r := eval cbv -[Rplus Rmult Rdiv Rinv Rminus Ropp IZR INR
                            Toy.single_iteration] in (for_each l b st) in
        change (for_each l b st) with r
    end.
    cbv zeta. cbv beta iota.
    unfold bind at 1, lift at 1. cbn [pd_concat map fst snd].
    unfold bind at 1, on_snd at 1, to_csv at 1, modify at 1. cbn [fst snd].
    unfold bind at 1, lift at 1. cbn [pd_concat map fst snd].
    unfold bind at 1, on_snd at 1, to_csv at 1, modify at 1. cbn [fst snd].
    unfold bind at 1, lift at 1. cbn [pd_concat map fst snd].
    unfold bind at 1, on_snd at 1, to_csv at 1, modify at 1. cbn [fst snd].
    unfold bind at 1, on_snd at 1, to_csv at 1, modify at 1. cbn [fst snd].
    unfold bind at 1, on_fst at 1. cbn [fst snd]. rewrite Hev.
    unfold bind at 1, on_fst at 1. cbn [fst snd]. rewrite Hav.
    unfold bind at 1, on_fst at 1, get at 1. cbn [fst snd].
    unfold bind at 1, lift at 1.
    eexists. reflexivity. }
  destruct Hrun as (fs' & Hrun).
  destruct (holdout_save_results_variance Toy.utils _ _ _ _ _ Hrun)
    as (ev & av & earlier & Hev' & Hav' & Hself & Hfiles).
  eexists _, fs', earlier. split; [exact Hrun|]. split; [reflexivity|].
  rewrite Hfiles.
  rewrite Hev in Hev'. cbn [fst] in Hev'. injection Hev' as <-.
  rewrite <- (compute_accuracy_variance_after_error Toy.single_iteration (NaN, NaN)),
    Hav in Hav'.
  cbn [fst] in Hav'. injection Hav' as <-. reflexivity.
Defined.

(** ** The weight vector of [save_weights] *)

Lemma take_in_range_Ok {A} (a : list A) (idx : index) (d : A) :
  Forall (fun i => (i < length a)%nat) idx ->
  take a idx = Ok (map (fun i => nth i a d) idx).
Proof.
  induction 1 as [|i idx Hi _ IH]; cbn [take map]; [reflexivity|].
  destruct (nth_error a i) as [v|] eqn:Hnth.
  - rewrite IH. cbn [rbind]. do 2 f_equal.
    symmetry. apply nth_error_nth. exact Hnth.
  - apply nth_error_None in Hnth. lia.
Qed.

Lemma nth_map_seq {A} (f : nat -> A) (n i : nat) (d : A) :
  (i < n)%nat -> nth i (map f (seq 0 n)) d = f i.
Proof.
  intros Hi. rewrite (nth_indep _ d (f 0%nat)) by (rewrite length_map, length_seq; exact Hi).
  rewrite map_nth, seq_nth by exact Hi. reflexivity.
Qed.

Lemma combine_as_seq {A B} (l1 : list A) (l2 : list B) (d1 : A) (d2 : B) :
  length l2 = length l1 ->
  combine l1 l2 = map (fun i => (nth i l1 d1, nth i l2 d2)) (seq 0 (length l1)).
Proof.
  revert l2. induction l1 as [|a l1 IH]; intros [|b l2] Hlen;
    simpl in Hlen; try discriminate; [reflexivity|].
  injection Hlen as Hlen. cbn [combine length seq map nth].
  rewrite (IH l2 Hlen), <- seq_shift, map_map. reflexivity.
Qed.

Lemma stretch_in_range (n i : nat) : (i < n)%nat -> Array2.stretch n i = i.
Proof.
  intros Hi. unfold Array2.stretch.
  destruct (Nat.eqb n 1) eqn:Hn; [|reflexivity].
  apply Nat.eqb_eq in Hn. lia.
Qed.

Lemma broadcast_dim_one (n : nat) : Array2.broadcast_dim 1 n = Ok n.
Proof.
  unfold Array2.broadcast_dim. destruct (Nat.eqb 1 n) eqn:Hn.
  - apply Nat.eqb_eq in Hn. now subst.
  - reflexivity.
Qed.

Lemma broadcast_dim_same (n : nat) : Array2.broadcast_dim n n = Ok n.
Proof. unfold Array2.broadcast_dim. now rewrite Nat.eqb_refl. Qed.

(** X15: for a fitted binary classifier (one row of [n] dual coefficients,
    [n] support-vector indices within the samples) and a feature matrix
    with [D] columns, [save_weights] returns the vector of length [D]
    whose entry [j] is the sum over the support vectors of
    [dual_coefficient_i * x[sv_i][j]], and writes it to [weights.txt]. *)
Theorem save_weights_linear_combination :
  forall {svc : Type} `{SVCAttributes svc} (classifier : svc) (x : matrix)
         (output_dir : string) (disk : Disk) (alphas : list R) (D : nat),
    dual_coef_ classifier = [alphas] ->
    length (support_ classifier) = length alphas ->
    Forall (fun i => (i < length x)%nat) (support_ classifier) ->
    x <> [] ->
    Forall (fun row => length row = D) x ->
    let weights :=
      map (fun j =>
             Rsum (map (fun p => fst p * nth j (nth (snd p) x []) 0)
                       (combine alphas (support_ classifier))))
          (seq 0 D) in
    save_weights classifier x output_dir disk
    = (Ok weights,
       disk ++ [(path_join output_dir "weights.txt", TxtVector weights)]).
Proof.
  intros svc Hattr classifier x output_dir disk alphas D Hdual Hlen Hrange Hx Hrect
         weights.
  assert (Hcols : Array2.ncols (Array2.of_rows x) = D).
  { destruct x as [|row x]; [congruence|]. inversion Hrect; subst. reflexivity. }
  unfold save_weights. cbv zeta. rewrite Hdual.
  unfold Array2.take_rows. cbn [Array2.of_rows Array2.rows].
  rewrite (take_in_range_Ok x _ [] Hrange). cbn [rbind].
  unfold bind at 1, lift at 1.
  change (match x with [] => 0%nat | r :: _ => length r end)
    with (Array2.ncols (Array2.of_rows x)).
  rewrite Hcols.
  unfold Array2.mul, Array2.transpose.
  cbn [Array2.nrows Array2.ncols Array2.rows length].
  rewrite Hlen, broadcast_dim_same, broadcast_dim_one. cbn [rbind].
  unfold bind at 1, lift at 1.
  unfold bind at 1, write_file at 1, modify at 1. unfold ret.
  match goal with
  | |- context [Array2.sum_axis0 ?a] =>
      assert (Hw : Array2.sum_axis0 a = weights)
  end.
  { unfold Array2.sum_axis0, weights. cbn [Array2.nrows Array2.ncols].
    apply map_ext_in. intros j Hj. apply in_seq in Hj. f_equal.
    cbn [Array2.of_rows Array2.nrows Array2.ncols Array2.rows length].
    rewrite (combine_as_seq alphas (support_ classifier) 0 0%nat Hlen), map_map.
    apply map_ext_in. intros i Hi. apply in_seq in Hi. cbn [fst snd].
    unfold Array2.get at 1. cbn [Array2.rows].
    rewrite nth_map_seq by lia. rewrite nth_map_seq by lia.
    rewrite (stretch_in_range (length alphas) i), (stretch_in_range D j) by lia.
    unfold Array2.stretch. cbn [Nat.eqb].
    unfold Array2.get. cbn [Array2.rows].
    rewrite nth_map_seq by lia. cbn [seq map nth].
    f_equal.
    rewrite (nth_indep _ [] (nth 0%nat x [])) by (rewrite length_map; lia).
    rewrite (map_nth (fun i0 => nth i0 x [])). reflexivity. }
  rewrite Hw. reflexivity.
Qed.

Lemma save_weights_linear_combination_example :
  save_weights (SVC.mk (Fin 1) precomputed true tol_1e_6 None) Toy.features
    "out/classifier" []
  = (Ok [-1; 1], [("out/classifier/weights.txt"%string, TxtVector [-1; 1])]).
Proof.
  rewrite (save_weights_linear_combination
             (SVC.mk (Fin 1) precomputed true tol_1e_6 None) Toy.features
             "out/classifier" [] [2; -1] 2).
  - cbv [Toy.attributes support_ combine seq map nth fst snd Toy.features Rsum
         fold_right app path_join String.eqb ends_with_slash].
    cbn. repeat f_equal; lra.
  - reflexivity.
  - reflexivity.
  - repeat constructor.
  - discriminate.
  - repeat constructor.
Defined.

(** ** The order in which [run] writes *)

Lemma bind_inv {S A B} (m : M S A) (k : A -> M S B) (s s' : S) (r : result B) :
  bind m k s = (r, s') ->
  (exists e, m s = (Raise e, s') /\ r = Raise e) \/
  exists a s1, m s = (Ok a, s1) /\ k a s1 = (r, s').
Proof.
  unfold bind. destruct (m s) as [[a|e] s1].
  - intros Hk. right. exists a, s1. split; [reflexivity | exact Hk].
  - intros [= <- <-]. left. exists e. split; reflexivity.
Qed.

Lemma save_weights_outcome {svc} `{SVCAttributes svc} (classifier : svc)
    (x : matrix) (output_dir : string) (disk disk' : Disk) (r : result (list R)) :
  save_weights classifier x output_dir disk = (r, disk') ->
  ((exists e, r = Raise e) /\ disk' = disk) \/
  exists weights,
    r = Ok weights /\
    disk' = disk ++ [(path_join output_dir "weights.txt", TxtVector weights)].
Proof.
  unfold save_weights. intros Hs.
  apply bind_inv in Hs as [(e & Hm & ->) | (x_sv & s1 & Hm & Hs)].
  { injection Hm as _ <-. left. split; [eexists; reflexivity | reflexivity]. }
  injection Hm as _ <-.
  apply bind_inv in Hs as [(e & Hm & ->) | (weighted & s1 & Hm & Hs)].
  { injection Hm as _ <-. left. split; [eexists; reflexivity | reflexivity]. }
  injection Hm as _ <-.
  injection Hs as <- <-. right. eexists. split; reflexivity.
Qed.

Lemma ensure_dir_creates (d : string) (fs : Fs.t) :
  In d (Fs.dirs (snd (ensure_dir d fs))) /\
  Fs.files (snd (ensure_dir d fs)) = Fs.files fs.
Proof.
  unfold ensure_dir, modify. cbn [snd].
  destruct (existsb (String.eqb d) (Fs.dirs fs)) eqn:Hex.
  - split; [|reflexivity]. apply existsb_exists in Hex as (d' & Hin & Heq).
    apply String.eqb_eq in Heq. subst d'. exact Hin.
  - split; [|reflexivity]. cbn [Fs.dirs]. apply in_or_app. right. left. reflexivity.
Qed.

Lemma zoom_inv {S T A} (view : S -> T) (update : T -> S -> S) (m : M T A)
    (s s' : S) (r : result A) :
  zoom view update m s = (r, s') ->
  m (view s) = (r, snd (m (view s))) /\ s' = update (snd (m (view s))) s.
Proof.
  unfold zoom. destruct (m (view s)) as [r0 t']. intros [= <- <-].
  split; reflexivity.
Qed.

Lemma save_classifier_writes {svc} `{SVCAttributes svc} (classifier : svc)
    (best_params : BestParameter.t) (output_dir : string) (disk : Disk) :
  save_classifier classifier output_dir disk
  = (Ok tt, disk ++ firstn 3 (classifier_files classifier best_params output_dir)) /\
  save_parameters best_params output_dir
    (disk ++ firstn 3 (classifier_files classifier best_params output_dir))
  = (Ok tt, disk ++ classifier_files classifier best_params output_dir).
Proof.
  unfold save_classifier, save_parameters, write_file, bind, modify, classifier_files.
  cbn [firstn]. rewrite <- !app_assoc. cbn [app]. split; reflexivity.
Qed.

Section Workflows.
Context {svc rng : Type} `{Sklearn svc rng} `{Utils} `{SVCAttributes svc}.

Lemma holdout_on_validation_inv {T A}
    (view : World.t (RB_RepeatedHoldOut_DualSVM_Classification.t svc) rng -> T)
    update (m : M (_ * T) A) w validation (r : result A) w' :
  RB_RepeatedHoldOut_DualSVM_Classification._validation (World.self w)
  = Some validation ->
  RB_RepeatedHoldOut_DualSVM_Classification.on_validation view update m w = (r, w') ->
  exists v' t',
    m (validation, view w) = (r, (v', t')) /\
    w' = World.set_self
           (RB_RepeatedHoldOut_DualSVM_Classification.set_validation v' (World.self w))
           (update t' w).
Proof.
  unfold RB_RepeatedHoldOut_DualSVM_Classification.on_validation.
  intros ->. destruct (m (validation, view w)) as [r0 [v' t']].
  intros [= <- <-]. exists v', t'. split; reflexivity.
Qed.

(** X16: [RB_RepeatedHoldOut_DualSVM_Classification.run] writes in a fixed
    order, whatever the input and the collaborators.  Either it raises
    having written nothing (no classifier file, no table, no directory);
    or validation has succeeded on a fresh validation object, which now
    holds the classifier, the aggregated parameters and exactly
    [n_iterations] results, the classifier directory exists, and then
    either [save_weights] raised after the three classifier files and
    [best_parameters.json] were written and before any table, or those
    four files and [weights.txt] were all written, in that order, before
    the first result table.  In particular a run that returns has written
    all five files. *)
Theorem repeated_holdout_run_write_order :
  forall w : World.t (RB_RepeatedHoldOut_DualSVM_Classification.t svc) rng,
    let '(r, w') := RB_RepeatedHoldOut_DualSVM_Classification.run w in
    let self := World.self w in
    let classifier_dir :=
      path_join (RB_RepeatedHoldOut_DualSVM_Classification._output_dir self)
        "classifier" in
    ((exists e, r = Raise e) /\
     World.artefacts w' = World.artefacts w /\ World.tables w' = World.tables w)
    \/
    exists classifier best_params validation results,
      RB_RepeatedHoldOut_DualSVM_Classification._validation (World.self w')
      = Some validation /\
      _classifier validation = Some classifier /\
      _best_params validation = Some best_params /\
      _split_results validation = Some results /\
      length results = RB_RepeatedHoldOut_DualSVM_Classification._n_iterations self /\
      In classifier_dir (Fs.dirs (World.tables w')) /\
      (((exists e, r = Raise e) /\
        World.artefacts w'
        = World.artefacts w
          ++ classifier_files classifier best_params classifier_dir /\
        Fs.files (World.tables w') = Fs.files (World.tables w))
       \/
       exists weights written,
         World.artefacts w'
         = World.artefacts w
           ++ classifier_files classifier best_params classifier_dir
           ++ [(path_join classifier_dir "weights.txt", TxtVector weights)] /\
         Fs.files (World.tables w') = Fs.files (World.tables w) ++ written).
Proof.
  intros w.
  destruct (RB_RepeatedHoldOut_DualSVM_Classification.run w) as [r w'] eqn:Hrun.
  intros self classifier_dir.
  assert (Hnothing : forall e : exn,
             (exists e0, Raise (A:=unit) e = Raise e0) /\
             World.artefacts w = World.artefacts w /\
             World.tables w = World.tables w)
    by (intros e; repeat split; eexists; reflexivity).
  unfold RB_RepeatedHoldOut_DualSVM_Classification.run in Hrun.
  apply bind_inv in Hrun as [(e & Hm & ->) | (w0 & s1 & Hm & Hrun)];
    [discriminate Hm|].
  injection Hm as <- <-.
  apply bind_inv in Hrun as [(e & Hm & ->) | (x & s1 & Hm & Hrun)].
  { injection Hm as _ <-. left. apply Hnothing. }
  injection Hm as _ <-.
  apply bind_inv in Hrun as [(e & Hm & ->) | (y & s1 & Hm & Hrun)].
  { injection Hm as _ <-. left. apply Hnothing. }
  injection Hm as _ <-.
  apply bind_inv in Hrun as [(e & Hm & ->) | (kernel & s1 & Hm & Hrun)].
  { injection Hm as _ <-. left. apply Hnothing. }
  injection Hm as _ <-.
  apply bind_inv in Hrun as [(e & Hm & ->) | (u & s1 & Hm & Hrun)].
  { left. destruct (RB_RepeatedHoldOut_DualSVM_Classification._verbose (World.self w));
      injection Hm as _ <-; apply Hnothing. }
  assert (s1 = w) as ->.
  { destruct (RB_RepeatedHoldOut_DualSVM_Classification._verbose (World.self w));
      injection Hm as _ <-; reflexivity. }
  clear Hm u.
  apply bind_inv in Hrun as [(e & Hm & ->) | (u & s1 & Hm & Hrun)];
    [discriminate Hm|].
  injection Hm as _ <-. clear u.
  apply bind_inv in Hrun as [(e & Hm & ->) | (w1 & s1 & Hm & Hrun)];
    [discriminate Hm|].
  injection Hm as <- <-.
  apply bind_inv in Hrun as [(e & Hm & ->) | (algorithm & s1 & Hm & Hrun)];
    [discriminate Hm|].
  injection Hm as <- <-.
  apply bind_inv in Hrun as [(e & Hm & ->) | (u & s1 & Hm & Hrun)];
    [discriminate Hm|].
  injection Hm as _ <-. clear u.
  apply bind_inv in Hrun as [(e & Hm & ->) | ([[classifier best_params] results] & s1 & Hm & Hrun)].
  { left. eapply holdout_on_validation_inv in Hm as (v' & g' & _ & ->);
      [|reflexivity].
    repeat split. eexists; reflexivity. }
  eapply holdout_on_validation_inv in Hm as (v' & g' & Hval & ->); [|reflexivity].
  eapply holdout_validate_appends in Hval as (cv & g0 & run & g1 & _ & Hlen & _ & Hres & Hv');
    [|reflexivity].
  cbn [app] in Hres, Hv'. subst results v'.
  match type of Hrun with _ ?s = _ => remember s as w2 eqn:Hw2 end.
  assert (Ha : World.artefacts w2 = World.artefacts w) by (subst w2; reflexivity).
  assert (Ht : World.tables w2 = World.tables w) by (subst w2; reflexivity).
  assert (Hv : exists v1,
             RB_RepeatedHoldOut_DualSVM_Classification._validation (World.self w2)
             = Some v1 /\
             _classifier v1 = Some classifier /\
             _best_params v1 = Some best_params /\
             _split_results v1 = Some run)
    by (subst w2; eexists; repeat split; reflexivity).
  cbn in Hlen. clear Hw2. destruct Hv as (v1 & Hv1 & Hclf & Hbp & Hres).
  fold self in Hrun. fold classifier_dir in Hrun.
  apply bind_inv in Hrun as [(e & Hm & ->) | (u & w3 & Hm & Hrun)];
    [apply zoom_inv in Hm as [Hm _]; discriminate Hm|].
  apply zoom_inv in Hm as [_ ->]. clear u.
  destruct (ensure_dir_creates classifier_dir (World.tables w2)) as [Hdir Hfiles].
  rewrite Ht in Hdir, Hfiles.
  apply bind_inv in Hrun as [(e & Hm & ->) | (u & w4 & Hm & Hrun)].
  { apply zoom_inv in Hm as [Hm _]. cbn [World.artefacts World.set_tables] in Hm.
    rewrite (proj1 (save_classifier_writes classifier best_params classifier_dir _)) in Hm.
    discriminate Hm. }
  apply zoom_inv in Hm as [_ ->]. clear u.
  apply bind_inv in Hrun as [(e & Hm & ->) | (u & w5 & Hm & Hrun)].
  { apply zoom_inv in Hm as [Hm _].
    cbn [World.artefacts World.set_tables World.set_artefacts] in Hm.
    rewrite (proj1 (save_classifier_writes classifier best_params classifier_dir _)) in Hm.
    cbn [snd] in Hm.
    rewrite (proj2 (save_classifier_writes classifier best_params classifier_dir _)) in Hm.
    discriminate Hm. }
  apply zoom_inv in Hm as [_ ->]. clear u.
  cbn [World.artefacts World.set_tables World.set_artefacts] in Hrun.
  rewrite (proj1 (save_classifier_writes classifier best_params classifier_dir _)) in Hrun.
  cbn [snd] in Hrun.
  rewrite (proj2 (save_classifier_writes classifier best_params classifier_dir _)) in Hrun.
  rewrite Ha, Ht in Hrun.
  right. exists classifier, best_params.
  apply bind_inv in Hrun as [(e & Hm & ->) | (weights & w6 & Hm & Hrun)].
  { apply zoom_inv in Hm as [Hm ->].
    apply save_weights_outcome in Hm as [[_ Hd] | (weights & [=] & _)].
    rewrite Hd. exists v1, run. cbn. repeat split; try assumption.
    left. repeat split; [eexists; reflexivity | assumption]. }
  apply zoom_inv in Hm as [Hm ->].
  apply save_weights_outcome in Hm as [[[e [=]] _] | (weights' & [= <-] & Hd)].
  rewrite Hd in Hrun. clear Hd.
  eapply holdout_on_validation_inv in Hrun as (v' & fs' & Hsave & ->);
    [|exact Hv1].
  match type of Hsave with
  | _ ?s = _ =>
      pose proof (holdout_save_results_keeps
                    (RB_RepeatedHoldOut_DualSVM_Classification._output_dir self) s)
        as Hkeep
  end.
  rewrite Hsave in Hkeep. cbn [snd fst World.tables World.set_artefacts World.set_tables] in Hkeep.
  destruct Hkeep as (_ & Hres' & Hclf' & Hbp' & _ & _ & _ & (written & Hwr) & Hincl).
  cbn [fst snd] in Hres', Hclf', Hbp', Hwr, Hincl.
  exists v', run. cbn [World.self World.set_self World.tables World.artefacts
                       World.set_tables World.set_artefacts
                       RB_RepeatedHoldOut_DualSVM_Classification._validation
                       RB_RepeatedHoldOut_DualSVM_Classification.set_validation].
  split; [reflexivity|]. split; [congruence|]. split; [congruence|].
  split; [congruence|]. split; [exact Hlen|]. split.
  - apply Hincl. exact Hdir.
  - right. exists weights, written. split.
    + cbn [snd World.artefacts World.set_artefacts].
      rewrite <- app_assoc. reflexivity.
    + rewrite Hwr, Hfiles. reflexivity.
Qed.
Lemma kfold_on_validation_inv {T A}
    (view : World.t (RB_KFold_DualSVM_Classification.t svc) rng -> T)
    update (m : M (_ * T) A) w validation (r : result A) w' :
  RB_KFold_DualSVM_Classification._validation (World.self w)
  = Some validation ->
  RB_KFold_DualSVM_Classification.on_validation view update m w = (r, w') ->
  exists v' t',
    m (validation, view w) = (r, (v', t')) /\
    w' = World.set_self
           (RB_KFold_DualSVM_Classification.set_validation v' (World.self w))
           (update t' w).
Proof.
  unfold RB_KFold_DualSVM_Classification.on_validation.
  intros ->. destruct (m (validation, view w)) as [r0 [v' t']].
  intros [= <- <-]. exists v', t'. split; reflexivity.
Qed.

(** X17: [RB_KFold_DualSVM_Classification.run] writes in the same fixed
    order: nothing at all when it raises up to and including validation;
    otherwise the fresh [KFoldCV] object holds the classifier, the
    aggregated parameters and exactly [n_folds] results, the classifier
    directory exists, and the three classifier files and
    [best_parameters.json], then [weights.txt], are written before the
    first result table; if [save_weights] raises, no table is written. *)
Theorem kfold_run_write_order :
  forall w : World.t (RB_KFold_DualSVM_Classification.t svc) rng,
    let '(r, w') := RB_KFold_DualSVM_Classification.run w in
    let self := World.self w in
    let classifier_dir :=
      path_join (RB_KFold_DualSVM_Classification._output_dir self)
        "classifier" in
    ((exists e, r = Raise e) /\
     World.artefacts w' = World.artefacts w /\ World.tables w' = World.tables w)
    \/
    exists classifier best_params validation results,
      RB_KFold_DualSVM_Classification._validation (World.self w')
      = Some validation /\
      KFoldCV._classifier validation = Some classifier /\
      KFoldCV._best_params validation = Some best_params /\
      KFoldCV._fold_results validation = Some results /\
      length results = RB_KFold_DualSVM_Classification._n_folds self /\
      In classifier_dir (Fs.dirs (World.tables w')) /\
      (((exists e, r = Raise e) /\
        World.artefacts w'
        = World.artefacts w
          ++ classifier_files classifier best_params classifier_dir /\
        Fs.files (World.tables w') = Fs.files (World.tables w))
       \/
       exists weights written,
         World.artefacts w'
         = World.artefacts w
           ++ classifier_files classifier best_params classifier_dir
           ++ [(path_join classifier_dir "weights.txt", TxtVector weights)] /\
         Fs.files (World.tables w') = Fs.files (World.tables w) ++ written).
Proof.
  intros w.
  destruct (RB_KFold_DualSVM_Classification.run w) as [r w'] eqn:Hrun.
  intros self classifier_dir.
  assert (Hnothing : forall e : exn,
             (exists e0, Raise (A:=unit) e = Raise e0) /\
             World.artefacts w = World.artefacts w /\
             World.tables w = World.tables w)
    by (intros e; repeat split; eexists; reflexivity).
  unfold RB_KFold_DualSVM_Classification.run in Hrun.
  apply bind_inv in Hrun as [(e & Hm & ->) | (w0 & s1 & Hm & Hrun)];
    [discriminate Hm|].
  injection Hm as <- <-.
  apply bind_inv in Hrun as [(e & Hm & ->) | (x & s1 & Hm & Hrun)].
  { injection Hm as _ <-. left. apply Hnothing. }
  injection Hm as _ <-.
  apply bind_inv in Hrun as [(e & Hm & ->) | (y & s1 & Hm & Hrun)].
  { injection Hm as _ <-. left. apply Hnothing. }
  injection Hm as _ <-.
  apply bind_inv in Hrun as [(e & Hm & ->) | (kernel & s1 & Hm & Hrun)].
  { injection Hm as _ <-. left. apply Hnothing. }
  injection Hm as _ <-.
  apply bind_inv in Hrun as [(e & Hm & ->) | (u & s1 & Hm & Hrun)].
  { left. destruct (RB_KFold_DualSVM_Classification._verbose (World.self w));
      injection Hm as _ <-; apply Hnothing. }
  assert (s1 = w) as ->.
  { destruct (RB_KFold_DualSVM_Classification._verbose (World.self w));
      injection Hm as _ <-; reflexivity. }
  clear Hm u.
  apply bind_inv in Hrun as [(e & Hm & ->) | (u & s1 & Hm & Hrun)];
    [discriminate Hm|].
  injection Hm as _ <-. clear u.
  apply bind_inv in Hrun as [(e & Hm & ->) | (w1 & s1 & Hm & Hrun)];
    [discriminate Hm|].
  injection Hm as <- <-.
  apply bind_inv in Hrun as [(e & Hm & ->) | (algorithm & s1 & Hm & Hrun)];
    [discriminate Hm|].
  injection Hm as <- <-.
  apply bind_inv in Hrun as [(e & Hm & ->) | (u & s1 & Hm & Hrun)];
    [discriminate Hm|].
  injection Hm as _ <-. clear u.
  apply bind_inv in Hrun as [(e & Hm & ->) | ([[classifier best_params] results] & s1 & Hm & Hrun)].
  { left. eapply kfold_on_validation_inv in Hm as (v' & g' & _ & ->);
      [|reflexivity].
    repeat split. eexists; reflexivity. }
  eapply kfold_on_validation_inv in Hm as (v' & g' & Hval & ->); [|reflexivity].
  eapply kfold_validate_appends in Hval as (cv & g0 & run & g1 & _ & Hlen & _ & Hres & Hv');
    [|reflexivity].
  cbn [app] in Hres, Hv'. subst results v'.
  match type of Hrun with _ ?s = _ => remember s as w2 eqn:Hw2 end.
  assert (Ha : World.artefacts w2 = World.artefacts w) by (subst w2; reflexivity).
  assert (Ht : World.tables w2 = World.tables w) by (subst w2; reflexivity).
  assert (Hv : exists v1,
             RB_KFold_DualSVM_Classification._validation (World.self w2)
             = Some v1 /\
             KFoldCV._classifier v1 = Some classifier /\
             KFoldCV._best_params v1 = Some best_params /\
             KFoldCV._fold_results v1 = Some run)
    by (subst w2; eexists; repeat split; reflexivity).
  cbn in Hlen. clear Hw2. destruct Hv as (v1 & Hv1 & Hclf & Hbp & Hres).
  fold self in Hrun. fold classifier_dir in Hrun.
  apply bind_inv in Hrun as [(e & Hm & ->) | (u & w3 & Hm & Hrun)];
    [apply zoom_inv in Hm as [Hm _]; discriminate Hm|].
  apply zoom_inv in Hm as [_ ->]. clear u.
  destruct (ensure_dir_creates classifier_dir (World.tables w2)) as [Hdir Hfiles].
  rewrite Ht in Hdir, Hfiles.
  apply bind_inv in Hrun as [(e & Hm & ->) | (u & w4 & Hm & Hrun)].
  { apply zoom_inv in Hm as [Hm _]. cbn [World.artefacts World.set_tables] in Hm.
    rewrite (proj1 (save_classifier_writes classifier best_params classifier_dir _)) in Hm.
    discriminate Hm. }
  apply zoom_inv in Hm as [_ ->]. clear u.
  apply bind_inv in Hrun as [(e & Hm & ->) | (u & w5 & Hm & Hrun)].
  { apply zoom_inv in Hm as [Hm _].
    cbn [World.artefacts World.set_tables World.set_artefacts] in Hm.
    rewrite (proj1 (save_classifier_writes classifier best_params classifier_dir _)) in Hm.
    cbn [snd] in Hm.
    rewrite (proj2 (save_classifier_writes classifier best_params classifier_dir _)) in Hm.
    discriminate Hm. }
  apply zoom_inv in Hm as [_ ->]. clear u.
  cbn [World.artefacts World.set_tables World.set_artefacts] in Hrun.
  rewrite (proj1 (save_classifier_writes classifier best_params classifier_dir _)) in Hrun.
  cbn [snd] in Hrun.
  rewrite (proj2 (save_classifier_writes classifier best_params classifier_dir _)) in Hrun.
  rewrite Ha, Ht in Hrun.
  right. exists classifier, best_params.
  apply bind_inv in Hrun as [(e & Hm & ->) | (weights & w6 & Hm & Hrun)].
  { apply zoom_inv in Hm as [Hm ->].
    apply save_weights_outcome in Hm as [[_ Hd] | (weights & [=] & _)].
    rewrite Hd. exists v1, run. cbn. repeat split; try assumption.
    left. repeat split; [eexists; reflexivity | assumption]. }
  apply zoom_inv in Hm as [Hm ->].
  apply save_weights_outcome in Hm as [[[e [=]] _] | (weights' & [= <-] & Hd)].
  rewrite Hd in Hrun. clear Hd.
  eapply kfold_on_validation_inv in Hrun as (v' & fs' & Hsave & ->);
    [|exact Hv1].
  match type of Hsave with
  | _ ?s = _ =>
      pose proof (kfold_save_results_keeps
                    (RB_KFold_DualSVM_Classification._output_dir self) s)
        as Hkeep
  end.
  rewrite Hsave in Hkeep. cbn [snd fst World.tables World.set_artefacts World.set_tables] in Hkeep.
  destruct Hkeep as (Hobj & (written & Hwr) & Hincl).
  cbn [fst snd] in Hobj, Hwr, Hincl.
  exists v', run. cbn [World.self World.set_self World.tables World.artefacts
                       World.set_tables World.set_artefacts
                       RB_KFold_DualSVM_Classification._validation
                       RB_KFold_DualSVM_Classification.set_validation].
  split; [reflexivity|]. split; [congruence|]. split; [congruence|].
  split; [congruence|]. split; [exact Hlen|]. split.
  - apply Hincl. exact Hdir.
  - right. exists weights, written. split.
    + cbn [snd World.artefacts World.set_artefacts].
      rewrite <- app_assoc. reflexivity.
    + rewrite Hwr, Hfiles. reflexivity.
Qed.
(** X18: With [verbose] set and an empty label vector, [run] raises
    [IndexError] at [y[0]], before the algorithm and validation objects
    are created: the workflow object, the random state and the output
    directory are as before.  Both workflows. *)
Theorem run_verbose_empty_labels :
  (forall (w : World.t (RB_RepeatedHoldOut_DualSVM_Classification.t svc) rng)
          (x kernel : matrix),
      let input := RB_RepeatedHoldOut_DualSVM_Classification._input (World.self w) in
      RB_RepeatedHoldOut_DualSVM_Classification._verbose (World.self w) = true ->
      Input.get_x_raw input = Ok x ->
      Input.get_y input = Ok [] ->
      Input.get_kernel input = Ok kernel ->
      RB_RepeatedHoldOut_DualSVM_Classification.run w = (Raise IndexError, w)) /\
  (forall (w : World.t (RB_KFold_DualSVM_Classification.t svc) rng)
          (x kernel : matrix),
      let input := RB_KFold_DualSVM_Classification._input (World.self w) in
      RB_KFold_DualSVM_Classification._verbose (World.self w) = true ->
      Input.get_x_raw input = Ok x ->
      Input.get_y input = Ok [] ->
      Input.get_kernel input = Ok kernel ->
      RB_KFold_DualSVM_Classification.run w = (Raise IndexError, w)).
Proof.
  split; intros w x kernel input Hv Hx Hy Hk; subst input.
  - unfold RB_RepeatedHoldOut_DualSVM_Classification.run.
    unfold bind at 1, get at 1.
    unfold bind at 1, lift at 1. rewrite Hx.
    unfold bind at 1, lift at 1. rewrite Hy.
    unfold bind at 1, lift at 1. rewrite Hk.
    unfold bind at 1. rewrite Hv. reflexivity.
  - unfold RB_KFold_DualSVM_Classification.run.
    unfold bind at 1, get at 1.
    unfold bind at 1, lift at 1. rewrite Hx.
    unfold bind at 1, lift at 1. rewrite Hy.
    unfold bind at 1, lift at 1. rewrite Hk.
    unfold bind at 1. rewrite Hv. reflexivity.
Qed.

End Workflows.

Lemma run_verbose_empty_labels_example :
  let input := Input.mk (Ok []) (Ok []) (Ok []) in
  let holdout :=
    Toy.world
      (RB_RepeatedHoldOut_DualSVM_Classification.__init__ (svc:=SVC.t) input None
         "out" 8 100 (1 / 5) 10 true [1; 10] true) in
  let kfold :=
    Toy.world
      (RB_KFold_DualSVM_Classification.__init__ (svc:=SVC.t) input None
         "out" 10 8 10 true [1; 10] true) in
  RB_RepeatedHoldOut_DualSVM_Classification.run holdout = (Raise IndexError, holdout) /\
  RB_KFold_DualSVM_Classification.run kfold = (Raise IndexError, kfold).
Proof.
  intros input holdout kfold. split.
  - apply (proj1 run_verbose_empty_labels holdout [] []); reflexivity.
  - apply (proj2 run_verbose_empty_labels kfold [] []); reflexivity.
Defined.

Lemma kfold_run_example :
  let w := Toy.world Toy.kfold_workflow in
  fst (RB_KFold_DualSVM_Classification.run w) = Ok tt /\
  map fst (World.artefacts (snd (RB_KFold_DualSVM_Classification.run w)))
  = ["out/classifier/dual_coefficients.txt";
     "out/classifier/support_vectors_indices.txt";
     "out/classifier/intersect.txt";
     "out/classifier/best_parameters.json";
     "out/classifier/weights.txt"]%string /\
  map fst (Fs.files (World.tables (snd (RB_KFold_DualSVM_Classification.run w))))
  = ["out/folds/subjects_fold-0.tsv"; "out/folds/results_fold-0.tsv";
     "out/subjects.tsv"; "out/results.tsv"; "out/mean_results.tsv"]%string.
Proof.
  intros w. subst w. repeat split; run_toy.
Qed.
